(** * The intent lifecycle engine: AgentRegistry, PolicyEngine, CrossChainExecutor

    A shallow embedding of the three Solidity contracts and the properties of
    their nonce, policy-window, timelock, dispute and relayer logic.

    Conventions of the embedding:
    - [uint256], [bytes32] and [address] values are [N]; Solidity 0.8 checked
      arithmetic is written out ([add256], [sub256], [mul256] revert with
      [Panic 0x11] where the EVM would);
    - a Solidity [mapping] is a [gmap] read through [rd] with the zero value of
      the value type as default;
    - a contract function is a computation [M State A]: it either returns a
      value and the new storage, or reverts with an [Error]; a revert discards
      every write made so far ([transact]). *)

From Stdlib Require Import NArith Ascii String List Lia.
From stdpp Require Import base tactics option list gmap strings.

Local Open Scope N_scope.

(** ** Machine integers *)

Definition MAX_UINT256 : N := Eval cbv in 2 ^ 256 - 1.

Definition ether (n : N) : N := n * 1000000000000000000.
Definition hours (n : N) : N := n * 3600.
Definition days (n : N) : N := n * 86400.

(** ** Keccak-256 (the EVM's [keccak256]) *)

Module Keccak.

Definition mask64 : N := Eval cbv in 2 ^ 64 - 1.

Definition rotl64 (x n : N) : N :=
  N.lor (N.land (N.shiftl x n) mask64) (N.shiftr x (64 - n)).

Definition lane (A : list N) (x y : nat) : N :=
  nth (x mod 5 + 5 * y)%nat A 0.

Definition RC : list N :=
  [ 0x0000000000000001; 0x0000000000008082; 0x800000000000808A;
    0x8000000080008000; 0x000000000000808B; 0x0000000080000001;
    0x8000000080008081; 0x8000000000008009; 0x000000000000008A;
    0x0000000000000088; 0x0000000080008009; 0x000000008000000A;
    0x000000008000808B; 0x800000000000008B; 0x8000000000008089;
    0x8000000000008003; 0x8000000000008002; 0x8000000000000080;
    0x000000000000800A; 0x800000008000000A; 0x8000000080008081;
    0x8000000000008080; 0x0000000080000001; 0x8000000080008008 ].

(** Rotation offsets, indexed [x + 5 * y]. *)
Definition RHO : list N :=
  [ 0; 1; 62; 28; 27;
    36; 44; 6; 55; 20;
    3; 10; 43; 25; 39;
    41; 45; 15; 21; 8;
    18; 2; 61; 56; 14 ].

Definition coords : list (nat * nat) :=
  flat_map (fun y => map (fun x => (x, y)) (seq 0 5)) (seq 0 5).

Definition theta (A : list N) : list N :=
  let C := map (fun x =>
    N.lxor (lane A x 0) (N.lxor (lane A x 1) (N.lxor (lane A x 2)
      (N.lxor (lane A x 3) (lane A x 4))))) (seq 0 5) in
  let D := map (fun x =>
    N.lxor (nth ((x + 4) mod 5)%nat C 0) (rotl64 (nth ((x + 1) mod 5)%nat C 0) 1))
    (seq 0 5) in
  map (fun '(x, y) => N.lxor (lane A x y) (nth x D 0)) coords.

(** [B[y, 2x+3y] = rotl(A[x, y], r[x, y])], read from the target side:
    the lane at [(X, Y)] comes from [x = (X + 3Y) mod 5], [y = X]. *)
Definition rho_pi (A : list N) : list N :=
  map (fun '(X, Y) =>
    let x := ((X + 3 * Y) mod 5)%nat in
    let y := X in
    rotl64 (lane A x y) (nth (x + 5 * y)%nat RHO 0)) coords.

Definition chi (B : list N) : list N :=
  map (fun '(x, y) =>
    N.lxor (lane B x y) (N.ldiff (lane B (x + 2) y) (lane B (x + 1) y))) coords.

Definition iota (rc : N) (A : list N) : list N :=
  match A with
  | [] => []
  | a :: A' => N.lxor a rc :: A'
  end.

Definition round (A : list N) (rc : N) : list N :=
  iota rc (chi (rho_pi (theta A))).

Definition keccak_f (A : list N) : list N := fold_left round RC A.

Definition rate : nat := 136.

Fixpoint le_bytes_to_N (bs : list N) : N :=
  match bs with
  | [] => 0
  | b :: bs' => b + 256 * le_bytes_to_N bs'
  end.

Fixpoint N_to_le_bytes (n : nat) (x : N) : list N :=
  match n with
  | O => []
  | S n' => x mod 256 :: N_to_le_bytes n' (x / 256)
  end.

Fixpoint lanes_of_bytes (n : nat) (bs : list N) : list N :=
  match n with
  | O => []
  | S n' => le_bytes_to_N (firstn 8 bs) :: lanes_of_bytes n' (skipn 8 bs)
  end.

(** pad10*1 with Keccak's domain byte [0x01]: the message, then [0x01],
    zeros, and [0x80] or-ed into the last byte of the block. *)
Definition pad (msg : list N) : list N :=
  let q := (rate - (length msg mod rate))%nat in
  if (q =? 1)%nat then msg ++ [0x81]
  else msg ++ [0x01] ++ repeat 0 (q - 2) ++ [0x80].

Fixpoint xor_lanes (A B : list N) : list N :=
  match A, B with
  | a :: A', b :: B' => N.lxor a b :: xor_lanes A' B'
  | _, [] => A
  | [], _ => []
  end.

Fixpoint absorb (fuel : nat) (A : list N) (bs : list N) : list N :=
  match fuel with
  | O => A
  | S fuel' =>
      match bs with
      | [] => A
      | _ => absorb fuel'
               (keccak_f (xor_lanes A (lanes_of_bytes 17 (firstn rate bs))))
               (skipn rate bs)
      end
  end.

Definition be_bytes_to_N (bs : list N) : N :=
  fold_left (fun acc b => acc * 256 + b) bs 0.

(** The 32-byte digest, read as a big-endian [bytes32] value. *)
Definition keccak256 (msg : list N) : N :=
  let p := pad msg in
  let A := absorb (S (length p / rate)) (repeat 0 25) p in
  be_bytes_to_N (flat_map (N_to_le_bytes 8) (firstn 4 A)).

End Keccak.

(** [bytes(s)]: the bytes of a Solidity string. *)
Fixpoint bytes_of_string (s : string) : list N :=
  match s with
  | EmptyString => []
  | String c s' => N_of_ascii c :: bytes_of_string s'
  end.

(** [keccak256(abi.encodePacked(s))] for a string [s]. *)
Definition keccak_string (s : string) : N :=
  Keccak.keccak256 (bytes_of_string s).

(** ** Reverts and the execution monad *)

(** Every way a modelled call can revert: the custom errors of the three
    contracts, [require]/[revert] with a reason string, a failed built-in
    ([abi.decode], [transfer]) and the compiler's arithmetic panics. *)
Inductive Error : Type :=
  (* AgentRegistry *)
  | AgentAlreadyExists
  | AgentNotFound
  | AgentInactive
  | UnauthorizedCaller
  | InvalidWalletAddress
  | WalletAlreadyBound
  (* PolicyEngine *)
  | SystemPaused
  | AgentIsPaused (agentId : N)
  | CircuitBreakerActive
  | UnauthorizedAdmin
  | PolicyViolation (reason : string)
  (* CrossChainExecutor *)
  | IntentAlreadyExists
  | InvalidNonce
  | IntentExpired
  | UnauthorizedRelayer
  | IntentNotFound
  | IntentAlreadyExecuted
  | TimelockNotExpired
  | InvalidSignature
  (* language level *)
  | RequireFailed (reason : string)
  | Panic (code : N)
  | DecodeFailed
  | TransferFailed.

Global Instance Error_eq_dec : EqDecision Error.
Proof. solve_decision. Defined.

Inductive result (A : Type) : Type :=
  | Ok (a : A)
  | Err (e : Error).
Arguments Ok {A} a.
Arguments Err {A} e.

(** A contract function over storage [S] returning [A]. *)
Definition M (S A : Type) : Type := S -> result (A * S).

Definition ret {S A : Type} (a : A) : M S A := fun s => Ok (a, s).

Definition bind {S A B : Type} (c : M S A) (k : A -> M S B) : M S B :=
  fun s =>
    match c s with
    | Ok (a, s') => k a s'
    | Err e => Err e
    end.

Definition get {S : Type} : M S S := fun s => Ok (s, s).
Definition put {S : Type} (s : S) : M S unit := fun _ => Ok (tt, s).
Definition modify {S : Type} (f : S -> S) : M S unit := fun s => Ok (tt, f s).
Definition revert {S A : Type} (e : Error) : M S A := fun _ => Err e.

Definition require {S : Type} (b : bool) (reason : string) : M S unit :=
  if b then ret tt else revert (RequireFailed reason).

(** A pure computation that may panic, run inside a contract function. *)
Definition lift {S A : Type} (r : result A) : M S A :=
  fun s =>
    match r with
    | Ok a => Ok (a, s)
    | Err e => Err e
    end.

(** A call into another contract whose storage is the component [proj] of
    the caller's world: a revert of the callee reverts the caller. *)
Definition call {W S A : Type} (proj : W -> S) (inj : S -> W -> W)
    (c : M S A) : M W A :=
  fun w =>
    match c (proj w) with
    | Ok (a, s') => Ok (a, inj s' w)
    | Err e => Err e
    end.

Notation "'let*' x ':=' c 'in' k" := (bind c (fun x => k))
  (at level 10, x name, c at level 100, k at level 200,
   format "'[v' 'let*'  x  ':='  c  'in' '/' k ']'").

(** A transaction: the storage after the call is the new storage when the
    call returns and the old storage when it reverts. *)
Definition transact {S A : Type} (c : M S A) (s : S) : S * result A :=
  match c s with
  | Ok (a, s') => (s', Ok a)
  | Err e => (s, Err e)
  end.

(** Checked arithmetic of Solidity 0.8. *)
Definition add256 (a b : N) : result N :=
  if decide (a + b <= MAX_UINT256) then Ok (a + b) else Err (Panic 0x11).

Definition sub256 (a b : N) : result N :=
  if decide (b <= a) then Ok (a - b) else Err (Panic 0x11).

Definition mul256 (a b : N) : result N :=
  if decide (a * b <= MAX_UINT256) then Ok (a * b) else Err (Panic 0x11).

Definition div256 (a b : N) : result N :=
  if decide (b = 0) then Err (Panic 0x12) else Ok (a / b).

(** Reading a mapping: absent keys hold the zero value [d]. *)
Definition rd {V : Type} (d : V) (m : gmap N V) (k : N) : V :=
  default d (m !! k).

(** The context of a call. *)
Record Env : Type := mkEnv {
  msg_sender : N;
  block_timestamp : N;
  block_chainid : N;
  this : N
}.

(** ** AgentRegistry.sol *)

Module AgentRegistry.

Record Agent : Type := mkAgent {
  owner : N;
  wallet : N;
  publicKey : list N;
  metadataCID : string;
  active : bool;
  registeredAt : N
}.

Record PolicyConfig : Type := mkPolicyConfig {
  maxSpendPerDay : N;
  maxTxPerHour : N;
  maxValuePerTx : N;
  whitelistedAddresses : list N
}.

Inductive Event : Type :=
  | AgentRegistered (agentId owner wallet : N) (metadataCID : string)
  | AgentUpdated (agentId : N) (newMetadataCID : string)
  | AgentDeactivated (agentId : N)
  | AgentReactivated (agentId : N)
  | PolicyUpdated (agentId : N) (policy : PolicyConfig).

Record State : Type := mkState {
  agents : gmap N Agent;
  policies : gmap N PolicyConfig;
  walletToAgentId : gmap N N;
  events : list Event
}.

Definition zeroAgent : Agent := mkAgent 0 0 [] "" false 0.
Definition zeroPolicy : PolicyConfig := mkPolicyConfig 0 0 0 [].

(** Storage right after deployment (the contract has no constructor). *)
Definition init : State := mkState ∅ ∅ ∅ [].

Definition agent (s : State) (agentId : N) : Agent := rd zeroAgent (agents s) agentId.

Definition emit (e : Event) : M State unit :=
  modify (fun s => mkState (agents s) (policies s) (walletToAgentId s) (e :: events s)).

Definition set_agent (agentId : N) (a : Agent) : M State unit :=
  modify (fun s =>
    mkState (<[agentId := a]> (agents s)) (policies s) (walletToAgentId s) (events s)).

Definition set_policy (agentId : N) (p : PolicyConfig) : M State unit :=
  modify (fun s =>
    mkState (agents s) (<[agentId := p]> (policies s)) (walletToAgentId s) (events s)).

Definition set_walletToAgentId (w agentId : N) : M State unit :=
  modify (fun s =>
    mkState (agents s) (policies s) (<[w := agentId]> (walletToAgentId s)) (events s)).

(** modifier onlyOwner(agentId) *)
Definition onlyOwner (env : Env) (agentId : N) : M State unit :=
  let* s := get in
  let a := agent s agentId in
  if decide (owner a = 0) then revert AgentNotFound
  else if decide (msg_sender env ≠ owner a) then revert UnauthorizedCaller
  else ret tt.

Definition registerAgent (env : Env) (agentId w : N) (pk : list N)
    (cid : string) (policy : PolicyConfig) : M State unit :=
  let* s := get in
  if decide (wallet (agent s agentId) ≠ 0) then revert AgentAlreadyExists
  else if decide (w = 0) then revert InvalidWalletAddress
  else if decide (rd 0 (walletToAgentId s) w ≠ 0) then revert WalletAlreadyBound
  else
    let* _ := set_agent agentId
                (mkAgent (msg_sender env) w pk cid true (block_timestamp env)) in
    let* _ := set_policy agentId policy in
    let* _ := set_walletToAgentId w agentId in
    let* _ := emit (AgentRegistered agentId (msg_sender env) w cid) in
    emit (PolicyUpdated agentId policy).

Definition updateMetadata (env : Env) (agentId : N) (newCID : string) : M State unit :=
  let* _ := onlyOwner env agentId in
  let* s := get in
  let a := agent s agentId in
  let* _ := set_agent agentId
              (mkAgent (owner a) (wallet a) (publicKey a) newCID (active a) (registeredAt a)) in
  emit (AgentUpdated agentId newCID).

Definition updatePolicy (env : Env) (agentId : N) (policy : PolicyConfig) : M State unit :=
  let* _ := onlyOwner env agentId in
  let* _ := set_policy agentId policy in
  emit (PolicyUpdated agentId policy).

Definition set_active (agentId : N) (b : bool) : M State unit :=
  let* s := get in
  let a := agent s agentId in
  set_agent agentId
    (mkAgent (owner a) (wallet a) (publicKey a) (metadataCID a) b (registeredAt a)).

Definition deactivateAgent (env : Env) (agentId : N) : M State unit :=
  let* _ := onlyOwner env agentId in
  let* _ := set_active agentId false in
  emit (AgentDeactivated agentId).

Definition reactivateAgent (env : Env) (agentId : N) : M State unit :=
  let* _ := onlyOwner env agentId in
  let* _ := set_active agentId true in
  emit (AgentReactivated agentId).

Definition getAgent (agentId : N) : M State Agent :=
  let* s := get in
  let a := agent s agentId in
  if decide (wallet a = 0) then revert AgentNotFound else ret a.

Definition getPolicy (agentId : N) : M State PolicyConfig :=
  let* s := get in
  if decide (wallet (agent s agentId) = 0) then revert AgentNotFound
  else ret (rd zeroPolicy (policies s) agentId).

Definition isAgentActive (agentId : N) : M State bool :=
  let* s := get in ret (active (agent s agentId)).

Definition getAgentIdByWallet (w : N) : M State N :=
  let* s := get in ret (rd 0 (walletToAgentId s) w).

End AgentRegistry.

(** ** PolicyEngine.sol *)

Module PolicyEngine.

Record RollingWindow : Type := mkWindow {
  dailySpent : N;
  dailyWindowStart : N;
  hourlyTxCount : N;
  hourlyWindowStart : N
}.

Record CircuitBreakerConfig : Type := mkBreaker {
  suspiciousActivityThreshold : N;
  cooldownPeriod : N;
  tripped : bool;
  trippedAt : N
}.

Inductive Event : Type :=
  | PolicyChecked (agentId : N) (approved : bool) (reason : string)
  | CircuitBreakerTripped (timestamp : N) (reason : string)
  | CircuitBreakerReset (timestamp : N)
  | EmergencyPaused (admin : N)
  | EmergencyUnpaused (admin : N)
  | AgentPaused (agentId : N)
  | AgentUnpaused (agentId : N).

Record State : Type := mkState {
  rollingWindows : gmap N RollingWindow;
  circuitBreaker : CircuitBreakerConfig;
  paused : bool;
  emergencyAdmin : N;
  agentPaused : gmap N bool;
  events : list Event
}.

Definition zeroWindow : RollingWindow := mkWindow 0 0 0 0.

(** constructor() *)
Definition init (deployer : N) : State :=
  mkState ∅ (mkBreaker 10 (hours 1) false 0) false deployer ∅ [].

Definition window (s : State) (agentId : N) : RollingWindow :=
  rd zeroWindow (rollingWindows s) agentId.

Definition emit (e : Event) : M State unit :=
  modify (fun s =>
    mkState (rollingWindows s) (circuitBreaker s) (paused s) (emergencyAdmin s)
            (agentPaused s) (e :: events s)).

Definition set_window (agentId : N) (f : RollingWindow -> RollingWindow) : M State unit :=
  modify (fun s =>
    mkState (<[agentId := f (window s agentId)]> (rollingWindows s)) (circuitBreaker s)
            (paused s) (emergencyAdmin s) (agentPaused s) (events s)).

Definition set_breaker (f : CircuitBreakerConfig -> CircuitBreakerConfig) : M State unit :=
  modify (fun s =>
    mkState (rollingWindows s) (f (circuitBreaker s)) (paused s) (emergencyAdmin s)
            (agentPaused s) (events s)).

Definition set_paused (b : bool) : M State unit :=
  modify (fun s =>
    mkState (rollingWindows s) (circuitBreaker s) b (emergencyAdmin s)
            (agentPaused s) (events s)).

Definition set_agentPaused (agentId : N) (b : bool) : M State unit :=
  modify (fun s =>
    mkState (rollingWindows s) (circuitBreaker s) (paused s) (emergencyAdmin s)
            (<[agentId := b]> (agentPaused s)) (events s)).

Definition with_dailySpent (v : N) (w : RollingWindow) : RollingWindow :=
  mkWindow v (dailyWindowStart w) (hourlyTxCount w) (hourlyWindowStart w).
Definition with_dailyWindowStart (v : N) (w : RollingWindow) : RollingWindow :=
  mkWindow (dailySpent w) v (hourlyTxCount w) (hourlyWindowStart w).
Definition with_hourlyTxCount (v : N) (w : RollingWindow) : RollingWindow :=
  mkWindow (dailySpent w) (dailyWindowStart w) v (hourlyWindowStart w).
Definition with_hourlyWindowStart (v : N) (w : RollingWindow) : RollingWindow :=
  mkWindow (dailySpent w) (dailyWindowStart w) (hourlyTxCount w) v.

Definition with_tripped (b : bool) (c : CircuitBreakerConfig) : CircuitBreakerConfig :=
  mkBreaker (suspiciousActivityThreshold c) (cooldownPeriod c) b (trippedAt c).
Definition with_trippedAt (t : N) (c : CircuitBreakerConfig) : CircuitBreakerConfig :=
  mkBreaker (suspiciousActivityThreshold c) (cooldownPeriod c) (tripped c) t.

(** function _checkCircuitBreaker(bytes32 agentId) internal *)
Definition _checkCircuitBreaker (env : Env) (agentId : N) : M State unit :=
  let* s := get in
  if tripped (circuitBreaker s) then ret tt
  else
    let* _ := set_breaker (with_tripped true) in
    let* _ := set_breaker (with_trippedAt (block_timestamp env)) in
    emit (CircuitBreakerTripped (block_timestamp env) "Rate limit exceeded").

(** The whitelist loop: scan until the recipient is found. *)
Fixpoint isWhitelisted (whitelistedAddresses : list N) (recipient : N) : bool :=
  match whitelistedAddresses with
  | [] => false
  | a :: rest => if decide (a = recipient) then true else isWhitelisted rest recipient
  end.

Definition checkPolicy (env : Env)
    (agentId value recipient maxSpendPerDay maxTxPerHour maxValuePerTx : N)
    (whitelistedAddresses : list N) : M State bool :=
  let now := block_timestamp env in
  let* s := get in
  (* Check system-wide pause *)
  if paused s then revert SystemPaused
  (* Check agent-specific pause *)
  else if rd false (agentPaused s) agentId then revert (AgentIsPaused agentId)
  else
    (* Check circuit breaker *)
    let* _ :=
      (if tripped (circuitBreaker s) then
         let* t := lift (add256 (trippedAt (circuitBreaker s))
                                (cooldownPeriod (circuitBreaker s))) in
         if decide (now < t) then revert CircuitBreakerActive
         else
           let* _ := set_breaker (with_tripped false) in
           emit (CircuitBreakerReset now)
       else ret tt) in
    (* Check per-transaction limit *)
    if decide (maxValuePerTx < value) then
      let* _ := emit (PolicyChecked agentId false "Exceeds maxValuePerTx") in
      revert (PolicyViolation "Exceeds maxValuePerTx")
    else
      (* Update daily window if needed *)
      let* s1 := get in
      let* dayEnd := lift (add256 (dailyWindowStart (window s1 agentId)) (days 1)) in
      let* _ :=
        (if decide (dayEnd <= now) then
           let* _ := set_window agentId (with_dailySpent 0) in
           set_window agentId (with_dailyWindowStart now)
         else ret tt) in
      (* Check daily spending limit *)
      let* s2 := get in
      let* spent := lift (add256 (dailySpent (window s2 agentId)) value) in
      if decide (maxSpendPerDay < spent) then
        let* _ := emit (PolicyChecked agentId false "Exceeds maxSpendPerDay") in
        revert (PolicyViolation "Exceeds maxSpendPerDay")
      else
        (* Update hourly window if needed *)
        let* hourEnd := lift (add256 (hourlyWindowStart (window s2 agentId)) (hours 1)) in
        let* _ :=
          (if decide (hourEnd <= now) then
             let* _ := set_window agentId (with_hourlyTxCount 0) in
             set_window agentId (with_hourlyWindowStart now)
           else ret tt) in
        (* Check hourly transaction limit *)
        let* s3 := get in
        if decide (maxTxPerHour <= hourlyTxCount (window s3 agentId)) then
          let* _ := emit (PolicyChecked agentId false "Exceeds maxTxPerHour") in
          (* Trip circuit breaker if suspicious *)
          let* _ := _checkCircuitBreaker env agentId in
          revert (PolicyViolation "Exceeds maxTxPerHour")
        else
          (* Check whitelist if provided *)
          let* _ :=
            (if decide (0 < length whitelistedAddresses)%nat then
               if isWhitelisted whitelistedAddresses recipient then ret tt
               else
                 let* _ := emit (PolicyChecked agentId false "Recipient not whitelisted") in
                 revert (PolicyViolation "Recipient not whitelisted")
             else ret tt) in
          (* Update counters *)
          let* spent' := lift (add256 (dailySpent (window s3 agentId)) value) in
          let* _ := set_window agentId (with_dailySpent spent') in
          let* count' := lift (add256 (hourlyTxCount (window s3 agentId)) 1) in
          let* _ := set_window agentId (with_hourlyTxCount count') in
          let* _ := emit (PolicyChecked agentId true "Approved") in
          ret true.

Definition onlyAdmin (env : Env) : M State unit :=
  let* s := get in
  if decide (msg_sender env ≠ emergencyAdmin s) then revert UnauthorizedAdmin else ret tt.

Definition pause (env : Env) : M State unit :=
  let* _ := onlyAdmin env in
  let* _ := set_paused true in
  emit (EmergencyPaused (msg_sender env)).

Definition unpause (env : Env) : M State unit :=
  let* _ := onlyAdmin env in
  let* _ := set_paused false in
  emit (EmergencyUnpaused (msg_sender env)).

Definition pauseAgent (env : Env) (agentId : N) : M State unit :=
  let* _ := onlyAdmin env in
  let* _ := set_agentPaused agentId true in
  emit (AgentPaused agentId).

Definition unpauseAgent (env : Env) (agentId : N) : M State unit :=
  let* _ := onlyAdmin env in
  let* _ := set_agentPaused agentId false in
  emit (AgentUnpaused agentId).

Definition getRollingWindow (agentId : N) : M State RollingWindow :=
  let* s := get in ret (window s agentId).

Definition isOperational (env : Env) : M State bool :=
  let* s := get in
  if paused s then ret false
  else if tripped (circuitBreaker s) then
    let* t := lift (add256 (trippedAt (circuitBreaker s))
                           (cooldownPeriod (circuitBreaker s))) in
    ret (negb (bool_decide (block_timestamp env < t)))
  else ret true.

End PolicyEngine.

(** ** CrossChainExecutor.sol

    The bridge functions ([sendBridgeMessage], [receiveBridgeMessage],
    [setChainBridge], ...) only touch [chainBridges] and [bridgeMessages] and
    call an [IBridge] contract; they and their two mappings are modelled
    apart from this module, in [Bridging] below. *)

Module CrossChainExecutor.

Inductive Status : Type :=
  | Pending
  | Validated
  | Submitted
  | Executed
  | Disputed
  | Failed.

Global Instance Status_eq_dec : EqDecision Status.
Proof. solve_decision. Defined.

Module IntentData.
Record t : Type := mk {
  intentId : N;
  agentId : N;
  srcChainId : N;
  destChainId : N;
  actionHash : N;
  nonce : N;
  expiry : N;
  value : N;
  recipient : N
}.
End IntentData.

Record Intent : Type := mkIntent {
  intentId : N;
  agentId : N;
  srcChainId : N;
  destChainId : N;
  actionHash : N;
  nonce : N;
  expiry : N;
  value : N;
  recipient : N;
  relayer : N;
  submittedAt : N;
  status : Status
}.

Record RelayerInfo : Type := mkRelayerInfo {
  relayerAddress : N;
  stakeAmount : N;
  reputationScore : N;
  intentsProcessed : N;
  successfulExecutions : N;
  isActive : bool;
  lastActive : N
}.

Inductive Event : Type :=
  | IntentEmitted (intentId agentId destChainId actionHash nonce expiry : N)
  | IntentSubmitted (intentId relayer timestamp : N)
  | IntentExecuted (intentId executor timestamp : N)
  | IntentDisputed (intentId disputer : N) (reason : string)
  | RelayerAuthorized (relayer : N)
  | RelayerRevoked (relayer : N).

Record State : Type := mkState {
  _status : N;
  intents : gmap N Intent;
  agentNonces : gmap N N;
  authorizedRelayers : gmap N bool;
  relayerInfo : gmap N RelayerInfo;
  activeRelayers : list N;
  agentRegistry : N;
  policyEngine : N;
  balance : N;
  events : list Event
}.

(** The payload of [executeIntent] as [abi.decode(executionData, (string,
    address, uint256, bytes))] reads it: action, target address, amount and
    data; [None] is a byte string that does not decode. *)
Definition ExecutionData : Type := option (string * N * N * list N).

Definition _NOT_ENTERED : N := 1.
Definition _ENTERED : N := 2.
Definition TIMELOCK_DURATION : N := 60.

Definition DOMAIN_TYPEHASH : N := Eval vm_compute in
  keccak_string "EIP712Domain(string name,string version,uint256 chainId,address verifyingContract)".

Definition INTENT_TYPEHASH : N := Eval vm_compute in
  keccak_string "Intent(bytes32 intentId,bytes32 agentId,uint256 srcChainId,uint256 destChainId,bytes32 actionHash,uint256 nonce,uint256 expiry,uint256 value,address recipient)".

Definition zeroIntent : Intent := mkIntent 0 0 0 0 0 0 0 0 0 0 0 Pending.
Definition zeroRelayerInfo : RelayerInfo := mkRelayerInfo 0 0 0 0 0 false 0.

(** constructor(address _agentRegistry, address _policyEngine) *)
Definition init (_agentRegistry _policyEngine : N) : State :=
  mkState _NOT_ENTERED ∅ ∅ ∅ ∅ [] _agentRegistry _policyEngine 0 [].

Definition intent (s : State) (id : N) : Intent := rd zeroIntent (intents s) id.
Definition nonceOf (s : State) (agent : N) : N := rd 0 (agentNonces s) agent.
Definition info (s : State) (r : N) : RelayerInfo := rd zeroRelayerInfo (relayerInfo s) r.

(** *** Storage writes *)

Definition set_status (v : N) : M State unit :=
  modify (fun s =>
    mkState v (intents s) (agentNonces s) (authorizedRelayers s) (relayerInfo s)
            (activeRelayers s) (agentRegistry s) (policyEngine s) (balance s) (events s)).

Definition set_intent (id : N) (f : Intent -> Intent) : M State unit :=
  modify (fun s =>
    mkState (_status s) (<[id := f (intent s id)]> (intents s)) (agentNonces s)
            (authorizedRelayers s) (relayerInfo s) (activeRelayers s) (agentRegistry s)
            (policyEngine s) (balance s) (events s)).

Definition set_nonce (agent v : N) : M State unit :=
  modify (fun s =>
    mkState (_status s) (intents s) (<[agent := v]> (agentNonces s))
            (authorizedRelayers s) (relayerInfo s) (activeRelayers s) (agentRegistry s)
            (policyEngine s) (balance s) (events s)).

Definition set_authorized (r : N) (b : bool) : M State unit :=
  modify (fun s =>
    mkState (_status s) (intents s) (agentNonces s) (<[r := b]> (authorizedRelayers s))
            (relayerInfo s) (activeRelayers s) (agentRegistry s) (policyEngine s)
            (balance s) (events s)).

Definition set_info (r : N) (f : RelayerInfo -> RelayerInfo) : M State unit :=
  modify (fun s =>
    mkState (_status s) (intents s) (agentNonces s) (authorizedRelayers s)
            (<[r := f (info s r)]> (relayerInfo s)) (activeRelayers s) (agentRegistry s)
            (policyEngine s) (balance s) (events s)).

Definition set_activeRelayers (f : list N -> list N) : M State unit :=
  modify (fun s =>
    mkState (_status s) (intents s) (agentNonces s) (authorizedRelayers s) (relayerInfo s)
            (f (activeRelayers s)) (agentRegistry s) (policyEngine s) (balance s) (events s)).

Definition set_balance (v : N) : M State unit :=
  modify (fun s =>
    mkState (_status s) (intents s) (agentNonces s) (authorizedRelayers s) (relayerInfo s)
            (activeRelayers s) (agentRegistry s) (policyEngine s) v (events s)).

Definition emit (e : Event) : M State unit :=
  modify (fun s =>
    mkState (_status s) (intents s) (agentNonces s) (authorizedRelayers s) (relayerInfo s)
            (activeRelayers s) (agentRegistry s) (policyEngine s) (balance s)
            (e :: events s)).

Definition with_relayer (v : N) (i : Intent) : Intent :=
  mkIntent (intentId i) (agentId i) (srcChainId i) (destChainId i) (actionHash i) (nonce i)
           (expiry i) (value i) (recipient i) v (submittedAt i) (status i).
Definition with_submittedAt (v : N) (i : Intent) : Intent :=
  mkIntent (intentId i) (agentId i) (srcChainId i) (destChainId i) (actionHash i) (nonce i)
           (expiry i) (value i) (recipient i) (relayer i) v (status i).
Definition with_status (v : Status) (i : Intent) : Intent :=
  mkIntent (intentId i) (agentId i) (srcChainId i) (destChainId i) (actionHash i) (nonce i)
           (expiry i) (value i) (recipient i) (relayer i) (submittedAt i) v.

Definition with_relayerAddress (v : N) (r : RelayerInfo) : RelayerInfo :=
  mkRelayerInfo v (stakeAmount r) (reputationScore r) (intentsProcessed r)
                (successfulExecutions r) (isActive r) (lastActive r).
Definition with_stakeAmount (v : N) (r : RelayerInfo) : RelayerInfo :=
  mkRelayerInfo (relayerAddress r) v (reputationScore r) (intentsProcessed r)
                (successfulExecutions r) (isActive r) (lastActive r).
Definition with_reputationScore (v : N) (r : RelayerInfo) : RelayerInfo :=
  mkRelayerInfo (relayerAddress r) (stakeAmount r) v (intentsProcessed r)
                (successfulExecutions r) (isActive r) (lastActive r).
Definition with_intentsProcessed (v : N) (r : RelayerInfo) : RelayerInfo :=
  mkRelayerInfo (relayerAddress r) (stakeAmount r) (reputationScore r) v
                (successfulExecutions r) (isActive r) (lastActive r).
Definition with_successfulExecutions (v : N) (r : RelayerInfo) : RelayerInfo :=
  mkRelayerInfo (relayerAddress r) (stakeAmount r) (reputationScore r) (intentsProcessed r)
                v (isActive r) (lastActive r).
Definition with_isActive (v : bool) (r : RelayerInfo) : RelayerInfo :=
  mkRelayerInfo (relayerAddress r) (stakeAmount r) (reputationScore r) (intentsProcessed r)
                (successfulExecutions r) v (lastActive r).
Definition with_lastActive (v : N) (r : RelayerInfo) : RelayerInfo :=
  mkRelayerInfo (relayerAddress r) (stakeAmount r) (reputationScore r) (intentsProcessed r)
                (successfulExecutions r) (isActive r) v.

(** *** modifier nonReentrant *)

Definition enter : M State unit :=
  let* s := get in
  let* _ := require (negb (bool_decide (_status s = _ENTERED)))
                    "ReentrancyGuard: reentrant call" in
  set_status _ENTERED.

Definition leave : M State unit := set_status _NOT_ENTERED.

Definition nonReentrant {A : Type} (body : M State A) : M State A :=
  let* _ := enter in
  let* a := body in
  let* _ := leave in
  ret a.

(** *** EIP-712 *)

(** A value as one 32-byte big-endian ABI word. *)
Definition word (x : N) : list N := rev (Keccak.N_to_le_bytes 32 x).

(** [abi.encode] of static values. *)
Definition abi_encode (ws : list N) : list N := flat_map word ws.

Definition domainSeparator (env : Env) : N :=
  Keccak.keccak256 (abi_encode
    [ DOMAIN_TYPEHASH; keccak_string "AgentWallet"; keccak_string "1";
      block_chainid env; this env ]).

Definition splitSignature (signature : list N) : result (N * N * N) :=
  if decide (length signature = 65%nat) then
    Ok (Keccak.be_bytes_to_N (firstn 32 signature),
        Keccak.be_bytes_to_N (firstn 32 (skipn 32 signature)),
        nth 64 signature 0)
  else Err (RequireFailed "Invalid signature length").

(** The three deployed contracts: the executor holds the addresses of the
    registry and of the policy engine and calls into them. *)
Record World : Type := mkWorld {
  registry : AgentRegistry.State;
  policy : PolicyEngine.State;
  executor : State
}.

Definition onRegistry {A : Type} (c : M AgentRegistry.State A) : M World A :=
  call registry (fun r w => mkWorld r (policy w) (executor w)) c.
Definition onPolicy {A : Type} (c : M PolicyEngine.State A) : M World A :=
  call policy (fun p w => mkWorld (registry w) p (executor w)) c.
Definition onExecutor {A : Type} (c : M State A) : M World A :=
  call executor (fun e w => mkWorld (registry w) (policy w) e) c.

Section Signatures.

(** The EVM's signature-recovery precompile: [ecrecover digest v r s] is
    the signer's address, or 0 when recovery fails. *)
Variable ecrecover : N -> N -> N -> N -> N.

Definition verifyIntentSignature (env : Env) (d : IntentData.t)
    (signature : list N) : result N :=
  let structHash := Keccak.keccak256 (abi_encode
    [ INTENT_TYPEHASH; IntentData.intentId d; IntentData.agentId d;
      IntentData.srcChainId d; IntentData.destChainId d; IntentData.actionHash d;
      IntentData.nonce d; IntentData.expiry d; IntentData.value d;
      IntentData.recipient d ]) in
  let digest := Keccak.keccak256
    ([0x19; 0x01] ++ word (domainSeparator env) ++ word structHash) in
  match splitSignature signature with
  | Err e => Err e
  | Ok (r, s, v) =>
      let signer := ecrecover digest v r s in
      if decide (signer ≠ 0) then Ok signer
      else Err (RequireFailed "Invalid signature")
  end.

Definition emitIntent (env : Env) (d : IntentData.t) (signature : list N)
    : M World unit :=
  let* _ := onExecutor enter in
  let* w := get in
  (* Validate intent doesn't already exist *)
  if decide (intentId (intent (executor w) (IntentData.intentId d)) ≠ 0) then
    revert IntentAlreadyExists
  (* Validate expiry *)
  else if decide (IntentData.expiry d < block_timestamp env) then
    revert IntentExpired
  (* Validate nonce *)
  else if decide (IntentData.nonce d ≠ nonceOf (executor w) (IntentData.agentId d)) then
    revert InvalidNonce
  else
    (* Validate EIP-712 signature *)
    let* signer := lift (verifyIntentSignature env d signature) in
    (* Verify signer is the authorized agent wallet *)
    let* isActive := onRegistry (AgentRegistry.isAgentActive (IntentData.agentId d)) in
    let* _ := require isActive "Agent not active" in
    let* agent := onRegistry (AgentRegistry.getAgent (IntentData.agentId d)) in
    let* _ := require (bool_decide (signer = AgentRegistry.wallet agent))
                      "Invalid agent signature" in
    (* Check policy compliance via PolicyEngine *)
    let* approved := onPolicy
      (PolicyEngine.checkPolicy
         (mkEnv (this env) (block_timestamp env) (block_chainid env)
                (policyEngine (executor w)))
         (IntentData.agentId d) (IntentData.value d) (IntentData.recipient d)
         1000000000000000000 10 100000000000000000 []) in
    let* _ := require approved "Policy check failed" in
    (* Store intent *)
    let* _ := onExecutor (set_intent (IntentData.intentId d) (fun _ =>
      mkIntent (IntentData.intentId d) (IntentData.agentId d)
               (IntentData.srcChainId d) (IntentData.destChainId d)
               (IntentData.actionHash d) (IntentData.nonce d) (IntentData.expiry d)
               (IntentData.value d) (IntentData.recipient d) 0 0 Pending)) in
    (* Increment nonce *)
    let* w' := get in
    let* n := lift (add256 (nonceOf (executor w') (IntentData.agentId d)) 1) in
    let* _ := onExecutor (set_nonce (IntentData.agentId d) n) in
    let* _ := onExecutor (emit (IntentEmitted
      (IntentData.intentId d) (IntentData.agentId d) (IntentData.destChainId d)
      (IntentData.actionHash d) (IntentData.nonce d) (IntentData.expiry d))) in
    onExecutor leave.

End Signatures.

Definition submitIntent (env : Env) (id : N) : M State unit :=
  let* s := get in
  if negb (rd false (authorizedRelayers s) (msg_sender env)) then
    revert UnauthorizedRelayer
  else if decide (intentId (intent s id) = 0) then revert IntentNotFound
  else if decide (status (intent s id) ≠ Pending) then revert IntentAlreadyExecuted
  else
    let* _ := set_intent id (with_relayer (msg_sender env)) in
    let* _ := set_intent id (with_submittedAt (block_timestamp env)) in
    let* _ := set_intent id (with_status Submitted) in
    emit (IntentSubmitted id (msg_sender env) (block_timestamp env)).

Definition executeIntent (env : Env) (id : N) (executionData : ExecutionData)
    : M State unit :=
  nonReentrant (
    let* s := get in
    if decide (intentId (intent s id) = 0) then revert IntentNotFound
    else if decide (status (intent s id) ≠ Submitted) then revert IntentAlreadyExecuted
    else
      let* unlock := lift (add256 (submittedAt (intent s id)) TIMELOCK_DURATION) in
      if decide (block_timestamp env < unlock) then revert TimelockNotExpired
      else
        (* Decode execution data: (action, targetAddress, amount, data) *)
        match executionData with
        | None => revert DecodeFailed
        | Some (action, targetAddress, amount, data) =>
            (* Validate execution data matches intent *)
            let* _ := require (bool_decide (keccak_string action = actionHash (intent s id)))
                              "Action mismatch" in
            let* _ := require (bool_decide (targetAddress = recipient (intent s id)))
                              "Recipient mismatch" in
            let* _ := require (bool_decide (amount = value (intent s id)))
                              "Amount mismatch" in
            (* Execute based on action type *)
            let* _ :=
              (if decide (keccak_string action = keccak_string "transfer") then
                 emit (IntentExecuted id (msg_sender env) (block_timestamp env))
               else if decide (keccak_string action = keccak_string "call") then
                 emit (IntentExecuted id (msg_sender env) (block_timestamp env))
               else revert (RequireFailed "Unsupported action")) in
            set_intent id (with_status Executed)
        end).

Definition disputeIntent (env : Env) (id : N) (reason : string) : M State unit :=
  let* s := get in
  if decide (intentId (intent s id) = 0) then revert IntentNotFound
  else
    let* _ := set_intent id (with_status Disputed) in
    emit (IntentDisputed id (msg_sender env) reason).

(** function owner() public view: the agent registry's address. *)
Definition owner (s : State) : N := agentRegistry s.

Definition authorizeRelayer (env : Env) (r : N) : M State unit :=
  let* s := get in
  let* _ := require (bool_decide (msg_sender env = owner s))
                    "Only owner can authorize relayers" in
  let* _ := require (negb (bool_decide (r = 0))) "Invalid relayer address" in
  let* _ := set_authorized r true in
  emit (RelayerAuthorized r).

Definition revokeRelayer (env : Env) (r : N) : M State unit :=
  let* s := get in
  let* _ := require (bool_decide (msg_sender env = owner s))
                    "Only owner can revoke relayers" in
  let* _ := set_authorized r false in
  emit (RelayerRevoked r).

Definition getIntent (id : N) : M State Intent :=
  let* s := get in
  if decide (intentId (intent s id) = 0) then revert IntentNotFound
  else ret (intent s id).

(** function registerRelayer(uint256 stakeAmount) external payable, called
    with [msg.value = msg_value]. *)
Definition registerRelayer (env : Env) (stake msg_value : N) : M State unit :=
  let* s0 := get in
  let* b := lift (add256 (balance s0) msg_value) in
  let* _ := set_balance b in
  let* _ := require (bool_decide (100000000000000000 <= stake))
                    "Minimum stake is 0.1 ETH" in
  let* _ := require (bool_decide (stake <= msg_value)) "Insufficient stake amount" in
  let* s := get in
  let* _ := require (negb (isActive (info s (msg_sender env)))) "Already registered" in
  let* _ := set_info (msg_sender env) (with_relayerAddress (msg_sender env)) in
  let* _ := set_info (msg_sender env) (with_stakeAmount stake) in
  let* _ := set_info (msg_sender env) (with_reputationScore 100) in
  let* _ := set_info (msg_sender env) (with_intentsProcessed 0) in
  let* _ := set_info (msg_sender env) (with_successfulExecutions 0) in
  let* _ := set_info (msg_sender env) (with_isActive true) in
  let* _ := set_info (msg_sender env) (with_lastActive (block_timestamp env)) in
  let* _ := set_activeRelayers (fun l => l ++ [msg_sender env]) in
  emit (RelayerAuthorized (msg_sender env)).

(** The removal loop of [unregisterRelayer]: the first entry equal to [r] is
    overwritten with the last entry and the array is popped. *)
Fixpoint find_relayer (l : list N) (r : N) (i : nat) : option nat :=
  match l with
  | [] => None
  | a :: rest => if decide (a = r) then Some i else find_relayer rest r (S i)
  end.

Definition swap_remove (l : list N) (r : N) : list N :=
  match find_relayer l r 0 with
  | None => l
  | Some i => removelast (<[i := List.last l 0]> l)
  end.

(** function unregisterRelayer() external; [accepts] tells whether the
    caller's account accepts the plain ether transfer. *)
Definition unregisterRelayer (env : Env) (accepts : bool) : M State unit :=
  let* s := get in
  let* _ := require (isActive (info s (msg_sender env))) "Not registered" in
  let* _ := set_activeRelayers (fun l => swap_remove l (msg_sender env)) in
  let stakeToReturn := stakeAmount (info s (msg_sender env)) in
  let* _ := set_info (msg_sender env) (with_isActive false) in
  let* _ := set_info (msg_sender env) (with_stakeAmount 0) in
  (* Transfer stake back *)
  let* s' := get in
  if decide (balance s' < stakeToReturn) then revert TransferFailed
  else if negb accepts then revert TransferFailed
  else
    let* _ := set_balance (balance s' - stakeToReturn) in
    emit (RelayerRevoked (msg_sender env)).

(** The score [selectRelayer] gives one active relayer at time [now]. *)
Definition relayerScore (now : N) (r : RelayerInfo) : M State N :=
  let score := reputationScore r in
  (* Bonus for recent activity *)
  let* age := lift (sub256 now (lastActive r)) in
  let* score :=
    (if decide (age < hours 1) then lift (add256 score 10) else ret score) in
  (* Penalty for low success rate *)
  if decide (0 < intentsProcessed r) then
    let* p := lift (mul256 (successfulExecutions r) 100) in
    let* successRate := lift (div256 p (intentsProcessed r)) in
    if decide (successRate < 80) then
      let* q := lift (mul256 score successRate) in
      lift (div256 q 100)
    else ret score
  else ret score.

(** The loop of [selectRelayer] over the rest [rs] of [activeRelayers]. *)
Fixpoint selectLoop (now : N) (rs : list N) (bestScore bestRelayer : N)
    : M State (N * N) :=
  match rs with
  | [] => ret (bestScore, bestRelayer)
  | r :: rest =>
      let* s := get in
      if isActive (info s r) then
        let* score := relayerScore now (info s r) in
        if decide (bestScore < score) then selectLoop now rest score r
        else selectLoop now rest bestScore bestRelayer
      else selectLoop now rest bestScore bestRelayer
  end.

Definition selectRelayer (env : Env) (id : N) : M State N :=
  let* s := get in
  let* _ := require (bool_decide (0 < length (activeRelayers s))%nat)
                    "No active relayers" in
  let* best := selectLoop (block_timestamp env) (activeRelayers s) 0 0 in
  let* _ := require (negb (bool_decide (snd best = 0))) "No suitable relayer found" in
  ret (snd best).

Definition updateRelayerReputation (env : Env) (r : N) (success : bool)
    : M State unit :=
  let* s := get in
  let* _ := require (bool_decide (msg_sender env = this env)
                     || rd false (authorizedRelayers s) (msg_sender env))
                    "Unauthorized" in
  let* _ := require (isActive (info s r)) "Relayer not active" in
  let* n := lift (add256 (intentsProcessed (info s r)) 1) in
  let* _ := set_info r (with_intentsProcessed n) in
  let* _ :=
    (if success then
       let* k := lift (add256 (successfulExecutions (info s r)) 1) in
       let* _ := set_info r (with_successfulExecutions k) in
       (* Increase reputation for success *)
       if decide (reputationScore (info s r) < 200) then
         let* v := lift (add256 (reputationScore (info s r)) 1) in
         set_info r (with_reputationScore v)
       else ret tt
     else
       (* Decrease reputation for failure *)
       if decide (10 < reputationScore (info s r)) then
         let* v := lift (sub256 (reputationScore (info s r)) 5) in
         set_info r (with_reputationScore v)
       else ret tt) in
  set_info r (with_lastActive (block_timestamp env)).

Definition getActiveRelayerCount : M State N :=
  let* s := get in ret (N.of_nat (length (activeRelayers s))).

Definition getActiveRelayer (index : N) : M State N :=
  let* s := get in
  let* _ := require (bool_decide (index < N.of_nat (length (activeRelayers s))))
                    "Index out of bounds" in
  ret (nth (N.to_nat index) (activeRelayers s) 0).

Definition getNonce (agent : N) : M State N :=
  let* s := get in ret (nonceOf s agent).

End CrossChainExecutor.

(** ** Transactions

    The externally callable, state-changing functions of the three contracts,
    and the chain of transactions that starts at deployment. *)

Import CrossChainExecutor.

Inductive Call : Type :=
  (* AgentRegistry *)
  | RegisterAgent (agentId wallet : N) (publicKey : list N) (metadataCID : string)
                  (policy : AgentRegistry.PolicyConfig)
  | UpdateMetadata (agentId : N) (newMetadataCID : string)
  | UpdatePolicy (agentId : N) (policy : AgentRegistry.PolicyConfig)
  | DeactivateAgent (agentId : N)
  | ReactivateAgent (agentId : N)
  (* PolicyEngine *)
  | CheckPolicy (agentId value recipient maxSpendPerDay maxTxPerHour maxValuePerTx : N)
                (whitelistedAddresses : list N)
  | Pause
  | Unpause
  | PauseAgent (agentId : N)
  | UnpauseAgent (agentId : N)
  (* CrossChainExecutor *)
  | EmitIntent (d : IntentData.t) (signature : list N)
  | SubmitIntent (intentId : N)
  | ExecuteIntent (intentId : N) (executionData : ExecutionData)
  | DisputeIntent (intentId : N) (reason : string)
  | AuthorizeRelayer (relayer : N)
  | RevokeRelayer (relayer : N)
  | RegisterRelayer (stakeAmount msg_value : N)
  | UnregisterRelayer (accepts : bool)
  | UpdateRelayerReputation (relayer : N) (success : bool).

Definition ignore {S A : Type} (c : M S A) : M S unit :=
  let* _ := c in ret tt.

Section Chain.

Variable ecrecover : N -> N -> N -> N -> N.

Definition dispatch (env : Env) (c : Call) : M World unit :=
  match c with
  | RegisterAgent a w pk cid p => onRegistry (AgentRegistry.registerAgent env a w pk cid p)
  | UpdateMetadata a cid => onRegistry (AgentRegistry.updateMetadata env a cid)
  | UpdatePolicy a p => onRegistry (AgentRegistry.updatePolicy env a p)
  | DeactivateAgent a => onRegistry (AgentRegistry.deactivateAgent env a)
  | ReactivateAgent a => onRegistry (AgentRegistry.reactivateAgent env a)
  | CheckPolicy a v r d h t wl =>
      onPolicy (ignore (PolicyEngine.checkPolicy env a v r d h t wl))
  | Pause => onPolicy (PolicyEngine.pause env)
  | Unpause => onPolicy (PolicyEngine.unpause env)
  | PauseAgent a => onPolicy (PolicyEngine.pauseAgent env a)
  | UnpauseAgent a => onPolicy (PolicyEngine.unpauseAgent env a)
  | EmitIntent d sig => emitIntent ecrecover env d sig
  | SubmitIntent id => onExecutor (submitIntent env id)
  | ExecuteIntent id data => onExecutor (executeIntent env id data)
  | DisputeIntent id reason => onExecutor (disputeIntent env id reason)
  | AuthorizeRelayer r => onExecutor (authorizeRelayer env r)
  | RevokeRelayer r => onExecutor (revokeRelayer env r)
  | RegisterRelayer stake v => onExecutor (registerRelayer env stake v)
  | UnregisterRelayer acc => onExecutor (unregisterRelayer env acc)
  | UpdateRelayerReputation r ok => onExecutor (updateRelayerReputation env r ok)
  end.

(** One transaction: the world after it and whether it returned. *)
Definition step (env : Env) (c : Call) (w : World) : World * result unit :=
  transact (dispatch env c) w.

Fixpoint run (txs : list (Env * Call)) (w : World) : World :=
  match txs with
  | [] => w
  | (env, c) :: rest => run rest (fst (step env c w))
  end.

End Chain.

(** The three contracts right after deployment. *)
Definition genesis (deployer registryAddress policyAddress : N) : World :=
  mkWorld AgentRegistry.init (PolicyEngine.init deployer)
          (CrossChainExecutor.init registryAddress policyAddress).

Definition reachable (ecrecover : N -> N -> N -> N -> N) (w : World) : Prop :=
  exists deployer registryAddress policyAddress txs,
    w = run ecrecover txs (genesis deployer registryAddress policyAddress).

Module PE := PolicyEngine.
Module AR := AgentRegistry.

Arguments keccak_string : simpl never.
Arguments Keccak.keccak256 : simpl never.
Arguments MAX_UINT256 : simpl never.
Arguments add256 : simpl never.
Arguments sub256 : simpl never.
Arguments mul256 : simpl never.
Arguments div256 : simpl never.
Arguments PolicyEngine.checkPolicy : simpl never.
Arguments verifyIntentSignature : simpl never.

Arguments AR.registerAgent : simpl never.
Arguments AR.updateMetadata : simpl never.
Arguments AR.updatePolicy : simpl never.
Arguments AR.deactivateAgent : simpl never.
Arguments AR.reactivateAgent : simpl never.
Arguments PE.pause : simpl never.
Arguments PE.unpause : simpl never.
Arguments PE.pauseAgent : simpl never.
Arguments PE.unpauseAgent : simpl never.
Arguments emitIntent : simpl never.
Arguments submitIntent : simpl never.
Arguments executeIntent : simpl never.
Arguments disputeIntent : simpl never.
Arguments authorizeRelayer : simpl never.
Arguments revokeRelayer : simpl never.
Arguments registerRelayer : simpl never.
Arguments unregisterRelayer : simpl never.
Arguments updateRelayerReputation : simpl never.
Arguments selectRelayer : simpl never.

(** ** Specification-level definitions *)

(** The reverts of [checkPolicy]: the two pauses, the active breaker, the
    four policy violations, and an arithmetic overflow in a window sum. *)
Definition policy_rejection (agentId : N) (e : Error) : Prop :=
  e = SystemPaused
  \/ e = AgentIsPaused agentId
  \/ e = CircuitBreakerActive
  \/ e = PolicyViolation "Exceeds maxValuePerTx"
  \/ e = PolicyViolation "Exceeds maxSpendPerDay"
  \/ e = PolicyViolation "Exceeds maxTxPerHour"
  \/ e = PolicyViolation "Recipient not whitelisted"
  \/ e = Panic 0x11.

(** The rolling window of an agent after an approved check at time [now]:
    each window first rolls over when its period has elapsed, then counts the
    transaction. *)
Definition window_after (now value : N) (w : PE.RollingWindow) : PE.RollingWindow :=
  let dayReset := bool_decide (PE.dailyWindowStart w + days 1 <= now) in
  let hourReset := bool_decide (PE.hourlyWindowStart w + hours 1 <= now) in
  PE.mkWindow
    ((if dayReset then 0 else PE.dailySpent w) + value)
    (if dayReset then now else PE.dailyWindowStart w)
    ((if hourReset then 0 else PE.hourlyTxCount w) + 1)
    (if hourReset then now else PE.hourlyWindowStart w).

(** ** Proof tools *)

(** The storage writes ([modify] and the setters built on it) stay folded:
    [cbn] runs them on demand during [exec]. *)
Ltac unfold_monad :=
  unfold ignore, onRegistry, onPolicy, onExecutor in *;
  unfold require, lift, call in *;
  unfold bind, ret, get, put, revert in *.

(** The test a computation performs next: the scrutinee at the head of a
    cascade of matches. *)
Ltac head_scrut t :=
  lazymatch t with
  | match ?x with Ok _ => _ | Err _ => _ end => head_scrut x
  | if ?x then _ else _ => head_scrut x
  | match ?x with (_, _) => _ end => head_scrut x
  | match ?x with Some _ => _ | None => _ end => head_scrut x
  | (match ?x with Ok _ => _ | Err _ => _ end) _ => head_scrut x
  | (if ?x then _ else _) _ => head_scrut x
  | (match ?x with (_, _) => _ end) _ => head_scrut x
  | (match ?x with Some _ => _ | None => _ end) _ => head_scrut x
  | _ => t
  end.

Ltac step_head :=
  lazymatch goal with
  | |- ?l = _ -> _ =>
      let x := head_scrut l in
      lazymatch x with
      | Ok _ => fail
      | Err _ => fail
      | Some _ => fail
      | None => fail
      | _ => destruct x eqn:?
      end
  end.

(** A goal [c s = Ok _ -> Q] or [c s = Err _ -> Q] with the computation under
    a match, so that [cbn] runs it to its end. *)
Ltac as_match :=
  lazymatch goal with
  | |- _ = Ok _ -> _ =>
      let H := fresh in
      intros H;
      apply (f_equal (fun r => match r with Ok p => Some p | Err _ => None end)) in H;
      revert H
  | |- _ = Err _ -> _ =>
      let H := fresh in
      intros H;
      apply (f_equal (fun r => match r with Ok _ => None | Err e => Some e end)) in H;
      revert H
  end.

(** Symbolic execution of a goal [c s = r -> Q], one path per subgoal. *)
Ltac dead_path :=
  lazymatch goal with
  | |- None = Some _ -> _ => let H := fresh in intros H; discriminate H
  | _ => idtac
  end.

Ltac exec := as_match; cbn; dead_path; repeat (step_head; cbn; dead_path).

(** Facts a finished path leaves in the context, in usable form. *)
Ltac tidy :=
  repeat match goal with
  | H : add256 ?a ?b = Ok _ |- _ =>
      unfold add256 in H;
      destruct (decide (a + b <= MAX_UINT256)); [injection H as <- | discriminate H]
  | H : sub256 ?a ?b = Ok _ |- _ =>
      unfold sub256 in H;
      destruct (decide (b <= a)); [injection H as <- | discriminate H]
  | H : add256 ?a ?b = Err _ |- _ =>
      unfold add256 in H;
      destruct (decide (a + b <= MAX_UINT256)); [discriminate H | injection H as <-]
  | H : negb _ = true |- _ => apply negb_true_iff in H
  | H : negb _ = false |- _ => apply negb_false_iff in H
  | H : bool_decide _ = true |- _ => apply bool_decide_eq_true in H
  | H : bool_decide _ = false |- _ => apply bool_decide_eq_false in H
  | H : decide _ = _ |- _ => clear H
  | H : ¬ (_ ≠ _) |- _ => apply dec_stable in H
  end.

(** Each contract's own transactions among the calls: the call when it is one
    of the contract's functions, a no-op otherwise. [EmitIntent] is none of
    these: it runs in the executor and calls into the two others. *)
Definition registry_call (env : Env) (c : Call) : M AR.State unit :=
  match c with
  | RegisterAgent a w pk cid p => AR.registerAgent env a w pk cid p
  | UpdateMetadata a cid => AR.updateMetadata env a cid
  | UpdatePolicy a p => AR.updatePolicy env a p
  | DeactivateAgent a => AR.deactivateAgent env a
  | ReactivateAgent a => AR.reactivateAgent env a
  | _ => ret tt
  end.

Definition policy_call (env : Env) (c : Call) : M PE.State unit :=
  match c with
  | CheckPolicy a v r d h t wl => ignore (PE.checkPolicy env a v r d h t wl)
  | Pause => PE.pause env
  | Unpause => PE.unpause env
  | PauseAgent a => PE.pauseAgent env a
  | UnpauseAgent a => PE.unpauseAgent env a
  | _ => ret tt
  end.

Definition executor_call (env : Env) (c : Call) : M State unit :=
  match c with
  | SubmitIntent id => submitIntent env id
  | ExecuteIntent id data => executeIntent env id data
  | DisputeIntent id reason => disputeIntent env id reason
  | AuthorizeRelayer r => authorizeRelayer env r
  | RevokeRelayer r => revokeRelayer env r
  | RegisterRelayer stake v => registerRelayer env stake v
  | UnregisterRelayer acc => unregisterRelayer env acc
  | UpdateRelayerReputation r ok => updateRelayerReputation env r ok
  | _ => ret tt
  end.

Definition is_emit (c : Call) : bool :=
  match c with
  | EmitIntent _ _ => true
  | _ => false
  end.

(** The environment in which [emitIntent] calls the policy engine. *)
Definition policyEnv (env : Env) (w : World) : Env :=
  mkEnv (this env) (block_timestamp env) (block_chainid env) (policyEngine (executor w)).

(** The intent [emitIntent] stores for a descriptor. *)
Definition emitted (d : IntentData.t) : Intent :=
  mkIntent (IntentData.intentId d) (IntentData.agentId d)
           (IntentData.srcChainId d) (IntentData.destChainId d)
           (IntentData.actionHash d) (IntentData.nonce d) (IntentData.expiry d)
           (IntentData.value d) (IntentData.recipient d) 0 0 Pending.

(** Among agents with a nonzero id, the reverse lookup of an agent's wallet
    is the agent. *)
Definition wallet_index_consistent (r : AR.State) : Prop :=
  forall a : N,
    a ≠ 0 -> AR.wallet (AR.agent r a) ≠ 0 ->
    rd 0 (AR.walletToAgentId r) (AR.wallet (AR.agent r a)) = a.

Ltac unfold_registry :=
  unfold AR.registerAgent, AR.updateMetadata, AR.updatePolicy, AR.deactivateAgent,
    AR.reactivateAgent, AR.onlyOwner, AR.set_active, AR.getAgent, AR.isAgentActive in *.

Ltac unfold_policy :=
  unfold PE.checkPolicy, PE._checkCircuitBreaker, PE.pause, PE.unpause, PE.pauseAgent,
    PE.unpauseAgent, PE.onlyAdmin in *.

Ltac unfold_executor :=
  unfold submitIntent, executeIntent, disputeIntent, authorizeRelayer, revokeRelayer,
    registerRelayer, unregisterRelayer, updateRelayerReputation, nonReentrant, enter,
    leave, owner in *.

(** ** Concrete inputs for the examples *)

Definition samplePolicy : AR.PolicyConfig := AR.mkPolicyConfig 100 3 10 [].

(** A recovery function under which every signature is wallet 77's. *)
Definition sampleRecover (digest v r s : N) : N := 77.

Definition sampleSignature : list N := repeat 1 65.

Definition at_time (sender now : N) : Env := mkEnv sender now 1 500.

(** The reputation score after one [updateRelayerReputation]. *)
Definition reputation_after (success : bool) (rep : N) : N :=
  if success then (if decide (rep < 200) then rep + 1 else rep)
  else (if decide (10 < rep) then rep - 5 else rep).

(** A relayer's record after one [updateRelayerReputation] at time [now]. *)
Definition info_after (now : N) (success : bool) (i : RelayerInfo) : RelayerInfo :=
  mkRelayerInfo (relayerAddress i) (stakeAmount i)
    (reputation_after success (reputationScore i))
    (intentsProcessed i + 1)
    (if success then successfulExecutions i + 1 else successfulExecutions i)
    (isActive i) now.

(** The action hashes [executeIntent] dispatches on. *)
Definition supported_action (h : N) : Prop :=
  h = keccak_string "transfer" \/ h = keccak_string "call".

(** [n; n + 1; ...], [len] consecutive nonces. *)
Fixpoint upfrom (n : N) (len : nat) : list N :=
  match len with
  | O => []
  | S k => n :: upfrom (n + 1) k
  end.

(** The nonces of the emissions for [agent] that succeeded along a chain of
    transactions started in world [w], in order. *)
Fixpoint accepted_nonces (ecrecover : N -> N -> N -> N -> N) (agent : N)
    (txs : list (Env * Call)) (w : World) : list N :=
  match txs with
  | [] => []
  | (env, c) :: rest =>
      let out := step ecrecover env c w in
      match c, snd out with
      | EmitIntent d _, Ok _ =>
          if decide (IntentData.agentId d = agent)
          then IntentData.nonce d :: accepted_nonces ecrecover agent rest (fst out)
          else accepted_nonces ecrecover agent rest (fst out)
      | _, _ => accepted_nonces ecrecover agent rest (fst out)
      end
  end.

(** A descriptor of agent 5 for the examples. *)
Definition sampleIntent (id nonce actionHash : N) : IntentData.t :=
  IntentData.mk id 5 1 2 actionHash nonce 1000 5 3.

(** Account 11 registers wallet 77 for the agent id 0. *)
Definition agent_zero_world : World :=
  run sampleRecover
    [ (at_time 11 5, RegisterAgent 0 77 [] "" samplePolicy) ]
    (genesis 9 100 200).

(** Then account 12 registers the same wallet for agent 5. *)
Definition shared_wallet_world : World :=
  run sampleRecover
    [ (at_time 11 5, RegisterAgent 0 77 [] "" samplePolicy);
      (at_time 12 6, RegisterAgent 5 77 [] "" samplePolicy) ]
    (genesis 9 100 200).

(** Agent 5 is registered with wallet 77 and has emitted intent 42 with
    nonce 0 and the given action hash. *)
Definition world_with_intent (actionHash : N) : World :=
  run sampleRecover
    [ (at_time 11 5, RegisterAgent 5 77 [] "" samplePolicy);
      (at_time 1 10, EmitIntent (sampleIntent 42 0 actionHash) sampleSignature) ]
    (genesis 9 100 200).

(** Then relayer 33 is authorized (by the registry's address, the owner) and
    submits intent 42 at time 20. *)
Definition world_submitted (actionHash : N) : World :=
  run sampleRecover
    [ (at_time 100 11, AuthorizeRelayer 33);
      (at_time 33 20, SubmitIntent 42) ]
    (world_with_intent actionHash).

(** Every intent in Executed status commits to a supported action. *)
Definition executed_supported (s : State) : Prop :=
  forall id : N,
    status (intent s id) = Executed -> supported_action (actionHash (intent s id)).

(** Every stored relayer record has its reputation within [6, 200]. *)
Definition relayers_in_range (s : State) : Prop :=
  forall (r : N) (i : RelayerInfo),
    relayerInfo s !! r = Some i -> 6 <= reputationScore i <= 200.

(** A relayer's success rate in percent and its selection score at time
    [now], as the specification words them: the reputation, plus 10 when the
    relayer was last active less than an hour ago, the whole scaled by
    [successRate / 100] when it has processed an intent and its success rate
    is below 80. *)
Definition successRate (i : RelayerInfo) : N :=
  successfulExecutions i * 100 / intentsProcessed i.

Definition score (now : N) (i : RelayerInfo) : N :=
  let base :=
    reputationScore i + (if decide (now - lastActive i < hours 1) then 10 else 0) in
  if decide (0 < intentsProcessed i /\ successRate i < 80)
  then base * successRate i / 100
  else base.

(** A record on which the score's checked arithmetic cannot overflow: the
    last activity is not in the future, the reputation is at most 200, and
    the counters are consistent and far from the top of [uint256]. *)
Definition scorable (now : N) (i : RelayerInfo) : Prop :=
  lastActive i <= now
  /\ reputationScore i <= 200
  /\ successfulExecutions i <= intentsProcessed i
  /\ intentsProcessed i * 100 <= MAX_UINT256.

(** The loop of [selectRelayer] on scores: the best score so far and who
    holds it. *)
Fixpoint best_of (now : N) (s : State) (rs : list N) (bestScore bestRelayer : N)
    : N * N :=
  match rs with
  | [] => (bestScore, bestRelayer)
  | r :: rest =>
      if isActive (info s r) then
        if decide (bestScore < score now (info s r))
        then best_of now s rest (score now (info s r)) r
        else best_of now s rest bestScore bestRelayer
      else best_of now s rest bestScore bestRelayer
  end.

(** The relayer [selectRelayer] returns, without the storage. *)
Definition selected (env : Env) (id : N) (s : State) : result N :=
  match selectRelayer env id s with
  | Ok (r, _) => Ok r
  | Err e => Err e
  end.

(** Relayer 33 is authorized and registers with 1 ether at time 100; it then
    reports [successes] successful and [failures] failed executions of its
    own. *)
Definition relayer_world (successes failures : nat) : World :=
  run sampleRecover
    ([ (at_time 100 11, AuthorizeRelayer 33);
       (at_time 33 100, RegisterRelayer (ether 1) (ether 1)) ]
     ++ repeat (at_time 33 101, UpdateRelayerReputation 33 true) successes
     ++ repeat (at_time 33 102, UpdateRelayerReputation 33 false) failures)
    (genesis 9 100 200).

(** Relayers 33 and 34 registered, 34 with one successful execution. *)
Definition two_relayers_world : World :=
  run sampleRecover
    [ (at_time 100 11, AuthorizeRelayer 33);
      (at_time 33 100, RegisterRelayer (ether 1) (ether 1));
      (at_time 34 100, RegisterRelayer (ether 1) (ether 1));
      (at_time 33 101, UpdateRelayerReputation 34 true) ]
    (genesis 9 100 200).

(** ** AgentRegistry: management calls *)

(** The agent an owner-only call of the registry manages. *)
Definition managed_agent (c : Call) : option N :=
  match c with
  | UpdateMetadata a _ => Some a
  | UpdatePolicy a _ => Some a
  | DeactivateAgent a => Some a
  | ReactivateAgent a => Some a
  | _ => None
  end.

(** An agent record with its [active] flag set. *)
Definition with_active (b : bool) (a : AR.Agent) : AR.Agent :=
  AR.mkAgent (AR.owner a) (AR.wallet a) (AR.publicKey a) (AR.metadataCID a) b
             (AR.registeredAt a).

(** Agent 5 registered by account 11 with wallet 77 at time 5. *)
Definition registry_with_agent : AR.State :=
  fst (transact (AR.registerAgent (at_time 11 5) 5 77 [] "" samplePolicy) AR.init).

(** ** PolicyEngine: the emergency switches *)

(** The calls reserved to the emergency admin. *)
Definition admin_call (c : Call) : bool :=
  match c with
  | Pause | Unpause | PauseAgent _ | UnpauseAgent _ => true
  | _ => false
  end.

(** The pause flags an admin call sets: the system flag and the per-agent
    flags after the call. *)
Definition flags_after (c : Call) (s : PE.State) : bool * gmap N bool :=
  match c with
  | Pause => (true, PE.agentPaused s)
  | Unpause => (false, PE.agentPaused s)
  | PauseAgent a => (PE.paused s, <[a := true]> (PE.agentPaused s))
  | UnpauseAgent a => (PE.paused s, <[a := false]> (PE.agentPaused s))
  | _ => (PE.paused s, PE.agentPaused s)
  end.

(** ** The intent lifecycle *)

(** The status changes the executor performs on intent [id]: none, or
    Pending to Submitted by [submitIntent], Submitted to Executed by
    [executeIntent], anything to Disputed by [disputeIntent]. *)
Definition lifecycle_step (c : Call) (id : N) (a b : Status) : Prop :=
  b = a
  \/ (a = Pending /\ b = Submitted /\ c = SubmitIntent id)
  \/ (a = Submitted /\ b = Executed /\ exists data, c = ExecuteIntent id data)
  \/ (b = Disputed /\ exists reason, c = DisputeIntent id reason).

(** What the agent signed: the nine fields of a stored intent that come from
    the emitted descriptor. *)
Definition commitment (i : Intent) : IntentData.t :=
  IntentData.mk (intentId i) (agentId i) (srcChainId i) (destChainId i) (actionHash i)
                (nonce i) (expiry i) (value i) (recipient i).

(** The shape of the intent store in every reachable state. *)
Definition intents_well_formed (s : State) : Prop :=
  rd false (authorizedRelayers s) 0 = false
  /\ forall id : N,
       (intentId (intent s id) = 0 \/ intentId (intent s id) = id)
       /\ status (intent s id) ≠ Validated
       /\ status (intent s id) ≠ Failed
       /\ (status (intent s id) = Pending ->
           relayer (intent s id) = 0 /\ submittedAt (intent s id) = 0)
       /\ (status (intent s id) = Submitted \/ status (intent s id) = Executed ->
           relayer (intent s id) ≠ 0 /\ intentId (intent s id) ≠ 0).

(** ** The relayer directory *)

(** The sum of [f] over a list of addresses. *)
Definition sumN (f : N -> N) (l : list N) : N :=
  fold_right (fun r acc => f r + acc) 0 l.

(** The stake the contract owes: the stakes of the relayers in the
    directory. *)
Definition total_stake (s : State) : N :=
  sumN (fun r => stakeAmount (info s r)) (activeRelayers s).

(** The directory and the records agree: [activeRelayers] lists each active
    relayer once and nobody else, an active record carries its own address
    and at least the minimum stake, and the contract holds the stakes. *)
Definition relayer_directory (s : State) : Prop :=
  NoDup (activeRelayers s)
  /\ (forall r, r ∈ activeRelayers s <-> isActive (info s r) = true)
  /\ (forall r, isActive (info s r) = true ->
        relayerAddress (info s r) = r /\ 100000000000000000 <= stakeAmount (info s r))
  /\ total_stake s <= balance s.

(** The calls that write [authorizedRelayers]. *)
Definition changes_authorization (c : Call) : bool :=
  match c with
  | AuthorizeRelayer _ | RevokeRelayer _ => true
  | _ => false
  end.

(** ** Signatures *)

(** The EIP-712 digest [verifyIntentSignature] recovers the signer from. *)
Definition intent_digest (env : Env) (d : IntentData.t) : N :=
  Keccak.keccak256
    ([0x19; 0x01] ++ word (domainSeparator env)
     ++ word (Keccak.keccak256 (abi_encode
          [ INTENT_TYPEHASH; IntentData.intentId d; IntentData.agentId d;
            IntentData.srcChainId d; IntentData.destChainId d; IntentData.actionHash d;
            IntentData.nonce d; IntentData.expiry d; IntentData.value d;
            IntentData.recipient d ]))).

(** A 65-byte signature: [r], [s] as 32-byte words, then the byte [v]. *)
Definition signature_of (r s v : N) : list N := word r ++ word s ++ [v].

(** ** NomadBridge.sol

    The bridge contract behind [IBridge]. A payable function is called with
    its [msg.value], which the contract's balance receives before the body
    runs. [sendMessage] calls [estimateFee] as the source writes it, as a
    plain call of the function below. *)

Module NomadBridge.

Record Message : Type := mkMessage {
  sourceChainId : N;
  destinationChainId : N;
  sender : N;
  recipient : N;
  data : list N;
  timestamp : N;
  fee : N
}.

Inductive Event : Type :=
  | MessageSent (messageId destinationChainId sender recipient : N) (message : list N)
                (fee : N)
  | MessageReceived (messageId sourceChainId recipient : N) (message : list N).

Record State : Type := mkState {
  nomadCoreContracts : gmap N N;
  nomadDomains : gmap N N;
  owner : N;
  nextMessageId : N;
  messages : gmap N Message;
  messageStatuses : gmap N N;
  balance : N;
  events : list Event
}.

Definition zeroMessage : Message := mkMessage 0 0 0 0 [] 0 0.

(** constructor() *)
Definition init (deployer : N) : State :=
  mkState ∅
    (<[42161 := 0x617262]> (<[10 := 0x6f707469]> (<[43114 := 0x61766178]>
      (<[56 := 0x627363]> (<[137 := 0x706f6c79]> (<[1 := 0x657468]> ∅))))))
    deployer 1 ∅ ∅ 0 [].

Definition emit (e : Event) : M State unit :=
  modify (fun s =>
    mkState (nomadCoreContracts s) (nomadDomains s) (owner s) (nextMessageId s)
            (messages s) (messageStatuses s) (balance s) (e :: events s)).

Definition set_nomadCoreContract (chainId coreContract : N) : M State unit :=
  modify (fun s =>
    mkState (<[chainId := coreContract]> (nomadCoreContracts s)) (nomadDomains s) (owner s)
            (nextMessageId s) (messages s) (messageStatuses s) (balance s) (events s)).

Definition set_nomadDomain (chainId domain : N) : M State unit :=
  modify (fun s =>
    mkState (nomadCoreContracts s) (<[chainId := domain]> (nomadDomains s)) (owner s)
            (nextMessageId s) (messages s) (messageStatuses s) (balance s) (events s)).

Definition set_nextMessageId (v : N) : M State unit :=
  modify (fun s =>
    mkState (nomadCoreContracts s) (nomadDomains s) (owner s) v
            (messages s) (messageStatuses s) (balance s) (events s)).

Definition set_message (messageId : N) (m : Message) : M State unit :=
  modify (fun s =>
    mkState (nomadCoreContracts s) (nomadDomains s) (owner s) (nextMessageId s)
            (<[messageId := m]> (messages s)) (messageStatuses s) (balance s) (events s)).

Definition set_messageStatus (messageId status : N) : M State unit :=
  modify (fun s =>
    mkState (nomadCoreContracts s) (nomadDomains s) (owner s) (nextMessageId s)
            (messages s) (<[messageId := status]> (messageStatuses s)) (balance s)
            (events s)).

Definition set_balance (v : N) : M State unit :=
  modify (fun s =>
    mkState (nomadCoreContracts s) (nomadDomains s) (owner s) (nextMessageId s)
            (messages s) (messageStatuses s) v (events s)).

(** The ether sent along with a call to a payable function. *)
Definition receive (msg_value : N) : M State unit :=
  let* s := get in
  let* b := lift (add256 (balance s) msg_value) in
  set_balance b.

(** modifier onlyOwner *)
Definition onlyOwner (env : Env) : M State unit :=
  let* s := get in
  require (bool_decide (msg_sender env = owner s)) "Only owner".

(** An address as [abi.encodePacked] writes it: 20 bytes, big-endian. *)
Definition address20 (x : N) : list N := rev (Keccak.N_to_le_bytes 20 x).

Definition isChainSupported (chainId : N) : M State bool :=
  let* s := get in ret (negb (bool_decide (rd 0 (nomadDomains s) chainId = 0))).

Definition estimateFee (destinationChainId : N) (message : list N) : M State N :=
  (* Base fee calculation (simplified) *)
  let baseFee := 1000000000000000 in
  let gasEstimate := 100000 in
  let gasPrice := 20000000000 in
  (* Add message size fee *)
  let* bytesFee := lift (mul256 (N.of_nat (length message)) 100) in
  let* messageSizeFee := lift (mul256 bytesFee 1000000000) in
  let* gasFee := lift (mul256 gasEstimate gasPrice) in
  let* sum := lift (add256 baseFee gasFee) in
  lift (add256 sum messageSizeFee).

(** [keccak256(abi.encodePacked(block.timestamp, msg.sender, recipient,
    message, nextMessageId))] *)
Definition newMessageId (env : Env) (recipient : N) (message : list N) (next : N) : N :=
  Keccak.keccak256
    (word (block_timestamp env) ++ address20 (msg_sender env) ++ address20 recipient
     ++ message ++ word next).

Definition sendMessage (env : Env) (destinationChainId recipient : N)
    (message : list N) (msg_value : N) : M State N :=
  let* _ := receive msg_value in
  let* supported := isChainSupported destinationChainId in
  let* _ := require supported "Chain not supported" in
  let* _ := require (negb (bool_decide (recipient = 0))) "Invalid recipient" in
  (* Generate unique message ID *)
  let* s := get in
  let* next := lift (add256 (nextMessageId s) 1) in
  let* _ := set_nextMessageId next in
  let messageId := newMessageId env recipient message (nextMessageId s) in
  (* Estimate and validate fee *)
  let* requiredFee := estimateFee destinationChainId message in
  let* _ := require (bool_decide (requiredFee <= msg_value)) "Insufficient fee" in
  (* Store message details *)
  let* _ := set_message messageId
              (mkMessage (block_chainid env) destinationChainId (msg_sender env) recipient
                         message (block_timestamp env) msg_value) in
  let* _ := set_messageStatus messageId 0 in
  (* Get Nomad domain for destination chain *)
  let* s' := get in
  let destinationDomain := rd 0 (nomadDomains s') destinationChainId in
  let* _ := require (negb (bool_decide (destinationDomain = 0))) "Domain not configured" in
  let* _ := emit (MessageSent messageId destinationChainId (msg_sender env) recipient
                              message msg_value) in
  ret messageId.

Definition getMessageStatus (messageId : N) : M State N :=
  let* s := get in ret (rd 0 (messageStatuses s) messageId).

Definition getChainIdFromDomain (domain : N) : N :=
  if decide (domain = 0x657468) then 1
  else if decide (domain = 0x706f6c79) then 137
  else if decide (domain = 0x627363) then 56
  else if decide (domain = 0x61766178) then 43114
  else if decide (domain = 0x6f707469) then 10
  else if decide (domain = 0x617262) then 42161
  else 0.

Definition receiveMessage (env : Env) (sourceDomain sender messageId : N)
    (message : list N) : M State unit :=
  (* Convert domain back to chain ID *)
  let sourceChainId := getChainIdFromDomain sourceDomain in
  let recipient := sender mod 2 ^ 160 in
  (* Mark message as delivered *)
  let* _ := set_messageStatus messageId 1 in
  emit (MessageReceived messageId sourceChainId recipient message).

Definition getSupportedChains : list N := [1; 137; 56; 43114; 10; 42161].

Definition setNomadCoreContract (env : Env) (chainId coreContract : N) : M State unit :=
  let* _ := onlyOwner env in
  set_nomadCoreContract chainId coreContract.

Definition setNomadDomain (env : Env) (chainId domain : N) : M State unit :=
  let* _ := onlyOwner env in
  set_nomadDomain chainId domain.

(** function withdrawFees() external onlyOwner; [accepts] tells whether the
    owner's account accepts the plain ether transfer. *)
Definition withdrawFees (env : Env) (accepts : bool) : M State unit :=
  let* _ := onlyOwner env in
  let* s := get in
  let* _ := require (bool_decide (0 < balance s)) "No fees to withdraw" in
  if negb accepts then revert TransferFailed
  else set_balance 0.

Definition getBalance : M State N :=
  let* s := get in ret (balance s).

End NomadBridge.

Module NB := NomadBridge.

Arguments NB.newMessageId : simpl never.
Arguments NB.sendMessage : simpl never.
Arguments NB.estimateFee : simpl never.

(** The fee [estimateFee] computes for a message of [len] bytes. *)
Definition nomad_fee (len : N) : N := 3000000000000000 + 100000000000 * len.

(** ** CrossChainExecutor.sol: the bridge functions

    [chainBridges] and [bridgeMessages] are storage of the executor that no
    other function reads or writes; they are kept in a record of their own
    next to [State]. The functions read [owner()] from the executor's state.
    A call of a bridge runs the [NomadBridge] deployed at the called address;
    an address without a contract makes the call revert without a reason. The
    ether of [sendBridgeMessage] passes through the executor to the bridge:
    the executor's own balance is the same before and after. *)

Module Bridging.

Record BridgeMessage : Type := mkBridgeMessage {
  srcChainId : N;
  destChainId : N;
  sender : N;
  data : list N;
  nonce : N;
  executed : bool;
  messageId : N
}.

(** The events as the [emit] statements give their arguments. *)
Inductive Event : Type :=
  | BridgeMessageSent (messageId srcChainId destChainId sender : N) (data : list N)
  | BridgeMessageReceived (messageId srcChainId this : N) (message : list N).

Record Store : Type := mkStore {
  chainBridges : gmap N N;
  bridgeMessages : gmap N BridgeMessage;
  events : list Event
}.

Definition zeroBridgeMessage : BridgeMessage := mkBridgeMessage 0 0 0 [] 0 false 0.

Definition init : Store := mkStore ∅ ∅ [].

Definition bridgeOf (s : Store) (chainId : N) : N := rd 0 (chainBridges s) chainId.
Definition message (s : Store) (id : N) : BridgeMessage :=
  rd zeroBridgeMessage (bridgeMessages s) id.

Definition emit (e : Event) : M Store unit :=
  modify (fun s => mkStore (chainBridges s) (bridgeMessages s) (e :: events s)).

Definition set_chainBridge (chainId bridgeContract : N) : M Store unit :=
  modify (fun s =>
    mkStore (<[chainId := bridgeContract]> (chainBridges s)) (bridgeMessages s) (events s)).

Definition set_bridgeMessage (id : N) (f : BridgeMessage -> BridgeMessage) : M Store unit :=
  modify (fun s =>
    mkStore (chainBridges s) (<[id := f (message s id)]> (bridgeMessages s)) (events s)).

Definition with_executed (b : bool) (m : BridgeMessage) : BridgeMessage :=
  mkBridgeMessage (srcChainId m) (destChainId m) (sender m) (data m) (nonce m) b
                  (messageId m).

Definition setChainBridge (core : State) (env : Env) (chainId bridgeContract : N)
    : M Store unit :=
  let* _ := require (bool_decide (msg_sender env = owner core))
                    "Only owner can set bridges" in
  let* _ := require (negb (bool_decide (bridgeContract = 0))) "Invalid bridge contract" in
  set_chainBridge chainId bridgeContract.

(** Common chain IDs to check *)
Definition commonChains : list N :=
  [1; 5; 10; 56; 137; 42161; 43114; 80001; 11155111; 80002].

(** The first loop of [getSupportedChains]: [tempChains] and [count] after
    the chains still to visit. *)
Fixpoint collectChains (s : Store) (chains : list N) (tempChains : list N) (count : nat)
    : list N * nat :=
  match chains with
  | [] => (tempChains, count)
  | c :: rest =>
      if decide (count < length tempChains)%nat then
        if decide (bridgeOf s c ≠ 0)
        then collectChains s rest (<[count := c]> tempChains) (S count)
        else collectChains s rest tempChains count
      else (tempChains, count)
  end.

(** function getSupportedChains(): the second loop copies the first [count]
    entries into an array of that length. *)
Definition getSupportedChains (s : Store) : list N :=
  let '(tempChains, count) := collectChains s commonChains (repeat 0 10) 0 in
  take count tempChains.

(** The loop of [receiveBridgeMessage]: is the caller the bridge of one of
    the supported chains? *)
Fixpoint isValidBridge (s : Store) (chains : list N) (caller : N) : bool :=
  match chains with
  | [] => false
  | chainId :: rest =>
      if decide (bridgeOf s chainId = caller) then true else isValidBridge s rest caller
  end.

Definition receiveBridgeMessage (env : Env) (id sourceChainId sender : N)
    (msg : list N) : M Store unit :=
  let* s := get in
  (* Verify caller is a configured bridge *)
  let* _ := require (isValidBridge s (getSupportedChains s) (msg_sender env))
                    "Unauthorized bridge" in
  (* Mark message as executed *)
  let* _ := set_bridgeMessage id (with_executed true) in
  emit (BridgeMessageReceived id sourceChainId (this env) msg).

(** The executor's bridge storage and the bridge contracts deployed on the
    chain, by address. *)
Record Net : Type := mkNet {
  store : Store;
  bridges : gmap N NomadBridge.State
}.

Definition onStore {A : Type} (c : M Store A) : M Net A :=
  call store (fun s n => mkNet s (bridges n)) c.

(** A call of the contract at [addr]. *)
Definition onBridge {A : Type} (addr : N) (c : M NomadBridge.State A) : M Net A :=
  fun n =>
    match bridges n !! addr with
    | None => Err (RequireFailed "")
    | Some b =>
        match c b with
        | Ok (a, b') => Ok (a, mkNet (store n) (<[addr := b']> (bridges n)))
        | Err e => Err e
        end
    end.

Definition sendBridgeMessage (env : Env) (destinationChainId : N) (msg : list N)
    (msg_value : N) : M Net N :=
  let* n := get in
  let bridgeContract := bridgeOf (store n) destinationChainId in
  let* _ := require (negb (bool_decide (bridgeContract = 0)))
                    "Bridge not configured for chain" in
  (* Send message via bridge *)
  let* id := onBridge bridgeContract
    (NomadBridge.sendMessage
       (mkEnv (this env) (block_timestamp env) (block_chainid env) bridgeContract)
       destinationChainId (this env) msg msg_value) in
  (* Store bridge message tracking *)
  let* _ := onStore (set_bridgeMessage id (fun _ =>
    mkBridgeMessage (block_chainid env) destinationChainId (msg_sender env) msg 0 false
                    id)) in
  let* _ := onStore (emit (BridgeMessageSent id (block_chainid env) destinationChainId
                             (msg_sender env) msg)) in
  ret id.

Definition estimateBridgeFee (destinationChainId : N) (msg : list N) : M Net N :=
  let* n := get in
  let bridgeContract := bridgeOf (store n) destinationChainId in
  if decide (bridgeContract = 0) then ret 0
  else onBridge bridgeContract (NomadBridge.estimateFee destinationChainId msg).

Definition getBridgeMessageStatus (id : N) : M Net N :=
  let* n := get in
  let m := message (store n) id in
  if decide (messageId m = 0) then ret 2
  else if executed m then ret 1
  else
    (* Check with bridge contract if available *)
    let bridgeContract := bridgeOf (store n) (destChainId m) in
    if decide (bridgeContract ≠ 0)
    then onBridge bridgeContract (NomadBridge.getMessageStatus id)
    else ret 0.

End Bridging.

Module BR := Bridging.

Arguments BR.sendBridgeMessage : simpl never.
Arguments BR.receiveBridgeMessage : simpl never.
Arguments BR.getSupportedChains : simpl never.

(** A freshly deployed executor (owner 100) and a Nomad bridge, deployed by
    account 9 at address 600 and set for chain 137 by the executor's owner. *)
Definition sampleNet : BR.Net :=
  BR.mkNet
    (fst (transact (BR.setChainBridge (init 100 200) (at_time 100 20) 137 600) BR.init))
    (<[600 := NB.init 9]> ∅).

(** The value a call returns, without the storage. *)
Definition returned {S A : Type} (r : result (A * S)) : result A :=
  match r with
  | Ok (a, _) => Ok a
  | Err e => Err e
  end.

(** * Properties *)

Example keccak_empty :
  keccak_string "" = 0xc5d2460186f7233c927e7db2dcc703c0e500b653ca82273b7bfad8045d85a470.
Proof. vm_compute. reflexivity. Qed.

Example keccak_transfer :
  keccak_string "transfer" = 0xb483afd3f4caedc6eebf44246fe54e38c95e3179a5ec9ea81740eca5b482d12e.
Proof. vm_compute. reflexivity. Qed.

(** ** Checked arithmetic, mappings and transactions *)

Lemma add256_ok a b n : add256 a b = Ok n -> n = a + b /\ a + b <= MAX_UINT256.
Proof. unfold add256. destruct (decide _); intros [=]; auto. Qed.

Lemma add256_err a b e : add256 a b = Err e -> e = Panic 0x11.
Proof. unfold add256. destruct (decide _); congruence. Qed.

Lemma add256_fits a b : a + b <= MAX_UINT256 -> add256 a b = Ok (a + b).
Proof. intros. unfold add256. destruct (decide _); [done | lia]. Qed.

Lemma sub256_ok a b n : sub256 a b = Ok n -> n = a - b /\ b <= a.
Proof. unfold sub256. destruct (decide _); intros [=]; auto. Qed.

Lemma sub256_fits a b : b <= a -> sub256 a b = Ok (a - b).
Proof. intros. unfold sub256. destruct (decide _); [done | lia]. Qed.

Lemma mul256_fits a b : a * b <= MAX_UINT256 -> mul256 a b = Ok (a * b).
Proof. intros. unfold mul256. destruct (decide _); [done | lia]. Qed.

Lemma div256_fits a b : b ≠ 0 -> div256 a b = Ok (a / b).
Proof. intros. unfold div256. destruct (decide _); [done | done]. Qed.

Lemma rd_insert_eq {V : Type} (d : V) (m : gmap N V) (k : N) (v : V) :
  rd d (<[k := v]> m) k = v.
Proof. unfold rd. by rewrite lookup_insert_eq. Qed.

Lemma rd_insert_ne {V : Type} (d : V) (m : gmap N V) (k k' : N) (v : V) :
  k ≠ k' -> rd d (<[k := v]> m) k' = rd d m k'.
Proof. intros. unfold rd. by rewrite lookup_insert_ne. Qed.

Lemma rd_empty {V : Type} (d : V) (k : N) : rd d ∅ k = d.
Proof. unfold rd. by rewrite lookup_empty. Qed.

Lemma transact_ok {S A : Type} (c : M S A) (s s' : S) (a : A) :
  c s = Ok (a, s') -> transact c s = (s', Ok a).
Proof. unfold transact. by intros ->. Qed.

Lemma transact_err {S A : Type} (c : M S A) (s : S) (e : Error) :
  c s = Err e -> transact c s = (s, Err e).
Proof. unfold transact. by intros ->. Qed.

(** A reverted transaction leaves the storage as it was. *)
Lemma transact_reverted {S A : Type} (c : M S A) (s : S) (e : Error) :
  snd (transact c s) = Err e -> fst (transact c s) = s /\ c s = Err e.
Proof. unfold transact. destruct (c s) as [[a s']|e']; cbn; [done | by intros [= ->]]. Qed.

Lemma transact_returned {S A : Type} (c : M S A) (s : S) (a : A) :
  snd (transact c s) = Ok a -> c s = Ok (a, fst (transact c s)).
Proof. unfold transact. destruct (c s) as [[a' s']|e']; cbn; [by intros [= ->] | done]. Qed.

Lemma checkPolicy_errors env a v r d h t wl s e :
  PE.checkPolicy env a v r d h t wl s = Err e -> policy_rejection a e.
Proof.
  unfold policy_rejection. unfold_policy. unfold_monad. exec.
  all: intros [= <-];
    repeat match goal with
    | H : add256 _ _ = Err _ |- _ => apply add256_err in H; subst
    end; eauto 10.
Qed.

(** An approved check returns [true], leaves the breaker cleared and touches
    the rolling window of the checked agent only. *)
Lemma checkPolicy_ok env a v r d h t wl s b s' :
  PE.checkPolicy env a v r d h t wl s = Ok (b, s') ->
  b = true
  /\ PE.tripped (PE.circuitBreaker s') = false
  /\ PE.paused s' = PE.paused s
  /\ PE.emergencyAdmin s' = PE.emergencyAdmin s
  /\ PE.agentPaused s' = PE.agentPaused s
  /\ (forall a', a' ≠ a -> PE.window s' a' = PE.window s a').
Proof.
  unfold_policy. unfold_monad. exec.
  all: intros [= <- <-]; cbn; repeat split; auto;
    intros a' Ha; unfold PE.window; cbn; rewrite ?rd_insert_ne by done; reflexivity.
Qed.

Lemma checkPolicy_ok_window env a v r d h t wl s b s' :
  PE.checkPolicy env a v r d h t wl s = Ok (b, s') ->
  PE.window s' a = window_after (block_timestamp env) v (PE.window s a).
Proof.
  unfold_policy. unfold_monad. exec.
  all: intros [= <- <-]; unfold PE.window in *; cbn in *;
    rewrite ?rd_insert_eq in *; cbn in *; tidy; unfold window_after;
    repeat case_bool_decide; try lia; cbn; try reflexivity.
  all: destruct (rd PE.zeroWindow (PE.rollingWindows s) a); cbn in *;
    try reflexivity; try lia.
Qed.

(** C2: a policy check that rejects, for whatever reason, leaves the rolling
    windows and the circuit breaker (indeed the whole policy storage) as they
    were; the storage changes only on an approved check, which advances the
    window of the checked agent. *)
Theorem checkPolicy_rejection_preserves_state
    (env : Env) (agentId value recipient maxSpendPerDay maxTxPerHour maxValuePerTx : N)
    (whitelistedAddresses : list N) (s : PE.State) :
  let out := transact (PE.checkPolicy env agentId value recipient maxSpendPerDay
                         maxTxPerHour maxValuePerTx whitelistedAddresses) s in
  (forall e : Error,
     snd out = Err e ->
     policy_rejection agentId e
     /\ fst out = s
     /\ (forall a, PE.window (fst out) a = PE.window s a)
     /\ PE.circuitBreaker (fst out) = PE.circuitBreaker s)
  /\ (fst out ≠ s ->
      snd out = Ok true
      /\ PE.window (fst out) agentId
         = window_after (block_timestamp env) value (PE.window s agentId)).
Proof.
  cbn zeta. split.
  - intros e He. apply transact_reverted in He as [Hs He].
    rewrite Hs. split; [by eapply checkPolicy_errors | done].
  - intros Hne. unfold transact in *.
    destruct (PE.checkPolicy _ _ _ _ _ _ _ _ s) as [[b s']|e] eqn:Hc; cbn in *; [|done].
    pose proof (checkPolicy_ok _ _ _ _ _ _ _ _ _ _ _ Hc) as [-> _].
    split; [done | by eapply checkPolicy_ok_window].
Qed.

Lemma checkPolicy_rejection_preserves_state_witness :
  policy_rejection 7 (PolicyViolation "Exceeds maxValuePerTx")
  /\ fst (transact (PE.checkPolicy (mkEnv 1 1000 1 200) 7 11 3 100 3 10 []) (PE.init 9))
     = PE.init 9.
Proof.
  pose proof (proj1 (checkPolicy_rejection_preserves_state
                       (mkEnv 1 1000 1 200) 7 11 3 100 3 10 [] (PE.init 9))
                    (PolicyViolation "Exceeds maxValuePerTx") eq_refl) as (H1 & H2 & _).
  exact (conj H1 H2).
Defined.

(** On its own the helper does trip the breaker ... *)
Lemma checkCircuitBreaker_trips env a s u s' :
  PE._checkCircuitBreaker env a s = Ok (u, s') ->
  PE.tripped (PE.circuitBreaker s') = true.
Proof.
  unfold_policy. unfold_monad. exec.
  all: by intros [= <- <-].
Qed.

(** ... but inside [checkPolicy] it is followed by a revert, which discards
    the trip together with every other write. *)
Lemma hourly_rejection_discards_trip env a v r d h t wl s :
  snd (transact (PE.checkPolicy env a v r d h t wl) s)
    = Err (PolicyViolation "Exceeds maxTxPerHour") ->
  PE.circuitBreaker (fst (transact (PE.checkPolicy env a v r d h t wl) s))
    = PE.circuitBreaker s.
Proof. intros H. apply transact_reverted in H as [-> _]. done. Qed.

(** C3 (the code at Scenario A): with [maxTxPerHour = 3], three checks are
    approved within the hour; the fourth is rejected with [PolicyViolation],
    yet the breaker is not tripped afterwards, and the fifth check is again
    rejected with [PolicyViolation], not with [CircuitBreakerActive]. *)
Theorem hourly_cap_rejection_leaves_breaker_untripped :
  let check now s :=
    transact (PE.checkPolicy (mkEnv 1 now 1 200) 7 5 3 100 3 10 []) s in
  let s1 := check 1000 (PE.init 9) in
  let s2 := check 1001 (fst s1) in
  let s3 := check 1002 (fst s2) in
  let s4 := check 1003 (fst s3) in
  let s5 := check 1004 (fst s4) in
  snd s1 = Ok true /\ snd s2 = Ok true /\ snd s3 = Ok true
  /\ PE.hourlyTxCount (PE.window (fst s3) 7) = 3
  /\ snd s4 = Err (PolicyViolation "Exceeds maxTxPerHour")
  /\ PE.tripped (PE.circuitBreaker (fst s4)) = false
  /\ snd s5 = Err (PolicyViolation "Exceeds maxTxPerHour").
Proof. vm_compute. repeat split; reflexivity. Qed.

(** ** The world under a transaction *)

Lemma transact_onRegistry {A : Type} (c : M AR.State A) (w : World) :
  fst (transact (onRegistry c) w)
  = mkWorld (fst (transact c (registry w))) (policy w) (executor w).
Proof.
  unfold transact, onRegistry, call. destruct w.
  by destruct (c _) as [[a r']|e].
Qed.

Lemma transact_onPolicy {A : Type} (c : M PE.State A) (w : World) :
  fst (transact (onPolicy c) w)
  = mkWorld (registry w) (fst (transact c (policy w))) (executor w).
Proof.
  unfold transact, onPolicy, call. destruct w.
  by destruct (c _) as [[a r']|e].
Qed.

Lemma transact_onExecutor {A : Type} (c : M State A) (w : World) :
  fst (transact (onExecutor c) w)
  = mkWorld (registry w) (policy w) (fst (transact c (executor w))).
Proof.
  unfold transact, onExecutor, call. destruct w.
  by destruct (c _) as [[a r']|e].
Qed.

Lemma transact_ret {S : Type} (s : S) : fst (transact (ret tt) s) = s.
Proof. reflexivity. Qed.

(** Every call but [EmitIntent] runs in one contract and leaves the two
    others alone. *)
Lemma step_components ecr env c w :
  is_emit c = false ->
  fst (step ecr env c w)
  = mkWorld (fst (transact (registry_call env c) (registry w)))
            (fst (transact (policy_call env c) (policy w)))
            (fst (transact (executor_call env c) (executor w))).
Proof.
  intros Hc. unfold step.
  destruct c; try discriminate Hc; cbn [dispatch registry_call policy_call executor_call];
    rewrite ?transact_onRegistry, ?transact_onPolicy, ?transact_onExecutor, ?transact_ret;
    reflexivity.
Qed.

Lemma reachable_ind ecr (P : World -> Prop) :
  (forall deployer ra pa, P (genesis deployer ra pa)) ->
  (forall env c w, P w -> P (fst (step ecr env c w))) ->
  forall w, reachable ecr w -> P w.
Proof.
  intros Hinit Hstep w (deployer & ra & pa & txs & ->).
  generalize (Hinit deployer ra pa). generalize (genesis deployer ra pa).
  induction txs as [|[env c] txs IH]; intros w0 Hw0; cbn; [done|].
  apply IH, Hstep, Hw0.
Qed.

Lemma reachable_genesis ecr deployer ra pa : reachable ecr (genesis deployer ra pa).
Proof. by exists deployer, ra, pa, []. Qed.

Lemma reachable_run ecr txs deployer ra pa :
  reachable ecr (run ecr txs (genesis deployer ra pa)).
Proof. by exists deployer, ra, pa, txs. Qed.

(** ** AgentRegistry: the wallet binding *)

Lemma registerAgent_ok env a w pk cid p r u r' :
  AR.registerAgent env a w pk cid p r = Ok (u, r') ->
  AR.wallet (AR.agent r a) = 0 /\ w ≠ 0 /\ rd 0 (AR.walletToAgentId r) w = 0
  /\ AR.agents r'
     = <[a := AR.mkAgent (msg_sender env) w pk cid true (block_timestamp env)]> (AR.agents r)
  /\ AR.walletToAgentId r' = <[w := a]> (AR.walletToAgentId r).
Proof.
  unfold_registry. unfold_monad. exec.
  intros [= <- <-]; tidy. cbn. done.
Qed.

(** The three gates of [registerAgent], in the order the code tests them. *)
Lemma registerAgent_errors env a w pk cid p r :
  (AR.wallet (AR.agent r a) ≠ 0 ->
   AR.registerAgent env a w pk cid p r = Err AgentAlreadyExists)
  /\ (AR.wallet (AR.agent r a) = 0 -> w = 0 ->
      AR.registerAgent env a w pk cid p r = Err InvalidWalletAddress)
  /\ (AR.wallet (AR.agent r a) = 0 -> w ≠ 0 -> rd 0 (AR.walletToAgentId r) w ≠ 0 ->
      AR.registerAgent env a w pk cid p r = Err WalletAlreadyBound).
Proof.
  unfold_registry. unfold_monad. cbn.
  repeat split; intros; repeat case_decide; try done; congruence.
Qed.

Lemma wallet_of_insert (m : gmap N AR.Agent) (k a : N) (x : AR.Agent) :
  AR.wallet x = AR.wallet (rd AR.zeroAgent m k) ->
  AR.wallet (rd AR.zeroAgent (<[k := x]> m) a) = AR.wallet (rd AR.zeroAgent m a).
Proof.
  intros Hx. destruct (decide (k = a)) as [->|].
  - by rewrite rd_insert_eq.
  - by rewrite rd_insert_ne.
Qed.

(** The owner-only functions change neither a wallet nor the reverse index. *)
Lemma owner_call_frame env c r u r' :
  (forall a w pk cid p, c ≠ RegisterAgent a w pk cid p) ->
  registry_call env c r = Ok (u, r') ->
  AR.walletToAgentId r' = AR.walletToAgentId r
  /\ (forall a, AR.wallet (AR.agent r' a) = AR.wallet (AR.agent r a)).
Proof.
  intros Hc.
  destruct c as [a0 w0 pk0 cid0 p0| | | | | | | | | | | | | | | | | | ];
    cbn; try (by intros [= <- <-]).
  - by destruct (Hc a0 w0 pk0 cid0 p0).
  - unfold_registry. unfold_monad. exec. intros [= <- <-]. cbn. split; [done|].
    intros a. by apply wallet_of_insert.
  - unfold_registry. unfold_monad. exec. by intros [= <- <-].
  - unfold_registry. unfold_monad. exec. intros [= <- <-]. cbn. split; [done|].
    intros a. by apply wallet_of_insert.
  - unfold_registry. unfold_monad. exec. intros [= <- <-]. cbn. split; [done|].
    intros a. by apply wallet_of_insert.
Qed.

Lemma registry_call_cases env c r :
  fst (transact (registry_call env c) r) = r
  \/ (exists a w pk cid p u r',
        c = RegisterAgent a w pk cid p
        /\ AR.registerAgent env a w pk cid p r = Ok (u, r')
        /\ fst (transact (registry_call env c) r) = r')
  \/ (exists u r',
        (forall a w pk cid p, c ≠ RegisterAgent a w pk cid p)
        /\ registry_call env c r = Ok (u, r')
        /\ fst (transact (registry_call env c) r) = r').
Proof.
  unfold transact.
  destruct (registry_call env c r) as [[u r']|e] eqn:Hc; [|by left].
  destruct c; try (right; right; by exists u, r').
  right; left. cbn in Hc. by eexists _, _, _, _, _, u, r'.
Qed.

Lemma registry_call_consistent env c r :
  wallet_index_consistent r ->
  wallet_index_consistent (fst (transact (registry_call env c) r)).
Proof.
  intros Hr.
  destruct (registry_call_cases env c r)
    as [-> | [(a0 & w0 & pk & cid & p & u & r' & -> & Hreg & ->)
             | (u & r' & Hc & Hcall & ->)]]; [done| |].
  - apply registerAgent_ok in Hreg as (Hfree & Hw0 & Hunbound & Hag & Hidx).
    intros a Ha. unfold AR.agent. rewrite Hag, Hidx.
    destruct (decide (a0 = a)) as [->|Hne].
    + rewrite rd_insert_eq. cbn. intros _. by rewrite rd_insert_eq.
    + rewrite rd_insert_ne by done. intros Hwa.
      pose proof (Hr a Ha Hwa) as Hidxa. unfold AR.agent in Hidxa.
      rewrite rd_insert_ne; [done|].
      intros Heq. rewrite <- Heq in Hidxa. congruence.
  - destruct (owner_call_frame _ _ _ _ _ Hc Hcall) as [Hidx Hwal].
    intros a Ha. rewrite Hidx, Hwal. apply Hr, Ha.
Qed.

(** A binding to a nonzero agent id is never overwritten. *)
Lemma registry_call_keeps_binding env c r w a :
  a ≠ 0 -> rd 0 (AR.walletToAgentId r) w = a ->
  rd 0 (AR.walletToAgentId (fst (transact (registry_call env c) r))) w = a.
Proof.
  intros Ha Hw.
  destruct (registry_call_cases env c r)
    as [-> | [(a0 & w0 & pk & cid & p & u & r' & -> & Hreg & ->)
             | (u & r' & Hc & Hcall & ->)]]; [done| |].
  - apply registerAgent_ok in Hreg as (Hfree & Hw0 & Hunbound & Hag & Hidx).
    rewrite Hidx. rewrite rd_insert_ne; [done|]. intros ->. congruence.
  - destruct (owner_call_frame _ _ _ _ _ Hc Hcall) as [-> _]. done.
Qed.

(** ** [emitIntent]: what a successful emission checked and wrote *)

Lemma emitIntent_ok ecr env d sig w u w' :
  emitIntent ecr env d sig w = Ok (u, w') ->
  _status (executor w) ≠ _ENTERED
  /\ intentId (intent (executor w) (IntentData.intentId d)) = 0
  /\ ¬ IntentData.expiry d < block_timestamp env
  /\ IntentData.nonce d = nonceOf (executor w) (IntentData.agentId d)
  /\ nonceOf (executor w) (IntentData.agentId d) + 1 <= MAX_UINT256
  /\ registry w' = registry w
  /\ (exists b,
        PE.checkPolicy (policyEnv env w) (IntentData.agentId d) (IntentData.value d)
          (IntentData.recipient d) 1000000000000000000 10 100000000000000000 []
          (policy w) = Ok (b, policy w'))
  /\ executor w' =
       mkState _NOT_ENTERED
         (<[IntentData.intentId d := emitted d]> (intents (executor w)))
         (<[IntentData.agentId d := nonceOf (executor w) (IntentData.agentId d) + 1]>
            (agentNonces (executor w)))
         (authorizedRelayers (executor w)) (relayerInfo (executor w))
         (activeRelayers (executor w)) (agentRegistry (executor w))
         (policyEngine (executor w)) (balance (executor w))
         (IntentEmitted (IntentData.intentId d) (IntentData.agentId d)
            (IntentData.destChainId d) (IntentData.actionHash d) (IntentData.nonce d)
            (IntentData.expiry d) :: events (executor w)).
Proof.
  unfold emitIntent. unfold_executor. unfold_registry. unfold_monad. exec.
  intros [= <- <-]; cbn.
  unfold intent, nonceOf, policyEnv in *; cbn in *. tidy.
  repeat split; eauto.
Qed.

Lemma step_registry ecr env c w :
  registry (fst (step ecr env c w)) = fst (transact (registry_call env c) (registry w)).
Proof.
  destruct (is_emit c) eqn:Hc.
  - destruct c; try discriminate Hc. cbn. unfold step, transact. cbn.
    destruct (emitIntent _ _ _ _ w) as [[u w']|e] eqn:He; cbn; [|done].
    by apply emitIntent_ok in He as (_ & _ & _ & _ & _ & -> & _).
  - by rewrite step_components.
Qed.

Lemma reachable_wallet_index ecr w :
  reachable ecr w -> wallet_index_consistent (registry w).
Proof.
  revert w. apply reachable_ind.
  - intros deployer ra pa a _ Ha. unfold AR.agent in Ha. cbn in Ha.
    by rewrite rd_empty in Ha.
  - intros env c w Hw. rewrite step_registry. by apply registry_call_consistent.
Qed.

(** The wallet binding for nonzero agent ids: in every reachable state the
    wallets of agents with a nonzero id are pairwise distinct and indexed by
    the reverse lookup; a binding to a nonzero agent id is never overwritten;
    [registerAgent] fails with AgentAlreadyExists when the id is taken,
    otherwise with InvalidWalletAddress when the wallet is zero, otherwise
    with WalletAlreadyBound when the wallet's reverse lookup is nonzero; and
    no call other than [registerAgent] changes the reverse index. *)
Theorem wallet_binding_injective (ecrecover : N -> N -> N -> N -> N) :
  (forall w, reachable ecrecover w ->
     forall a b, a ≠ 0 -> b ≠ 0 ->
       AR.wallet (AR.agent (registry w) a) ≠ 0 ->
       AR.wallet (AR.agent (registry w) a) = AR.wallet (AR.agent (registry w) b) ->
       a = b)
  /\ (forall w, reachable ecrecover w -> wallet_index_consistent (registry w))
  /\ (forall env c w wal a,
        a ≠ 0 -> rd 0 (AR.walletToAgentId (registry w)) wal = a ->
        rd 0 (AR.walletToAgentId (registry (fst (step ecrecover env c w)))) wal = a)
  /\ (forall env agentId wal pk cid p r,
        (AR.wallet (AR.agent r agentId) ≠ 0 ->
         AR.registerAgent env agentId wal pk cid p r = Err AgentAlreadyExists)
        /\ (AR.wallet (AR.agent r agentId) = 0 -> wal = 0 ->
            AR.registerAgent env agentId wal pk cid p r = Err InvalidWalletAddress)
        /\ (AR.wallet (AR.agent r agentId) = 0 -> wal ≠ 0 ->
            rd 0 (AR.walletToAgentId r) wal ≠ 0 ->
            AR.registerAgent env agentId wal pk cid p r = Err WalletAlreadyBound))
  /\ (forall env c w,
        (forall a wal pk cid p, c ≠ RegisterAgent a wal pk cid p) ->
        AR.walletToAgentId (registry (fst (step ecrecover env c w)))
        = AR.walletToAgentId (registry w)).
Proof.
  split; [|split; [|split; [|split]]].
  - intros w Hw a b Ha Hb Hwa Hab.
    pose proof (reachable_wallet_index _ _ Hw) as Hidx.
    rewrite <- (Hidx a Ha Hwa). rewrite Hab. apply Hidx; [done|]. by rewrite <- Hab.
  - apply reachable_wallet_index.
  - intros env c w wal a Ha Hw. rewrite step_registry.
    by apply registry_call_keeps_binding.
  - intros. apply registerAgent_errors.
  - intros env c w Hc. rewrite step_registry.
    destruct (registry_call_cases env c (registry w))
      as [-> | [(a0 & w0 & pk & cid & p & u & r' & -> & _)
               | (u & r' & _ & Hcall & ->)]]; [done| |].
    + by destruct (Hc a0 w0 pk cid p).
    + by destruct (owner_call_frame _ _ _ _ _ Hc Hcall) as [-> _].
Qed.

Lemma wallet_binding_injective_witness :
  let w := run sampleRecover
             [ (at_time 11 5, RegisterAgent 5 77 [] "" samplePolicy);
               (at_time 12 6, RegisterAgent 6 78 [] "" samplePolicy) ]
             (genesis 9 100 200) in
  5 ≠ 6
  /\ AR.wallet (AR.agent (registry w) 5) ≠ AR.wallet (AR.agent (registry w) 6)
  /\ AR.registerAgent (at_time 13 7) 8 77 [] "" samplePolicy (registry w)
     = Err WalletAlreadyBound.
Proof.
  cbn zeta.
  pose proof (wallet_binding_injective sampleRecover) as (Hinj & _ & _ & Herr & _).
  split; [done|]. split.
  - intros Heq.
    assert (5 = 6) as Habs; [|done].
    eapply (Hinj _ (reachable_run _ _ _ _ _)); [done|done| |exact Heq].
    vm_compute. done.
  - apply Herr; vm_compute; done.
Defined.

(** The order of the gates, as the specification lists them: registering a
    taken agent id with a wallet that is already bound reverts with
    AgentAlreadyExists, before the wallet is looked at. *)
Lemma registerAgent_taken_id_bound_wallet :
  let r := fst (transact (AR.registerAgent (at_time 11 5) 5 77 [] "" samplePolicy) AR.init) in
  rd 0 (AR.walletToAgentId r) 77 = 5
  /\ snd (transact (AR.registerAgent (at_time 12 6) 5 77 [] "" samplePolicy) r)
     = Err AgentAlreadyExists.
Proof. vm_compute. split; reflexivity. Qed.

(** C7: the reverse lookup is not injective, and a bound wallet can be bound
    again. The agent id 0 is the reverse index's "not found" value: after
    wallet 77 has been registered for agent 0, [getAgentIdByWallet] still
    answers 0 for it, so [registerAgent] for agent 5 with the same wallet, by
    another account, passes the WalletAlreadyBound gate and succeeds. In the
    state reached both agents are active and hold wallet 77, and the reverse
    lookup of the wallet has moved to agent 5. *)
Theorem zero_agent_id_wallet_bound_twice :
  reachable sampleRecover agent_zero_world
  /\ AR.wallet (AR.agent (registry agent_zero_world) 0) = 77
  /\ AR.getAgentIdByWallet 77 (registry agent_zero_world)
     = Ok (0, registry agent_zero_world)
  /\ step sampleRecover (at_time 12 6) (RegisterAgent 5 77 [] "" samplePolicy)
          agent_zero_world
     = (shared_wallet_world, Ok tt)
  /\ reachable sampleRecover shared_wallet_world
  /\ AR.getAgent 0 (registry shared_wallet_world)
     = Ok (AR.mkAgent 11 77 [] "" true 5, registry shared_wallet_world)
  /\ AR.getAgent 5 (registry shared_wallet_world)
     = Ok (AR.mkAgent 12 77 [] "" true 6, registry shared_wallet_world)
  /\ AR.getAgentIdByWallet 77 (registry shared_wallet_world)
     = Ok (5, registry shared_wallet_world).
Proof.
  split; [apply reachable_run|].
  split; [vm_compute; reflexivity|].
  split; [vm_compute; reflexivity|].
  split; [vm_compute; reflexivity|].
  split; [apply reachable_run|].
  split; [vm_compute; reflexivity|].
  split; vm_compute; reflexivity.
Qed.

(** ** CrossChainExecutor: what each successful call checked and wrote *)

Lemma submitIntent_ok env id s u s' :
  submitIntent env id s = Ok (u, s') ->
  rd false (authorizedRelayers s) (msg_sender env) = true
  /\ intentId (intent s id) ≠ 0
  /\ status (intent s id) = Pending
  /\ s' = mkState (_status s)
            (<[id := with_status Submitted
                       (with_submittedAt (block_timestamp env)
                          (with_relayer (msg_sender env) (intent s id)))]> (intents s))
            (agentNonces s) (authorizedRelayers s) (relayerInfo s) (activeRelayers s)
            (agentRegistry s) (policyEngine s) (balance s)
            (IntentSubmitted id (msg_sender env) (block_timestamp env) :: events s).
Proof.
  unfold_executor. unfold_monad. exec.
  intros [= <- <-]. unfold intent in *. cbn in *. tidy.
  rewrite !rd_insert_eq, !insert_insert_eq.
  repeat split; auto.
Qed.

Lemma executeIntent_ok env id data s u s' :
  executeIntent env id data s = Ok (u, s') ->
  _status s ≠ _ENTERED
  /\ intentId (intent s id) ≠ 0
  /\ status (intent s id) = Submitted
  /\ submittedAt (intent s id) + TIMELOCK_DURATION <= block_timestamp env
  /\ (exists action data',
        data = Some (action, recipient (intent s id), value (intent s id), data')
        /\ keccak_string action = actionHash (intent s id)
        /\ supported_action (keccak_string action))
  /\ s' = mkState _NOT_ENTERED
            (<[id := with_status Executed (intent s id)]> (intents s))
            (agentNonces s) (authorizedRelayers s) (relayerInfo s) (activeRelayers s)
            (agentRegistry s) (policyEngine s) (balance s)
            (IntentExecuted id (msg_sender env) (block_timestamp env) :: events s).
Proof.
  unfold_executor. unfold_monad. unfold supported_action. exec.
  all: intros [= <- <-]; unfold intent in *; cbn in *; tidy; subst.
  all: split; [done|]; split; [done|]; split; [done|]; split; [lia|].
  all: split; [|reflexivity].
  all: eexists _, _; split; [reflexivity|]; split; [assumption|].
  - left; assumption.
  - right; assumption.
Qed.
Lemma disputeIntent_ok env id reason s u s' :
  disputeIntent env id reason s = Ok (u, s') ->
  intentId (intent s id) ≠ 0
  /\ s' = mkState (_status s)
            (<[id := with_status Disputed (intent s id)]> (intents s))
            (agentNonces s) (authorizedRelayers s) (relayerInfo s) (activeRelayers s)
            (agentRegistry s) (policyEngine s) (balance s)
            (IntentDisputed id (msg_sender env) reason :: events s).
Proof.
  unfold_executor. unfold_monad. exec.
  by intros [= <- <-].
Qed.

Lemma authorizeRelayer_ok env r s u s' :
  authorizeRelayer env r s = Ok (u, s') ->
  s' = mkState (_status s) (intents s) (agentNonces s)
         (<[r := true]> (authorizedRelayers s)) (relayerInfo s) (activeRelayers s)
         (agentRegistry s) (policyEngine s) (balance s)
         (RelayerAuthorized r :: events s).
Proof.
  unfold_executor. unfold_monad. exec.
  by intros [= <- <-].
Qed.

Lemma revokeRelayer_ok env r s u s' :
  revokeRelayer env r s = Ok (u, s') ->
  s' = mkState (_status s) (intents s) (agentNonces s)
         (<[r := false]> (authorizedRelayers s)) (relayerInfo s) (activeRelayers s)
         (agentRegistry s) (policyEngine s) (balance s)
         (RelayerRevoked r :: events s).
Proof.
  unfold_executor. unfold_monad. exec.
  by intros [= <- <-].
Qed.

Lemma registerRelayer_ok env stake v s u s' :
  registerRelayer env stake v s = Ok (u, s') ->
  isActive (info s (msg_sender env)) = false
  /\ s' = mkState (_status s) (intents s) (agentNonces s) (authorizedRelayers s)
            (<[msg_sender env :=
                 mkRelayerInfo (msg_sender env) stake 100 0 0 true (block_timestamp env)]>
               (relayerInfo s))
            (activeRelayers s ++ [msg_sender env])
            (agentRegistry s) (policyEngine s) (balance s + v)
            (RelayerAuthorized (msg_sender env) :: events s).
Proof.
  unfold_executor. unfold_monad. exec.
  intros [= <- <-]. unfold info in *. cbn in *. tidy.
  rewrite !rd_insert_eq, !insert_insert_eq. cbn.
  split; [done|reflexivity].
Qed.

Lemma unregisterRelayer_ok env acc s u s' :
  unregisterRelayer env acc s = Ok (u, s') ->
  isActive (info s (msg_sender env)) = true
  /\ s' = mkState (_status s) (intents s) (agentNonces s) (authorizedRelayers s)
            (<[msg_sender env :=
                 with_stakeAmount 0 (with_isActive false (info s (msg_sender env)))]>
               (relayerInfo s))
            (swap_remove (activeRelayers s) (msg_sender env))
            (agentRegistry s) (policyEngine s)
            (balance s - stakeAmount (info s (msg_sender env)))
            (RelayerRevoked (msg_sender env) :: events s).
Proof.
  unfold_executor. unfold_monad. exec.
  intros [= <- <-]. unfold info in *. cbn in *. tidy.
  rewrite !rd_insert_eq, !insert_insert_eq. cbn.
  split; [done|reflexivity].
Qed.

Lemma updateRelayerReputation_ok env r success s u s' :
  updateRelayerReputation env r success s = Ok (u, s') ->
  isActive (info s r) = true
  /\ s' = mkState (_status s) (intents s) (agentNonces s) (authorizedRelayers s)
            (<[r := info_after (block_timestamp env) success (info s r)]> (relayerInfo s))
            (activeRelayers s) (agentRegistry s) (policyEngine s) (balance s) (events s).
Proof.
  unfold_executor. unfold_monad. exec.
  all: intros [= <- <-]; unfold info in *; cbn in *; tidy.
  all: rewrite ?rd_insert_eq, ?insert_insert_eq; cbn.
  all: split; [done|].
  all: unfold info_after, reputation_after, with_lastActive, with_reputationScore,
         with_successfulExecutions, with_intentsProcessed; cbn.
  all: repeat case_decide; try done; try lia.
Qed.

(** ** The executor under a transaction *)

Ltac use_ok H :=
  first
    [ apply submitIntent_ok in H as (_ & _ & _ & ->)
    | apply executeIntent_ok in H as (_ & _ & _ & _ & _ & ->)
    | apply disputeIntent_ok in H as (_ & ->)
    | apply authorizeRelayer_ok in H as ->
    | apply revokeRelayer_ok in H as ->
    | apply registerRelayer_ok in H as (_ & ->)
    | apply unregisterRelayer_ok in H as (_ & ->)
    | apply updateRelayerReputation_ok in H as (_ & ->)
    | (cbn in H; injection H as <- <-) ].

(** Only [emitIntent] writes a nonce. *)
Lemma executor_call_nonces env c s :
  agentNonces (fst (transact (executor_call env c) s)) = agentNonces s.
Proof.
  unfold transact.
  destruct (executor_call env c s) as [[u s']|e] eqn:H; [|done].
  destruct c; cbn [executor_call] in H; use_ok H; reflexivity.
Qed.

Lemma step_executor ecr env c w :
  is_emit c = false ->
  executor (fst (step ecr env c w)) = fst (transact (executor_call env c) (executor w)).
Proof. intros Hc. by rewrite step_components. Qed.

Lemma step_nonce_other ecr env c w a :
  is_emit c = false ->
  nonceOf (executor (fst (step ecr env c w))) a = nonceOf (executor w) a.
Proof.
  intros Hc. rewrite step_executor by done. unfold nonceOf.
  by rewrite executor_call_nonces.
Qed.

(** A successful emission carried the current nonce and advanced it by one,
    for the emitting agent only. *)
Lemma step_emit_nonce ecr env d sig w :
  snd (step ecr env (EmitIntent d sig) w) = Ok tt ->
  IntentData.nonce d = nonceOf (executor w) (IntentData.agentId d)
  /\ nonceOf (executor (fst (step ecr env (EmitIntent d sig) w))) (IntentData.agentId d)
     = nonceOf (executor w) (IntentData.agentId d) + 1
  /\ (forall a, a ≠ IntentData.agentId d ->
        nonceOf (executor (fst (step ecr env (EmitIntent d sig) w))) a
        = nonceOf (executor w) a).
Proof.
  unfold step. cbn [dispatch].
  intros H. apply transact_returned in H.
  apply emitIntent_ok in H as (_ & _ & _ & Hn & _ & _ & _ & Hex).
  rewrite Hex. split; [done|]. split.
  - unfold nonceOf at 1. cbn. by rewrite rd_insert_eq.
  - intros a Ha. unfold nonceOf at 1. cbn. by rewrite rd_insert_ne.
Qed.

(** With a nonce other than the current one [emitIntent] reverts. *)
Lemma emitIntent_wrong_nonce ecr env d sig w :
  IntentData.nonce d ≠ nonceOf (executor w) (IntentData.agentId d) ->
  exists e, emitIntent ecr env d sig w = Err e.
Proof.
  intros Hn. destruct (emitIntent ecr env d sig w) as [[u w']|e] eqn:H; [|by exists e].
  by apply emitIntent_ok in H as (_ & _ & _ & ? & _).
Qed.

(** The third gate: a fresh, unexpired intent with a wrong nonce reverts with
    InvalidNonce. *)
Lemma emitIntent_invalid_nonce ecr env d sig w :
  _status (executor w) ≠ _ENTERED ->
  intentId (intent (executor w) (IntentData.intentId d)) = 0 ->
  ¬ IntentData.expiry d < block_timestamp env ->
  IntentData.nonce d ≠ nonceOf (executor w) (IntentData.agentId d) ->
  emitIntent ecr env d sig w = Err InvalidNonce.
Proof.
  intros Hg Hfresh Hexp Hn.
  unfold emitIntent. unfold_executor. unfold_monad. cbn.
  rewrite bool_decide_eq_false_2 by done. cbn.
  unfold intent, nonceOf in *. cbn.
  repeat case_decide; done.
Qed.

Lemma upfrom_length n len : length (upfrom n len) = len.
Proof. revert n. induction len as [|k IH]; intros n; cbn; [done|by rewrite IH]. Qed.

(** Along any chain of transactions the accepted nonces of an agent count up
    from the agent's nonce at the start, and the nonce at the end is the
    start plus their number. *)
Lemma accepted_nonces_count_up ecr a txs w :
  accepted_nonces ecr a txs w
  = upfrom (nonceOf (executor w) a) (length (accepted_nonces ecr a txs w))
  /\ nonceOf (executor (run ecr txs w)) a
     = nonceOf (executor w) a + N.of_nat (length (accepted_nonces ecr a txs w)).
Proof.
  revert w. induction txs as [|[env c] txs IH]; intros w.
  - cbn. split; [done|lia].
  - destruct (IH (fst (step ecr env c w))) as [IH1 IH2].
    cbn [accepted_nonces run].
    destruct (is_emit c) eqn:Hc.
    + destruct c; try discriminate Hc.
      destruct (snd (step ecr env (EmitIntent d signature) w)) as [[]|e] eqn:Hs.
      * destruct (step_emit_nonce _ _ _ _ _ Hs) as (Hn & Hsame & Hother).
        destruct (decide (IntentData.agentId d = a)) as [<-|Hne].
        -- cbn [length upfrom]. rewrite IH2, Hsame. split; [|lia].
           f_equal; [done|]. rewrite IH1 at 1. by rewrite Hsame.
        -- rewrite IH2, Hother by done. split; [|done].
           rewrite IH1 at 1. by rewrite Hother.
      * apply transact_reverted in Hs as [Hw _]. fold (step ecr env (EmitIntent d signature) w) in Hw.
        rewrite Hw in *. done.
    + assert (Hacc : match c, snd (step ecr env c w) with
                     | EmitIntent d _, Ok _ =>
                         if decide (IntentData.agentId d = a)
                         then IntentData.nonce d
                              :: accepted_nonces ecr a txs (fst (step ecr env c w))
                         else accepted_nonces ecr a txs (fst (step ecr env c w))
                     | _, _ => accepted_nonces ecr a txs (fst (step ecr env c w))
                     end = accepted_nonces ecr a txs (fst (step ecr env c w))).
      { destruct c; try discriminate Hc; reflexivity. }
      rewrite Hacc. rewrite IH2, (step_nonce_other _ _ _ _ _ Hc). split; [|done].
      rewrite IH1 at 1. by rewrite (step_nonce_other _ _ _ _ _ Hc).
Qed.

(** C1, as the code has it: with a nonce other than the agent's current one
    [emitIntent] always reverts and changes nothing; the revert is
    InvalidNonce when the two earlier gates pass (the guard is free, the id
    is not stored yet and the expiry has not passed). A successful emission
    carried the current nonce and advanced it by exactly one; nothing else
    changes a nonce; so from deployment on the accepted nonces of an agent
    are 0, 1, 2, ... and the stored nonce is their number. *)
Theorem emitIntent_nonce_sequence (ecrecover : N -> N -> N -> N -> N) :
  (forall env d sig w,
     IntentData.nonce d ≠ nonceOf (executor w) (IntentData.agentId d) ->
     (exists e, step ecrecover env (EmitIntent d sig) w = (w, Err e))
     /\ (_status (executor w) ≠ _ENTERED ->
         intentId (intent (executor w) (IntentData.intentId d)) = 0 ->
         ¬ IntentData.expiry d < block_timestamp env ->
         step ecrecover env (EmitIntent d sig) w = (w, Err InvalidNonce)))
  /\ (forall env d sig w,
        snd (step ecrecover env (EmitIntent d sig) w) = Ok tt ->
        IntentData.nonce d = nonceOf (executor w) (IntentData.agentId d)
        /\ nonceOf (executor (fst (step ecrecover env (EmitIntent d sig) w)))
                   (IntentData.agentId d)
           = nonceOf (executor w) (IntentData.agentId d) + 1
        /\ (forall a, a ≠ IntentData.agentId d ->
              nonceOf (executor (fst (step ecrecover env (EmitIntent d sig) w))) a
              = nonceOf (executor w) a))
  /\ (forall env c w a,
        nonceOf (executor (fst (step ecrecover env c w))) a ≠ nonceOf (executor w) a ->
        exists d sig,
          c = EmitIntent d sig /\ IntentData.agentId d = a
          /\ snd (step ecrecover env c w) = Ok tt)
  /\ (forall deployer ra pa txs a,
        accepted_nonces ecrecover a txs (genesis deployer ra pa)
        = upfrom 0 (length (accepted_nonces ecrecover a txs (genesis deployer ra pa)))
        /\ nonceOf (executor (run ecrecover txs (genesis deployer ra pa))) a
           = N.of_nat (length (accepted_nonces ecrecover a txs (genesis deployer ra pa)))).
Proof.
  split; [|split; [|split]].
  - intros env d sig w Hn. split.
    + destruct (emitIntent_wrong_nonce ecrecover env d sig w Hn) as [e He].
      exists e. unfold step. cbn [dispatch]. by apply transact_err.
    + intros Hg Hfresh Hexp. unfold step. cbn [dispatch].
      by apply transact_err, emitIntent_invalid_nonce.
  - intros env d sig w. apply step_emit_nonce.
  - intros env c w a Hne.
    destruct (is_emit c) eqn:Hc.
    + destruct c; try discriminate Hc. exists d, signature.
      destruct (snd (step ecrecover env (EmitIntent d signature) w)) as [[]|e] eqn:Hs.
      * destruct (step_emit_nonce _ _ _ _ _ Hs) as (_ & _ & Hother).
        split; [done|]. split; [|done].
        destruct (decide (IntentData.agentId d = a)) as [|Hda]; [done|].
        destruct Hne. by apply Hother.
      * apply transact_reverted in Hs as [Hw _].
        fold (step ecrecover env (EmitIntent d signature) w) in Hw.
        destruct Hne. by rewrite Hw.
    + destruct Hne. by apply step_nonce_other.
  - intros deployer ra pa txs a.
    destruct (accepted_nonces_count_up ecrecover a txs (genesis deployer ra pa))
      as [H1 H2].
    unfold nonceOf at 1 in H1. unfold nonceOf at 2 in H2. cbn in H1, H2.
    rewrite rd_empty in H1, H2. split; [exact H1|]. rewrite H2. lia.
Qed.

Lemma emitIntent_nonce_sequence_witness :
  step sampleRecover (at_time 1 12)
       (EmitIntent (sampleIntent 43 7 0) sampleSignature) (world_with_intent 0)
  = (world_with_intent 0, Err InvalidNonce)
  /\ accepted_nonces sampleRecover 5
       [ (at_time 11 5, RegisterAgent 5 77 [] "" samplePolicy);
         (at_time 1 10, EmitIntent (sampleIntent 42 0 0) sampleSignature) ]
       (genesis 9 100 200)
     = upfrom 0 1.
Proof.
  pose proof (emitIntent_nonce_sequence sampleRecover) as (Hwrong & _ & _ & Hseq).
  split.
  - apply (Hwrong (at_time 1 12) (sampleIntent 43 7 0) sampleSignature (world_with_intent 0)).
    + vm_compute. intros H. discriminate H.
    + vm_compute. intros H. discriminate H.
    + vm_compute. reflexivity.
    + vm_compute. intros H. discriminate H.
  - destruct (Hseq 9 100 200
                [ (at_time 11 5, RegisterAgent 5 77 [] "" samplePolicy);
                  (at_time 1 10, EmitIntent (sampleIntent 42 0 0) sampleSignature) ] 5)
      as [H _].
    rewrite H. vm_compute. reflexivity.
Defined.

(** C1 as stated fails on an intent id that is already stored: the stale
    nonce is rejected, but by the first gate, with IntentAlreadyExists. *)
Lemma emitIntent_stale_nonce_existing_id :
  IntentData.nonce (sampleIntent 42 7 0) ≠ nonceOf (executor (world_with_intent 0)) 5
  /\ snd (step sampleRecover (at_time 1 12)
            (EmitIntent (sampleIntent 42 7 0) sampleSignature) (world_with_intent 0))
     = Err IntentAlreadyExists.
Proof.
  split.
  - vm_compute. intros H. discriminate H.
  - vm_compute. reflexivity.
Qed.

(** ** [executeIntent]: the timelock and the action dispatch *)

Lemma executeIntent_before_timelock env id data s :
  _status s ≠ _ENTERED ->
  intentId (intent s id) ≠ 0 ->
  status (intent s id) = Submitted ->
  submittedAt (intent s id) + TIMELOCK_DURATION <= MAX_UINT256 ->
  block_timestamp env < submittedAt (intent s id) + TIMELOCK_DURATION ->
  executeIntent env id data s = Err TimelockNotExpired.
Proof.
  intros Hg Hid Hst Hfit Hnow.
  unfold_executor. unfold_monad. cbn.
  rewrite bool_decide_eq_false_2 by assumption. cbn.
  unfold intent in *. cbn.
  rewrite decide_False by assumption.
  rewrite decide_False by (intros H; apply H; assumption).
  rewrite add256_fits by assumption. cbn.
  rewrite decide_True by assumption. reflexivity.
Qed.

Lemma executeIntent_after_timelock env id action data' s :
  _status s ≠ _ENTERED ->
  intentId (intent s id) ≠ 0 ->
  status (intent s id) = Submitted ->
  keccak_string action = actionHash (intent s id) ->
  supported_action (keccak_string action) ->
  submittedAt (intent s id) + TIMELOCK_DURATION <= block_timestamp env ->
  block_timestamp env <= MAX_UINT256 ->
  executeIntent env id
    (Some (action, recipient (intent s id), value (intent s id), data')) s
  = Ok (tt,
        mkState _NOT_ENTERED
          (<[id := with_status Executed (intent s id)]> (intents s))
          (agentNonces s) (authorizedRelayers s) (relayerInfo s) (activeRelayers s)
          (agentRegistry s) (policyEngine s) (balance s)
          (IntentExecuted id (msg_sender env) (block_timestamp env) :: events s)).
Proof.
  intros Hg Hid Hst Hact Hsup Hnow Hmax.
  unfold_executor. unfold_monad. cbn.
  rewrite bool_decide_eq_false_2 by assumption. cbn.
  unfold intent in *. cbn.
  rewrite decide_False by assumption.
  rewrite decide_False by (intros H; apply H; assumption).
  rewrite add256_fits by lia. cbn.
  rewrite decide_False by lia.
  rewrite bool_decide_eq_true_2 by assumption. cbn.
  rewrite bool_decide_eq_true_2 by reflexivity. cbn.
  rewrite bool_decide_eq_true_2 by reflexivity. cbn.
  destruct (decide (keccak_string action = keccak_string "transfer")) as [|Hnt]; cbn.
  - reflexivity.
  - destruct (decide (keccak_string action = keccak_string "call")) as [|Hnc]; cbn.
    + reflexivity.
    + destruct Hsup as [H|H]; [exact (False_ind _ (Hnt H)) | exact (False_ind _ (Hnc H))].
Qed.

(** C5, as the code has it: for an intent in Submitted status and a matching
    payload whose action is one the dispatch supports ("transfer" or "call"),
    [executeIntent] reverts with TimelockNotExpired strictly before
    [submittedAt + 60] and succeeds, setting the status to Executed, from
    [submittedAt + 60] on. *)
Theorem executeIntent_timelock_boundary
    (env : Env) (id : N) (action : string) (data' : list N) (s : State) :
  _status s ≠ _ENTERED ->
  intentId (intent s id) ≠ 0 ->
  status (intent s id) = Submitted ->
  keccak_string action = actionHash (intent s id) ->
  supported_action (keccak_string action) ->
  submittedAt (intent s id) + TIMELOCK_DURATION <= MAX_UINT256 ->
  block_timestamp env <= MAX_UINT256 ->
  TIMELOCK_DURATION = 60
  /\ (block_timestamp env < submittedAt (intent s id) + TIMELOCK_DURATION ->
      transact (executeIntent env id
                  (Some (action, recipient (intent s id), value (intent s id), data'))) s
      = (s, Err TimelockNotExpired))
  /\ (submittedAt (intent s id) + TIMELOCK_DURATION <= block_timestamp env ->
      snd (transact (executeIntent env id
                  (Some (action, recipient (intent s id), value (intent s id), data'))) s)
      = Ok tt
      /\ status (intent (fst (transact (executeIntent env id
                  (Some (action, recipient (intent s id), value (intent s id), data'))) s))
                  id)
         = Executed).
Proof.
  intros Hg Hid Hst Hact Hsup Hfit Hmax. split; [reflexivity|]. split.
  - intros Hnow. by apply transact_err, executeIntent_before_timelock.
  - intros Hnow.
    rewrite (transact_ok _ _ _ _
               (executeIntent_after_timelock env id action data' s
                  Hg Hid Hst Hact Hsup Hnow Hmax)).
    cbn. split; [reflexivity|]. unfold intent at 1. cbn. by rewrite rd_insert_eq.
Qed.

Lemma executeIntent_timelock_boundary_witness :
  transact (executeIntent (at_time 33 79) 42 (Some ("transfer", 3, 5, [])))
           (executor (world_submitted (keccak_string "transfer")))
  = (executor (world_submitted (keccak_string "transfer")), Err TimelockNotExpired)
  /\ status (intent (fst (transact (executeIntent (at_time 33 80) 42
                                      (Some ("transfer", 3, 5, [])))
                            (executor (world_submitted (keccak_string "transfer")))))
                    42)
     = Executed.
Proof.
  assert (Hpre :
    _status (executor (world_submitted (keccak_string "transfer"))) ≠ _ENTERED
    /\ intentId (intent (executor (world_submitted (keccak_string "transfer"))) 42) ≠ 0
    /\ status (intent (executor (world_submitted (keccak_string "transfer"))) 42) = Submitted
    /\ keccak_string "transfer"
       = actionHash (intent (executor (world_submitted (keccak_string "transfer"))) 42)
    /\ submittedAt (intent (executor (world_submitted (keccak_string "transfer"))) 42)
       + TIMELOCK_DURATION = 80
    /\ recipient (intent (executor (world_submitted (keccak_string "transfer"))) 42) = 3
    /\ value (intent (executor (world_submitted (keccak_string "transfer"))) 42) = 5).
  { vm_compute. repeat split; try reflexivity; intros H; discriminate H. }
  destruct Hpre as (Hg & Hid & Hst & Hact & Hat & Hrec & Hval).
  split.
  - pose proof (executeIntent_timelock_boundary (at_time 33 79) 42 "transfer" []
                  (executor (world_submitted (keccak_string "transfer")))
                  Hg Hid Hst Hact (or_introl eq_refl)) as H.
    rewrite Hat, Hrec, Hval in H.
    apply H; [vm_compute; intros E; discriminate E
             |vm_compute; intros E; discriminate E
             |vm_compute; reflexivity].
  - pose proof (executeIntent_timelock_boundary (at_time 33 80) 42 "transfer" []
                  (executor (world_submitted (keccak_string "transfer")))
                  Hg Hid Hst Hact (or_introl eq_refl)) as H.
    rewrite Hat, Hrec, Hval in H.
    apply H; [vm_compute; intros E; discriminate E
             |vm_compute; intros E; discriminate E
             |vm_compute; intros E; discriminate E].
Defined.

(** C5 as stated fails for an action the dispatch does not know: the payload
    matches the committed intent and the timelock has passed, yet the call
    reverts. *)
Lemma executeIntent_matching_payload_unsupported_action :
  status (intent (executor (world_submitted (keccak_string "swap"))) 42) = Submitted
  /\ keccak_string "swap"
     = actionHash (intent (executor (world_submitted (keccak_string "swap"))) 42)
  /\ recipient (intent (executor (world_submitted (keccak_string "swap"))) 42) = 3
  /\ value (intent (executor (world_submitted (keccak_string "swap"))) 42) = 5
  /\ submittedAt (intent (executor (world_submitted (keccak_string "swap"))) 42)
     + TIMELOCK_DURATION = 80
  /\ snd (transact (executeIntent (at_time 33 80) 42 (Some ("swap", 3, 5, [])))
            (executor (world_submitted (keccak_string "swap"))))
     = Err (RequireFailed "Unsupported action").
Proof. vm_compute. repeat split; reflexivity. Qed.

(** ** Invariants of the executor *)

Lemma rd_insert {V : Type} (d : V) (m : gmap N V) (k k' : N) (v : V) :
  rd d (<[k := v]> m) k' = if decide (k = k') then v else rd d m k'.
Proof.
  destruct (decide (k = k')) as [->|]; [apply rd_insert_eq|by apply rd_insert_ne].
Qed.

Lemma intent_mkState a m b c d e f g h i id :
  intent (mkState a m b c d e f g h i) id = rd zeroIntent m id.
Proof. reflexivity. Qed.

(** Between transactions the reentrancy guard is free. *)
Lemma executor_call_guard env c s :
  _status s = _NOT_ENTERED ->
  _status (fst (transact (executor_call env c) s)) = _NOT_ENTERED.
Proof.
  intros Hs. unfold transact.
  destruct (executor_call env c s) as [[u s']|e] eqn:H; [|exact Hs].
  destruct c; cbn [executor_call] in H; use_ok H; cbn; first [exact Hs | reflexivity].
Qed.

Lemma reachable_guard_free ecr w :
  reachable ecr w -> _status (executor w) = _NOT_ENTERED.
Proof.
  revert w. apply reachable_ind; [reflexivity|].
  intros env c w Hw. destruct (is_emit c) eqn:Hc.
  - destruct c; try discriminate Hc. unfold step, transact. cbn [dispatch].
    destruct (emitIntent _ _ _ _ w) as [[u w']|e] eqn:He; cbn; [|exact Hw].
    apply emitIntent_ok in He as (_ & _ & _ & _ & _ & _ & _ & ->). reflexivity.
  - rewrite step_executor by exact Hc. by apply executor_call_guard.
Qed.

Lemma executor_call_executed_supported env c s :
  executed_supported s ->
  executed_supported (fst (transact (executor_call env c) s)).
Proof.
  intros Hs. unfold transact.
  destruct (executor_call env c s) as [[u s']|e] eqn:H; cbn [fst]; [|exact Hs].
  destruct c; cbn [executor_call] in H;
    try (use_ok H; exact Hs).
  - apply submitIntent_ok in H as (_ & _ & _ & ->).
    intros id. rewrite !intent_mkState, rd_insert.
    case_decide as Hk; [subst id|exact (Hs id)].
    cbn. intros E. discriminate E.
  - apply executeIntent_ok in H as (_ & _ & _ & _ & (action & d' & _ & Hact & Hsup) & ->).
    intros id. rewrite !intent_mkState, rd_insert.
    case_decide as Hk; [subst id|exact (Hs id)].
    cbn. intros _. rewrite <- Hact. exact Hsup.
  - apply disputeIntent_ok in H as (_ & ->).
    intros id. rewrite !intent_mkState, rd_insert.
    case_decide as Hk; [subst id|exact (Hs id)].
    cbn. intros E. discriminate E.
Qed.

Lemma reachable_executed_supported ecr w :
  reachable ecr w -> executed_supported (executor w).
Proof.
  revert w. apply reachable_ind.
  - intros deployer ra pa id. unfold intent. cbn. rewrite rd_empty. cbn.
    intros E. discriminate E.
  - intros env c w Hw. destruct (is_emit c) eqn:Hc.
    + destruct c; try discriminate Hc. unfold step, transact. cbn [dispatch].
      destruct (emitIntent _ _ _ _ w) as [[u w']|e] eqn:He; cbn; [|exact Hw].
      apply emitIntent_ok in He as (_ & _ & _ & _ & _ & _ & _ & ->).
      intros id. cbn [executor]. rewrite !intent_mkState, rd_insert.
      case_decide as Hk; [subst id|exact (Hw id)].
      cbn. intros E. discriminate E.
    + rewrite step_executor by exact Hc. by apply executor_call_executed_supported.
Qed.

Lemma run_app ecr txs1 txs2 w :
  run ecr (txs1 ++ txs2) w = run ecr txs2 (run ecr txs1 w).
Proof.
  revert w. induction txs1 as [|[env c] txs1 IH]; intros w; cbn; [reflexivity|apply IH].
Qed.

(** An intent committed to any other action cannot be executed. *)
Lemma executeIntent_unsupported env id data s :
  ¬ supported_action (actionHash (intent s id)) ->
  exists e, executeIntent env id data s = Err e.
Proof.
  intros Hn. destruct (executeIntent env id data s) as [[u s']|e] eqn:H; [|by exists e].
  apply executeIntent_ok in H as (_ & _ & _ & _ & (action & d' & _ & Hact & Hsup) & _).
  destruct Hn. rewrite <- Hact. exact Hsup.
Qed.

(** C10: an intent whose committed action hash is neither that of "transfer"
    nor that of "call" makes every [executeIntent] call revert, whatever the
    payload and the time; so in every reachable state an intent in Executed
    status commits to one of these two hashes. *)
Theorem unsupported_action_never_executed (ecrecover : N -> N -> N -> N -> N) :
  (forall env id data s,
     actionHash (intent s id) ≠ keccak_string "transfer" ->
     actionHash (intent s id) ≠ keccak_string "call" ->
     exists e, transact (executeIntent env id data) s = (s, Err e))
  /\ (forall w id,
        reachable ecrecover w ->
        actionHash (intent (executor w) id) ≠ keccak_string "transfer" ->
        actionHash (intent (executor w) id) ≠ keccak_string "call" ->
        status (intent (executor w) id) ≠ Executed).
Proof.
  split.
  - intros env id data s Ht Hc.
    destruct (executeIntent_unsupported env id data s) as [e He].
    + intros [H|H]; [exact (Ht H)|exact (Hc H)].
    + exists e. by apply transact_err.
  - intros w id Hw Ht Hc Hex.
    destruct (reachable_executed_supported _ _ Hw id Hex) as [H|H];
      [exact (Ht H)|exact (Hc H)].
Qed.

Lemma unsupported_action_never_executed_witness :
  (exists e,
     transact (executeIntent (at_time 33 80) 42 (Some ("swap", 3, 5, [])))
              (executor (world_submitted (keccak_string "swap")))
     = (executor (world_submitted (keccak_string "swap")), Err e))
  /\ status (intent (executor (world_submitted (keccak_string "swap"))) 42) ≠ Executed.
Proof.
  assert (Ht : actionHash (intent (executor (world_submitted (keccak_string "swap"))) 42)
               ≠ keccak_string "transfer").
  { vm_compute. intros E. discriminate E. }
  assert (Hc : actionHash (intent (executor (world_submitted (keccak_string "swap"))) 42)
               ≠ keccak_string "call").
  { vm_compute. intros E. discriminate E. }
  pose proof (unsupported_action_never_executed sampleRecover) as [Hfail Hnever].
  split.
  - exact (Hfail (at_time 33 80) 42 (Some ("swap", 3, 5, []))
             (executor (world_submitted (keccak_string "swap"))) Ht Hc).
  - apply (Hnever (world_submitted (keccak_string "swap")) 42); [|exact Ht|exact Hc].
    unfold world_submitted, world_with_intent. rewrite <- run_app.
    apply reachable_run.
Defined.

(** ** [disputeIntent] and the stored intent ids *)

(** The only test of [disputeIntent] is that the intent is stored: it
    succeeds from any status and with any reason. *)
Lemma disputeIntent_any_status env id reason s :
  intentId (intent s id) ≠ 0 ->
  disputeIntent env id reason s
  = Ok (tt,
        mkState (_status s)
          (<[id := with_status Disputed (intent s id)]> (intents s))
          (agentNonces s) (authorizedRelayers s) (relayerInfo s) (activeRelayers s)
          (agentRegistry s) (policyEngine s) (balance s)
          (IntentDisputed id (msg_sender env) reason :: events s)).
Proof.
  intros Hid. unfold_executor. unfold_monad. cbn.
  rewrite decide_False by assumption. reflexivity.
Qed.

Lemma disputeIntent_unknown env id reason s :
  intentId (intent s id) = 0 ->
  disputeIntent env id reason s = Err IntentNotFound.
Proof.
  intros Hid. unfold_executor. unfold_monad. cbn.
  rewrite decide_True by assumption. reflexivity.
Qed.

(** No call other than [disputeIntent] moves an intent into Disputed. *)
Lemma only_dispute_sets_disputed ecr env c w id :
  status (intent (executor w) id) ≠ Disputed ->
  status (intent (executor (fst (step ecr env c w))) id) = Disputed ->
  exists reason, c = DisputeIntent id reason.
Proof.
  intros Hbefore Hafter. destruct (is_emit c) eqn:Hc.
  - destruct c; try discriminate Hc. revert Hafter. unfold step, transact. cbn [dispatch].
    destruct (emitIntent _ _ _ _ w) as [[u w']|e] eqn:He; cbn [fst];
      [|intros E; destruct (Hbefore E)].
    apply emitIntent_ok in He as (_ & _ & _ & _ & _ & _ & _ & ->).
    rewrite !intent_mkState, rd_insert.
    case_decide as Hk; [cbn; intros E; discriminate E|intros E; destruct (Hbefore E)].
  - revert Hafter. rewrite step_executor by exact Hc. unfold transact.
    destruct (executor_call env c (executor w)) as [[u s']|e] eqn:H; cbn [fst];
      [|intros E; destruct (Hbefore E)].
    destruct c; cbn [executor_call] in H;
      try (use_ok H; intros E; destruct (Hbefore E)).
    + apply submitIntent_ok in H as (_ & _ & _ & ->).
      rewrite !intent_mkState, rd_insert.
      case_decide as Hk; [cbn; intros E; discriminate E|intros E; destruct (Hbefore E)].
    + apply executeIntent_ok in H as (_ & _ & _ & _ & _ & ->).
      rewrite !intent_mkState, rd_insert.
      case_decide as Hk; [cbn; intros E; discriminate E|intros E; destruct (Hbefore E)].
    + apply disputeIntent_ok in H as (_ & ->).
      rewrite !intent_mkState, rd_insert.
      case_decide as Hk; [subst; intros _; by eexists|intros E; destruct (Hbefore E)].
Qed.

(** C4 (the code at the claim's own scenario): agent 5's intent 42 is in
    Pending status, and [disputeIntent] with an empty reason succeeds on it
    and sets it to Disputed. *)
Theorem disputeIntent_accepts_pending_and_empty_reason :
  status (intent (executor (world_with_intent 0)) 42) = Pending
  /\ snd (step sampleRecover (at_time 8 12) (DisputeIntent 42 "") (world_with_intent 0))
     = Ok tt
  /\ status (intent (executor (fst (step sampleRecover (at_time 8 12)
                                      (DisputeIntent 42 "") (world_with_intent 0)))) 42)
     = Disputed.
Proof. vm_compute. repeat split; reflexivity. Qed.

(** An intent stored under a nonzero id blocks every later emission of that
    id ... *)
Lemma emitIntent_duplicate_nonzero_id ecr env d sig w :
  _status (executor w) ≠ _ENTERED ->
  intentId (intent (executor w) (IntentData.intentId d)) ≠ 0 ->
  emitIntent ecr env d sig w = Err IntentAlreadyExists.
Proof.
  intros Hg Hid. unfold emitIntent. unfold_executor. unfold_monad. cbn.
  rewrite bool_decide_eq_false_2 by assumption. cbn.
  unfold intent in *. cbn.
  rewrite decide_True by assumption. reflexivity.
Qed.

(** ... and a stored id stays stored, whatever is called. *)
Lemma stored_id_persists ecr env c w id :
  intentId (intent (executor w) id) ≠ 0 ->
  intentId (intent (executor (fst (step ecr env c w))) id)
  = intentId (intent (executor w) id).
Proof.
  intros Hid. destruct (is_emit c) eqn:Hc.
  - destruct c; try discriminate Hc. unfold step, transact. cbn [dispatch].
    destruct (emitIntent _ _ _ _ w) as [[u w']|e] eqn:He; cbn [fst]; [|reflexivity].
    apply emitIntent_ok in He as (_ & Hfresh & _ & _ & _ & _ & _ & ->).
    rewrite !intent_mkState, rd_insert.
    case_decide as Hk; [|reflexivity]. subst id. destruct (Hid Hfresh).
  - rewrite step_executor by exact Hc. unfold transact.
    destruct (executor_call env c (executor w)) as [[u s']|e] eqn:H; cbn [fst];
      [|reflexivity].
    destruct c; cbn [executor_call] in H; try (use_ok H; reflexivity).
    + apply submitIntent_ok in H as (_ & _ & _ & ->).
      rewrite !intent_mkState, rd_insert. case_decide as Hk; [subst|]; reflexivity.
    + apply executeIntent_ok in H as (_ & _ & _ & _ & _ & ->).
      rewrite !intent_mkState, rd_insert. case_decide as Hk; [subst|]; reflexivity.
    + apply disputeIntent_ok in H as (_ & ->).
      rewrite !intent_mkState, rd_insert. case_decide as Hk; [subst|]; reflexivity.
Qed.

(** After a successful emission the intent is stored under its id. *)
Lemma emitted_id_stored ecr env d sig w :
  snd (step ecr env (EmitIntent d sig) w) = Ok tt ->
  intentId (intent (executor (fst (step ecr env (EmitIntent d sig) w)))
                   (IntentData.intentId d))
  = IntentData.intentId d.
Proof.
  unfold step. cbn [dispatch]. intros H. apply transact_returned in H.
  apply emitIntent_ok in H as (_ & _ & _ & _ & _ & _ & _ & ->).
  rewrite !intent_mkState, rd_insert_eq. reflexivity.
Qed.

(** C6 (the code at intent id 0): the id 0 is what an empty slot of the
    intent store holds, so an intent emitted with id 0 is stored and still
    counts as absent; a second emission of id 0, with the next nonce, is
    accepted too and overwrites the first. *)
Theorem emitIntent_zero_id_accepted_twice :
  snd (step sampleRecover (at_time 1 10)
         (EmitIntent (sampleIntent 0 0 0) sampleSignature)
         (run sampleRecover [(at_time 11 5, RegisterAgent 5 77 [] "" samplePolicy)]
              (genesis 9 100 200)))
  = Ok tt
  /\ snd (step sampleRecover (at_time 1 11)
            (EmitIntent (sampleIntent 0 1 0) sampleSignature)
            (run sampleRecover
               [ (at_time 11 5, RegisterAgent 5 77 [] "" samplePolicy);
                 (at_time 1 10, EmitIntent (sampleIntent 0 0 0) sampleSignature) ]
               (genesis 9 100 200)))
     = Ok tt
  /\ nonce (intent (executor
       (run sampleRecover
          [ (at_time 11 5, RegisterAgent 5 77 [] "" samplePolicy);
            (at_time 1 10, EmitIntent (sampleIntent 0 0 0) sampleSignature);
            (at_time 1 11, EmitIntent (sampleIntent 0 1 0) sampleSignature) ]
          (genesis 9 100 200))) 0)
     = 1.
Proof. vm_compute. repeat split; reflexivity. Qed.

(** ** Relayer reputation *)

Lemma info_mkState a b c d m e f g h i r :
  info (mkState a b c d m e f g h i) r = rd zeroRelayerInfo m r.
Proof. reflexivity. Qed.

Lemma active_is_stored (s : State) (r : N) :
  isActive (info s r) = true -> relayerInfo s !! r = Some (info s r).
Proof.
  unfold info, rd. destruct (relayerInfo s !! r) as [i|]; cbn; [reflexivity|].
  intros E. discriminate E.
Qed.

Lemma reputation_after_range success rep :
  6 <= rep <= 200 -> 6 <= reputation_after success rep <= 200.
Proof.
  intros H. unfold reputation_after. destruct success; case_decide; lia.
Qed.

Lemma executor_call_relayers_in_range env c s :
  relayers_in_range s ->
  relayers_in_range (fst (transact (executor_call env c) s)).
Proof.
  intros Hs. unfold transact.
  destruct (executor_call env c s) as [[u s']|e] eqn:H; cbn [fst]; [|exact Hs].
  destruct c; cbn [executor_call] in H; try (use_ok H; exact Hs).
  - apply registerRelayer_ok in H as (_ & ->).
    intros r i. cbn [relayerInfo]. rewrite lookup_insert. case_decide as Hk.
    + intros [= <-]. cbn. lia.
    + apply Hs.
  - apply unregisterRelayer_ok in H as (Hact & ->).
    intros r i. cbn [relayerInfo]. rewrite lookup_insert. case_decide as Hk.
    + intros [= <-]. cbn. exact (Hs _ _ (active_is_stored _ _ Hact)).
    + apply Hs.
  - apply updateRelayerReputation_ok in H as (Hact & ->).
    intros r i. cbn [relayerInfo]. rewrite lookup_insert. case_decide as Hk.
    + intros [= <-]. cbn. apply reputation_after_range.
      exact (Hs _ _ (active_is_stored _ _ Hact)).
    + apply Hs.
Qed.

Lemma reachable_relayers_in_range ecr w :
  reachable ecr w -> relayers_in_range (executor w).
Proof.
  revert w. apply reachable_ind.
  - intros deployer ra pa r i. cbn. rewrite lookup_empty. intros E. discriminate E.
  - intros env c w Hw. destruct (is_emit c) eqn:Hc.
    + destruct c; try discriminate Hc. unfold step, transact. cbn [dispatch].
      destruct (emitIntent _ _ _ _ w) as [[u w']|e] eqn:He; cbn [fst]; [|exact Hw].
      apply emitIntent_ok in He as (_ & _ & _ & _ & _ & _ & _ & ->). exact Hw.
    + rewrite step_executor by exact Hc. by apply executor_call_relayers_in_range.
Qed.

(** An authorized call for an active relayer succeeds, short of a counter
    at the top of [uint256]. *)
Lemma updateRelayerReputation_succeeds env r success s :
  msg_sender env = this env \/ rd false (authorizedRelayers s) (msg_sender env) = true ->
  isActive (info s r) = true ->
  intentsProcessed (info s r) + 1 <= MAX_UINT256 ->
  successfulExecutions (info s r) + 1 <= MAX_UINT256 ->
  reputationScore (info s r) + 1 <= MAX_UINT256 ->
  exists s', updateRelayerReputation env r success s = Ok (tt, s').
Proof.
  intros Hauth Hact Hp Hs Hr.
  unfold_executor. unfold_monad. cbn.
  assert (bool_decide (msg_sender env = this env)
          || rd false (authorizedRelayers s) (msg_sender env) = true) as ->.
  { destruct Hauth as [H| ->]; [by rewrite bool_decide_eq_true_2|apply orb_true_r]. }
  cbn. rewrite Hact. cbn. rewrite add256_fits by assumption. cbn.
  destruct success; cbn.
  - rewrite add256_fits by assumption. cbn. case_decide; cbn.
    + rewrite add256_fits by assumption. cbn. by eexists.
    + by eexists.
  - case_decide; cbn.
    + rewrite sub256_fits by lia. cbn. by eexists.
    + by eexists.
Qed.

(** C8, as the code has it: a successful [updateRelayerReputation]
    increments the processed counter, on success also the success counter,
    and stamps the last activity; on success the reputation rises by exactly
    1 capped at 200; on failure it falls by exactly 5 when it is above 10 and
    stays as it is otherwise; so the reputation of every active relayer of a
    reachable state lies within 6 and 200. *)
Theorem updateRelayerReputation_bounds (ecrecover : N -> N -> N -> N -> N) :
  (forall env r success s u s',
     updateRelayerReputation env r success s = Ok (u, s') ->
     isActive (info s r) = true
     /\ intentsProcessed (info s' r) = intentsProcessed (info s r) + 1
     /\ successfulExecutions (info s' r)
        = (if success then successfulExecutions (info s r) + 1
           else successfulExecutions (info s r))
     /\ reputationScore (info s' r) = reputation_after success (reputationScore (info s r))
     /\ lastActive (info s' r) = block_timestamp env
     /\ (forall r', r' ≠ r -> info s' r' = info s r'))
  /\ (forall rep,
        6 <= rep <= 200 ->
        reputation_after true rep = N.min (rep + 1) 200
        /\ reputation_after false rep = (if decide (10 < rep) then rep - 5 else rep)
        /\ 6 <= reputation_after true rep <= 200
        /\ 6 <= reputation_after false rep <= 200)
  /\ (forall env r success s,
        msg_sender env = this env
        \/ rd false (authorizedRelayers s) (msg_sender env) = true ->
        isActive (info s r) = true ->
        intentsProcessed (info s r) + 1 <= MAX_UINT256 ->
        successfulExecutions (info s r) + 1 <= MAX_UINT256 ->
        reputationScore (info s r) + 1 <= MAX_UINT256 ->
        exists s', updateRelayerReputation env r success s = Ok (tt, s'))
  /\ (forall w r,
        reachable ecrecover w ->
        isActive (info (executor w) r) = true ->
        6 <= reputationScore (info (executor w) r) <= 200).
Proof.
  split; [|split; [|split]].
  - intros env r success s u s' H.
    apply updateRelayerReputation_ok in H as (Hact & ->).
    split; [exact Hact|]. rewrite !info_mkState, rd_insert_eq. cbn.
    repeat split; try reflexivity.
    intros r' Hr'. rewrite info_mkState. by rewrite rd_insert_ne.
  - intros rep Hrep. unfold reputation_after. cbn.
    repeat split; repeat case_decide; lia.
  - intros. by apply updateRelayerReputation_succeeds.
  - intros w r Hw Hact.
    exact (reachable_relayers_in_range _ _ Hw _ _ (active_is_stored _ _ Hact)).
Qed.

Lemma updateRelayerReputation_bounds_witness :
  reputationScore (info (executor (relayer_world 1 1)) 33)
  = reputation_after false (reputationScore (info (executor (relayer_world 1 0)) 33))
  /\ 6 <= reputationScore (info (executor (relayer_world 1 1)) 33) <= 200.
Proof.
  pose proof (updateRelayerReputation_bounds sampleRecover) as (Hupd & _ & _ & Hrange).
  split.
  - assert (Hrun : updateRelayerReputation (at_time 33 102) 33 false
                     (executor (relayer_world 1 0))
                   = Ok (tt, executor (relayer_world 1 1))).
    { vm_compute. reflexivity. }
    exact (proj1 (proj2 (proj2 (proj2 (Hupd _ _ _ _ _ _ Hrun))))).
  - apply Hrange.
    + unfold relayer_world. apply reachable_run.
    + vm_compute. reflexivity.
Defined.

(** C8 as stated fails on the failure side: from 12 the code goes to 7 and
    from 10 it stays at 10, which no floor [L] of a decrement by 5 explains
    ([max (12 - 5) L = 7] needs [L <= 7], [max (10 - 5) L = 10] needs
    [L = 10]). *)
Lemma failure_is_not_a_floored_decrement :
  reputationScore (info (executor (relayer_world 2 18)) 33) = 12
  /\ reputationScore (info (executor (relayer_world 2 19)) 33) = 7
  /\ reputationScore (info (executor (relayer_world 0 18)) 33) = 10
  /\ reputationScore (info (executor (relayer_world 0 19)) 33) = 10
  /\ (forall L : N, ¬ (N.max (12 - 5) L = 7 /\ N.max (10 - 5) L = 10)).
Proof.
  split; [vm_compute; reflexivity|].
  split; [vm_compute; reflexivity|].
  split; [vm_compute; reflexivity|].
  split; [vm_compute; reflexivity|].
  intros L [H1 H2]. lia.
Qed.

(** ** Relayer selection *)

Lemma successRate_le_100 (i : RelayerInfo) :
  successfulExecutions i <= intentsProcessed i -> 0 < intentsProcessed i ->
  successRate i <= 100.
Proof.
  intros Hle Hpos. unfold successRate.
  apply N.Div0.div_le_upper_bound. lia.
Qed.

(** On a scorable record the code's checked computation returns the score. *)
Lemma relayerScore_spec now i s :
  scorable now i -> relayerScore now i s = Ok (score now i, s).
Proof.
  intros (Hlast & Hrep & Hcons & Hfit).
  assert (Hmax : 21000 <= MAX_UINT256) by (unfold MAX_UINT256; lia).
  unfold relayerScore, score. unfold_monad. cbn.
  rewrite sub256_fits by assumption. cbn.
  destruct (decide (now - lastActive i < hours 1)) as [Hrecent|Hold]; cbn.
  - rewrite add256_fits by lia. cbn.
    destruct (decide (0 < intentsProcessed i)) as [Hpos|Hzero]; cbn.
    + rewrite mul256_fits by lia. cbn. rewrite div256_fits by lia. cbn.
      pose proof (successRate_le_100 i Hcons Hpos) as Hrate. unfold successRate in *.
      destruct (decide (successfulExecutions i * 100 / intentsProcessed i < 80)) as [Hlow|Hok];
        cbn.
      * rewrite mul256_fits by nia. cbn. rewrite div256_fits by lia. cbn.
        rewrite decide_True by (split; assumption). reflexivity.
      * rewrite decide_False by (intros [_ H]; exact (Hok H)). reflexivity.
    + rewrite decide_False by (intros [H _]; exact (Hzero H)). reflexivity.
  - destruct (decide (0 < intentsProcessed i)) as [Hpos|Hzero]; cbn.
    + rewrite mul256_fits by lia. cbn. rewrite div256_fits by lia. cbn.
      pose proof (successRate_le_100 i Hcons Hpos) as Hrate. unfold successRate in *.
      destruct (decide (successfulExecutions i * 100 / intentsProcessed i < 80)) as [Hlow|Hok];
        cbn.
      * rewrite mul256_fits by nia. cbn. rewrite div256_fits by lia. cbn.
        rewrite decide_True by (split; assumption). rewrite N.add_0_r. reflexivity.
      * rewrite decide_False by (intros [_ H]; exact (Hok H)).
        rewrite N.add_0_r. reflexivity.
    + rewrite decide_False by (intros [H _]; exact (Hzero H)).
      rewrite N.add_0_r. reflexivity.
Qed.

Lemma selectLoop_spec now s rs bs br :
  (forall r, r ∈ rs -> isActive (info s r) = true -> scorable now (info s r)) ->
  selectLoop now rs bs br s = Ok (best_of now s rs bs br, s).
Proof.
  revert bs br. induction rs as [|r rest IH]; intros bs br Hsc; [reflexivity|].
  cbn [selectLoop best_of]. unfold_monad. cbn.
  assert (Hrest : forall r', r' ∈ rest -> isActive (info s r') = true ->
                             scorable now (info s r')).
  { intros r' Hr'. apply Hsc. by apply list_elem_of_further. }
  destruct (isActive (info s r)) eqn:Hact; [|by apply IH].
  rewrite relayerScore_spec by (apply Hsc; [apply list_elem_of_here|exact Hact]).
  case_decide; by apply IH.
Qed.

(** Entries that do not beat the current best leave it in place. *)
Lemma best_of_keeps now s rs m r :
  (forall r', r' ∈ rs -> isActive (info s r') = true -> score now (info s r') <= m) ->
  best_of now s rs m r = (m, r).
Proof.
  induction rs as [|r0 rest IH]; intros H; [reflexivity|]. cbn.
  assert (Hrest : forall r', r' ∈ rest -> isActive (info s r') = true ->
                             score now (info s r') <= m).
  { intros r' Hr'. apply H. by apply list_elem_of_further. }
  destruct (isActive (info s r0)) eqn:Hact; [|by apply IH].
  pose proof (H r0 (list_elem_of_here _ _) Hact).
  rewrite decide_False by lia. by apply IH.
Qed.

(** Entries strictly below [m] keep the best score strictly below [m]. *)
Lemma best_of_prefix now s l1 rest m bs br :
  bs < m ->
  (forall r', r' ∈ l1 -> isActive (info s r') = true -> score now (info s r') < m) ->
  exists bs' br', best_of now s (l1 ++ rest)%list bs br = best_of now s rest bs' br' /\ bs' < m.
Proof.
  revert bs br. induction l1 as [|r0 l1 IH]; intros bs br Hbs H.
  - by exists bs, br.
  - cbn.
    assert (Hrest : forall r', r' ∈ l1 -> isActive (info s r') = true ->
                               score now (info s r') < m).
    { intros r' Hr'. apply H. by apply list_elem_of_further. }
    destruct (isActive (info s r0)) eqn:Hact; [|by apply IH].
    pose proof (H r0 (list_elem_of_here _ _) Hact).
    case_decide; by apply IH.
Qed.

Lemma best_of_first_highest now s l1 l2 r :
  isActive (info s r) = true ->
  0 < score now (info s r) ->
  (forall r', r' ∈ l1 -> isActive (info s r') = true ->
              score now (info s r') < score now (info s r)) ->
  (forall r', r' ∈ l2 -> isActive (info s r') = true ->
              score now (info s r') <= score now (info s r)) ->
  best_of now s (l1 ++ r :: l2)%list 0 0 = (score now (info s r), r).
Proof.
  intros Hact Hpos H1 H2.
  destruct (best_of_prefix now s l1 (r :: l2) _ 0 0 Hpos H1) as (bs' & br' & -> & Hbs').
  cbn. rewrite Hact. rewrite decide_True by assumption. by apply best_of_keeps.
Qed.

Lemma best_of_all_zero now s rs :
  (forall r, r ∈ rs -> isActive (info s r) = true -> score now (info s r) = 0) ->
  best_of now s rs 0 0 = (0, 0).
Proof.
  intros H. apply best_of_keeps. intros r Hr Hact. rewrite (H r Hr Hact). lia.
Qed.

Lemma selectRelayer_spec env id s :
  (forall r, r ∈ activeRelayers s -> isActive (info s r) = true ->
             scorable (block_timestamp env) (info s r)) ->
  selectRelayer env id s
  = if bool_decide (0 < length (activeRelayers s))%nat then
      if bool_decide (snd (best_of (block_timestamp env) s (activeRelayers s) 0 0) = 0)
      then Err (RequireFailed "No suitable relayer found")
      else Ok (snd (best_of (block_timestamp env) s (activeRelayers s) 0 0), s)
    else Err (RequireFailed "No active relayers").
Proof.
  intros Hsc. unfold selectRelayer. unfold_monad. cbn.
  destruct (bool_decide (0 < length (activeRelayers s))%nat); cbn; [|reflexivity].
  rewrite selectLoop_spec by assumption. cbn.
  destruct (bool_decide _); reflexivity.
Qed.

(** C9, as the code has it: on scorable records [selectRelayer] is a function
    of the relayer data and the block time; it returns the first relayer of
    [activeRelayers] whose score is the highest, provided that score is
    positive (and the relayer's address is not zero); when every active
    relayer scores 0 it reverts with "No suitable relayer found", and with no
    relayer at all with "No active relayers". *)
Theorem selectRelayer_first_highest_score (env : Env) (id : N) (s : State) :
  (forall r, r ∈ activeRelayers s -> isActive (info s r) = true ->
             scorable (block_timestamp env) (info s r)) ->
  (forall (l1 l2 : list N) (r : N),
     activeRelayers s = (l1 ++ r :: l2)%list ->
     r ≠ 0 ->
     isActive (info s r) = true ->
     0 < score (block_timestamp env) (info s r) ->
     (forall r', r' ∈ l1 -> isActive (info s r') = true ->
        score (block_timestamp env) (info s r') < score (block_timestamp env) (info s r)) ->
     (forall r', r' ∈ l2 -> isActive (info s r') = true ->
        score (block_timestamp env) (info s r') <= score (block_timestamp env) (info s r)) ->
     selectRelayer env id s = Ok (r, s))
  /\ (activeRelayers s ≠ [] ->
      (forall r, r ∈ activeRelayers s -> isActive (info s r) = true ->
         score (block_timestamp env) (info s r) = 0) ->
      selectRelayer env id s = Err (RequireFailed "No suitable relayer found"))
  /\ (activeRelayers s = [] ->
      selectRelayer env id s = Err (RequireFailed "No active relayers"))
  /\ (forall env' id' s',
        block_timestamp env' = block_timestamp env ->
        relayerInfo s' = relayerInfo s ->
        activeRelayers s' = activeRelayers s ->
        selected env' id' s' = selected env id s).
Proof.
  intros Hsc. split; [|split; [|split]].
  - intros l1 l2 r Hlist Hr Hact Hpos H1 H2.
    rewrite selectRelayer_spec by assumption. rewrite Hlist.
    rewrite (best_of_first_highest _ _ _ _ _ Hact Hpos H1 H2). cbn [snd].
    rewrite bool_decide_eq_true_2 by (rewrite length_app; cbn; lia).
    rewrite bool_decide_eq_false_2 by assumption. reflexivity.
  - intros Hne Hzero. rewrite selectRelayer_spec by assumption.
    rewrite (best_of_all_zero _ _ _ Hzero). cbn [snd].
    rewrite bool_decide_eq_true_2 by (destruct (activeRelayers s); [done|cbn; lia]).
    rewrite bool_decide_eq_true_2 by reflexivity. reflexivity.
  - intros Hnil. rewrite selectRelayer_spec by assumption. rewrite Hnil. reflexivity.
  - intros env' id' s' Henv Hinfo Hlist.
    assert (Hinfo' : forall r, info s' r = info s r).
    { intros r. unfold info. by rewrite Hinfo. }
    assert (Hbest : forall now rs bs br, best_of now s' rs bs br = best_of now s rs bs br).
    { intros now. induction rs as [|r rs IH]; intros bs br; cbn; [reflexivity|].
      rewrite Hinfo'. destruct (isActive (info s r)); [|apply IH].
      case_decide; apply IH. }
    unfold selected. rewrite (selectRelayer_spec env id s Hsc).
    rewrite (selectRelayer_spec env' id' s').
    + rewrite Hlist, Hbest, Henv.
      destruct (bool_decide (0 < length (activeRelayers s))%nat); [|reflexivity].
      destruct (bool_decide _); reflexivity.
    + intros r. rewrite Hlist, Hinfo', Henv. apply Hsc.
Qed.

Lemma selectRelayer_first_highest_score_witness :
  selectRelayer (at_time 1 102) 0 (executor two_relayers_world)
  = Ok (34, executor two_relayers_world).
Proof.
  assert (Hlist : activeRelayers (executor two_relayers_world) = ([33] ++ 34 :: [])%list).
  { vm_compute. reflexivity. }
  assert (Hsc : forall r, r ∈ activeRelayers (executor two_relayers_world) ->
                  isActive (info (executor two_relayers_world) r) = true ->
                  scorable (block_timestamp (at_time 1 102))
                           (info (executor two_relayers_world) r)).
  { intros r Hr _. rewrite Hlist in Hr.
    apply elem_of_cons in Hr as [->|Hr];
      [|apply elem_of_cons in Hr as [->|Hr];
        [|exact (False_ind _ (proj1 (elem_of_nil _) Hr))]].
    - vm_compute. repeat split; intros E; discriminate E.
    - vm_compute. repeat split; intros E; discriminate E. }
  apply (proj1 (selectRelayer_first_highest_score (at_time 1 102) 0
                  (executor two_relayers_world) Hsc) [33] [] 34 Hlist).
  - intros E. discriminate E.
  - vm_compute. reflexivity.
  - vm_compute. reflexivity.
  - intros r' Hr' _. apply list_elem_of_singleton in Hr' as ->. vm_compute. reflexivity.
  - intros r' Hr'. exact (False_ind _ (proj1 (elem_of_nil _) Hr')).
Defined.

(** C9 as stated fails when no active relayer has a positive score: relayer
    33 is active, its only execution failed, its score is 0, and the call
    reverts instead of returning it. *)
Lemma selectRelayer_reverts_on_zero_scores :
  activeRelayers (executor (relayer_world 0 1)) = [33]
  /\ isActive (info (executor (relayer_world 0 1)) 33) = true
  /\ score 103 (info (executor (relayer_world 0 1)) 33) = 0
  /\ snd (transact (selectRelayer (at_time 1 103) 0) (executor (relayer_world 0 1)))
     = Err (RequireFailed "No suitable relayer found").
Proof. vm_compute. repeat split; reflexivity. Qed.

(** ** The circuit breaker in reachable states *)

Lemma policy_call_keeps_breaker_clear env c s :
  PE.tripped (PE.circuitBreaker s) = false ->
  PE.tripped (PE.circuitBreaker (fst (transact (policy_call env c) s))) = false.
Proof.
  intros Hs. unfold transact.
  destruct (policy_call env c s) as [[u s']|e] eqn:Hc; cbn [fst]; [|exact Hs].
  revert Hc. destruct c; cbn [policy_call];
    try (unfold ret; intros [= _ <-]; exact Hs).
  - unfold ignore, bind, ret.
    destruct (PE.checkPolicy _ _ _ _ _ _ _ _ s) as [[b s1]|e] eqn:Hp; [|intros E; discriminate E].
    intros [= _ <-]. by apply checkPolicy_ok in Hp as (_ & Ht & _).
  - unfold_policy. unfold_monad. exec. all: by intros [= <- <-].
  - unfold_policy. unfold_monad. exec. all: by intros [= <- <-].
  - unfold_policy. unfold_monad. exec. all: by intros [= <- <-].
  - unfold_policy. unfold_monad. exec. all: by intros [= <- <-].
Qed.

(** The only write that sets the breaker is undone by the revert that
    follows it, so no sequence of calls ever leaves the breaker tripped, and
    no policy check is ever answered with CircuitBreakerActive. *)
Lemma reachable_breaker_never_tripped ecr w :
  reachable ecr w -> PE.tripped (PE.circuitBreaker (policy w)) = false.
Proof.
  revert w. apply reachable_ind; [reflexivity|].
  intros env c w Hw. destruct (is_emit c) eqn:Hc.
  - destruct c; try discriminate Hc. unfold step, transact. cbn [dispatch].
    destruct (emitIntent _ _ _ _ w) as [[u w']|e] eqn:He; cbn [fst]; [|exact Hw].
    apply emitIntent_ok in He as (_ & _ & _ & _ & _ & _ & (b & Hp) & _).
    by apply checkPolicy_ok in Hp as (_ & Ht & _).
  - rewrite step_components by exact Hc. cbn [policy].
    by apply policy_call_keeps_breaker_clear.
Qed.

Lemma reachable_never_breaker_active ecr w env a v r d h t wl :
  reachable ecr w ->
  PE.checkPolicy env a v r d h t wl (policy w) ≠ Err CircuitBreakerActive.
Proof.
  intros Hw%reachable_breaker_never_tripped E. revert E.
  unfold_policy. unfold_monad. exec.
  all: intros E;
    repeat match goal with
    | H : add256 _ _ = Err _ |- _ => apply add256_err in H; subst
    end;
    first [discriminate E | congruence].
Qed.

(** ** AgentRegistry: access control, identity and lookups *)

Lemma agent_insert (m : gmap N AR.Agent) (p : gmap N AR.PolicyConfig) (i : gmap N N)
    (ev : list AR.Event) (k b : N) (x : AR.Agent) :
  AR.agent (AR.mkState (<[k := x]> m) p i ev) b
  = if decide (k = b) then x else rd AR.zeroAgent m b.
Proof. unfold AR.agent. cbn. apply rd_insert. Qed.

(** What a successful owner-only call wrote. *)
Lemma management_ok env c a r u r' :
  managed_agent c = Some a ->
  registry_call env c r = Ok (u, r') ->
  AR.owner (AR.agent r a) ≠ 0
  /\ msg_sender env = AR.owner (AR.agent r a)
  /\ AR.walletToAgentId r' = AR.walletToAgentId r
  /\ (forall b, b ≠ a -> AR.agent r' b = AR.agent r b)
  /\ (forall b, b ≠ a -> rd AR.zeroPolicy (AR.policies r') b = rd AR.zeroPolicy (AR.policies r) b)
  /\ AR.owner (AR.agent r' a) = AR.owner (AR.agent r a)
  /\ AR.wallet (AR.agent r' a) = AR.wallet (AR.agent r a)
  /\ AR.publicKey (AR.agent r' a) = AR.publicKey (AR.agent r a)
  /\ AR.registeredAt (AR.agent r' a) = AR.registeredAt (AR.agent r a).
Proof.
  destruct c; cbn [managed_agent registry_call]; intros [= ->].
  - unfold_registry. unfold_monad. exec. intros [= <- <-]. tidy.
    rewrite !agent_insert. rewrite decide_True by reflexivity. cbn.
    repeat split; auto.
    + intros b Hb. rewrite agent_insert. rewrite decide_False by congruence. reflexivity.
  - unfold_registry. unfold_monad. exec. intros [= <- <-]. tidy. cbn.
    repeat split; auto.
    intros b Hb. by rewrite rd_insert_ne.
  - unfold_registry. unfold_monad. exec. intros [= <- <-]. tidy.
    rewrite !agent_insert. rewrite decide_True by reflexivity. cbn.
    repeat split; auto.
    + intros b Hb. rewrite agent_insert. rewrite decide_False by congruence. reflexivity.
  - unfold_registry. unfold_monad. exec. intros [= <- <-]. tidy.
    rewrite !agent_insert. rewrite decide_True by reflexivity. cbn.
    repeat split; auto.
    + intros b Hb. rewrite agent_insert. rewrite decide_False by congruence. reflexivity.
Qed.

(** X1: [updateMetadata], [updatePolicy], [deactivateAgent] and
    [reactivateAgent] are owner-only. On an agent without an owner they revert
    with AgentNotFound, for a caller other than the owner with
    UnauthorizedCaller, and for the owner they succeed, leaving every other
    agent, every other policy and the wallet index as they were. *)
Theorem management_is_owner_only (env : Env) (c : Call) (a : N) (r : AR.State) :
  managed_agent c = Some a ->
  (AR.owner (AR.agent r a) = 0 -> registry_call env c r = Err AgentNotFound)
  /\ (AR.owner (AR.agent r a) ≠ 0 -> msg_sender env ≠ AR.owner (AR.agent r a) ->
      registry_call env c r = Err UnauthorizedCaller)
  /\ (AR.owner (AR.agent r a) ≠ 0 -> msg_sender env = AR.owner (AR.agent r a) ->
      exists r',
        registry_call env c r = Ok (tt, r')
        /\ AR.walletToAgentId r' = AR.walletToAgentId r
        /\ (forall b, b ≠ a ->
              AR.agent r' b = AR.agent r b
              /\ rd AR.zeroPolicy (AR.policies r') b = rd AR.zeroPolicy (AR.policies r) b)).
Proof.
  intros Hc. split; [|split].
  - intros H0. destruct c; cbn [managed_agent] in Hc; try discriminate Hc;
      injection Hc as ->; cbn [registry_call];
      unfold_registry; unfold_monad; cbn; rewrite decide_True by exact H0; reflexivity.
  - intros H0 Hs. destruct c; cbn [managed_agent] in Hc; try discriminate Hc;
      injection Hc as ->; cbn [registry_call];
      unfold_registry; unfold_monad; cbn; rewrite decide_False by exact H0;
      rewrite decide_True by exact Hs; reflexivity.
  - intros H0 Hs.
    assert (Hrun : exists r', registry_call env c r = Ok (tt, r')).
    { destruct c; cbn [managed_agent] in Hc; try discriminate Hc;
        injection Hc as ->; cbn [registry_call];
        unfold_registry; unfold_monad; cbn; rewrite decide_False by exact H0;
        (rewrite decide_False by (intros Hn; exact (Hn Hs))); cbn; eexists; reflexivity. }
    destruct Hrun as [r' Hr']. exists r'. split; [exact Hr'|].
    destruct (management_ok _ _ _ _ _ _ Hc Hr') as (_ & _ & Hidx & Hag & Hpol & _).
    split; [exact Hidx|]. intros b Hb. split; [by apply Hag|by apply Hpol].
Qed.

Lemma management_is_owner_only_witness :
  registry_call (at_time 12 6) (DeactivateAgent 5) registry_with_agent
  = Err UnauthorizedCaller
  /\ exists r', registry_call (at_time 11 6) (DeactivateAgent 5) registry_with_agent
                = Ok (tt, r').
Proof.
  pose proof (management_is_owner_only (at_time 12 6) (DeactivateAgent 5) 5
                registry_with_agent eq_refl) as (_ & Hother & _).
  pose proof (management_is_owner_only (at_time 11 6) (DeactivateAgent 5) 5
                registry_with_agent eq_refl) as (_ & _ & Hown).
  split.
  - apply Hother; vm_compute; intros E; discriminate E.
  - destruct Hown as (r' & Hr' & _).
    + vm_compute. intros E; discriminate E.
    + vm_compute. reflexivity.
    + exists r'. exact Hr'.
Defined.

Lemma registry_call_identity env c r a :
  AR.wallet (AR.agent r a) ≠ 0 ->
  AR.owner (AR.agent (fst (transact (registry_call env c) r)) a) = AR.owner (AR.agent r a)
  /\ AR.wallet (AR.agent (fst (transact (registry_call env c) r)) a)
     = AR.wallet (AR.agent r a)
  /\ AR.publicKey (AR.agent (fst (transact (registry_call env c) r)) a)
     = AR.publicKey (AR.agent r a)
  /\ AR.registeredAt (AR.agent (fst (transact (registry_call env c) r)) a)
     = AR.registeredAt (AR.agent r a).
Proof.
  intros Hreg. unfold transact.
  destruct (registry_call env c r) as [[u r']|e] eqn:Hc; cbn [fst]; [|done].
  destruct (managed_agent c) as [b|] eqn:Hm.
  - destruct (management_ok _ _ _ _ _ _ Hm Hc) as (_ & _ & _ & Hag & _ & Ho & Hw & Hp & Ht).
    destruct (decide (a = b)) as [->|Hne]; [done|]. by rewrite Hag.
  - destruct c; cbn [managed_agent] in Hm; try discriminate Hm;
      cbn [registry_call] in Hc; try (injection Hc as <- <-; done).
    apply registerAgent_ok in Hc as (Hfree & _ & _ & Hag & _).
    unfold AR.agent in *. rewrite Hag.
    rewrite rd_insert_ne; [done|]. intros ->. exact (Hreg Hfree).
Qed.

(** X2: the identity of a registered agent is fixed. Whatever the call, the
    owner, the wallet, the public key and the registration time of an agent
    with a wallet stay as they were. *)
Theorem agent_identity_is_immutable
    (ecrecover : N -> N -> N -> N -> N) (env : Env) (c : Call) (w : World) (a : N) :
  AR.wallet (AR.agent (registry w) a) ≠ 0 ->
  AR.owner (AR.agent (registry (fst (step ecrecover env c w))) a)
  = AR.owner (AR.agent (registry w) a)
  /\ AR.wallet (AR.agent (registry (fst (step ecrecover env c w))) a)
     = AR.wallet (AR.agent (registry w) a)
  /\ AR.publicKey (AR.agent (registry (fst (step ecrecover env c w))) a)
     = AR.publicKey (AR.agent (registry w) a)
  /\ AR.registeredAt (AR.agent (registry (fst (step ecrecover env c w))) a)
     = AR.registeredAt (AR.agent (registry w) a).
Proof.
  intros Hreg. rewrite step_registry. by apply registry_call_identity.
Qed.

Lemma agent_identity_is_immutable_witness :
  AR.wallet (AR.agent (registry (fst (step sampleRecover (at_time 12 6)
               (RegisterAgent 5 78 [] "" samplePolicy) (world_with_intent 0)))) 5)
  = 77.
Proof.
  pose proof (agent_identity_is_immutable sampleRecover (at_time 12 6)
                (RegisterAgent 5 78 [] "" samplePolicy) (world_with_intent 0) 5)
    as H.
  destruct H as (_ & Hw & _).
  - vm_compute. intros E; discriminate E.
  - rewrite Hw. vm_compute. reflexivity.
Defined.

(** X3: a registration can be read back. When the agent id is free, the
    wallet is not zero and not yet indexed, [registerAgent] succeeds, and then
    [getAgent] returns the record with the caller as owner, active, stamped
    with the block time, [getPolicy] the policy, [isAgentActive] true and
    [getAgentIdByWallet] the agent id; an id without a wallet makes
    [getAgent] and [getPolicy] revert with AgentNotFound. *)
Theorem registerAgent_then_lookup
    (env : Env) (a wal : N) (pk : list N) (cid : string) (p : AR.PolicyConfig)
    (r : AR.State) :
  AR.wallet (AR.agent r a) = 0 ->
  wal ≠ 0 ->
  rd 0 (AR.walletToAgentId r) wal = 0 ->
  AR.getAgent a r = Err AgentNotFound
  /\ AR.getPolicy a r = Err AgentNotFound
  /\ exists r',
       AR.registerAgent env a wal pk cid p r = Ok (tt, r')
       /\ AR.getAgent a r'
          = Ok (AR.mkAgent (msg_sender env) wal pk cid true (block_timestamp env), r')
       /\ AR.getPolicy a r' = Ok (p, r')
       /\ AR.isAgentActive a r' = Ok (true, r')
       /\ AR.getAgentIdByWallet wal r' = Ok (a, r').
Proof.
  intros Hfree Hwal Hidx. split; [|split].
  - unfold AR.getAgent. unfold_monad. cbn. by rewrite decide_True.
  - unfold AR.getPolicy. unfold_monad. cbn. by rewrite decide_True.
  - unfold AR.registerAgent, AR.getAgent, AR.getPolicy, AR.isAgentActive,
      AR.getAgentIdByWallet. unfold_monad. cbn.
    rewrite decide_False by (intros Hn; exact (Hn Hfree)).
    rewrite decide_False by exact Hwal.
    rewrite decide_False by (intros Hn; exact (Hn Hidx)).
    cbn. eexists. split; [reflexivity|].
    unfold AR.agent. cbn. rewrite !rd_insert_eq. cbn.
    rewrite !decide_False by exact Hwal. repeat split; reflexivity.
Qed.

Lemma registerAgent_then_lookup_witness :
  exists r',
    AR.registerAgent (at_time 11 5) 5 77 [] "" samplePolicy AR.init = Ok (tt, r')
    /\ AR.getAgentIdByWallet 77 r' = Ok (5, r').
Proof.
  destruct (registerAgent_then_lookup (at_time 11 5) 5 77 [] "" samplePolicy AR.init)
    as (_ & _ & r' & Hreg & _ & _ & _ & Hidx).
  - reflexivity.
  - intros E; discriminate E.
  - reflexivity.
  - exists r'. exact (conj Hreg Hidx).
Defined.

Lemma set_active_run (env : Env) (a : N) (b : bool) (r : AR.State) :
  AR.owner (AR.agent r a) ≠ 0 ->
  msg_sender env = AR.owner (AR.agent r a) ->
  AR.deactivateAgent env a r
  = Ok (tt, AR.mkState (<[a := with_active false (AR.agent r a)]> (AR.agents r))
              (AR.policies r) (AR.walletToAgentId r)
              (AR.AgentDeactivated a :: AR.events r))
  /\ AR.reactivateAgent env a r
     = Ok (tt, AR.mkState (<[a := with_active true (AR.agent r a)]> (AR.agents r))
                 (AR.policies r) (AR.walletToAgentId r)
                 (AR.AgentReactivated a :: AR.events r)).
Proof.
  intros H0 Hs.
  unfold AR.deactivateAgent, AR.reactivateAgent, AR.onlyOwner, AR.set_active.
  unfold_monad. cbn.
  rewrite decide_False by exact H0.
  rewrite decide_False by (intros Hn; exact (Hn Hs)). cbn.
  split; reflexivity.
Qed.

(** X4: deactivation and reactivation by the owner are inverse to each other
    on an active agent: after [deactivateAgent] the agent reads as inactive,
    and after [reactivateAgent] every agent record, every policy and the
    wallet index are what they were before the two calls. *)
Theorem deactivate_reactivate_round_trip (env env' : Env) (a : N) (r : AR.State) :
  AR.owner (AR.agent r a) ≠ 0 ->
  msg_sender env = AR.owner (AR.agent r a) ->
  msg_sender env' = AR.owner (AR.agent r a) ->
  AR.active (AR.agent r a) = true ->
  exists r1 r2,
    AR.deactivateAgent env a r = Ok (tt, r1)
    /\ AR.isAgentActive a r1 = Ok (false, r1)
    /\ AR.reactivateAgent env' a r1 = Ok (tt, r2)
    /\ (forall b, AR.agent r2 b = AR.agent r b)
    /\ AR.policies r2 = AR.policies r
    /\ AR.walletToAgentId r2 = AR.walletToAgentId r.
Proof.
  intros H0 Hs Hs' Hact.
  destruct (set_active_run env a false r H0 Hs) as [Hd _].
  set (r1 := AR.mkState (<[a := with_active false (AR.agent r a)]> (AR.agents r))
               (AR.policies r) (AR.walletToAgentId r)
               (AR.AgentDeactivated a :: AR.events r)) in *.
  assert (Ha1 : AR.agent r1 a = with_active false (AR.agent r a)).
  { unfold r1. rewrite agent_insert, decide_True by reflexivity. reflexivity. }
  destruct (set_active_run env' a false r1) as [_ Hr].
  { rewrite Ha1. exact H0. }
  { rewrite Ha1. exact Hs'. }
  eexists _, _. split; [exact Hd|]. split.
  { unfold AR.isAgentActive. unfold_monad. cbn. rewrite Ha1. reflexivity. }
  split; [exact Hr|].
  split; [|split; reflexivity].
  intros b. rewrite agent_insert, Ha1.
  case_decide as Hb; [subst b|].
  - unfold with_active. cbn. rewrite <- Hact. by destruct (AR.agent r a).
  - unfold r1. cbn [AR.agents]. rewrite rd_insert_ne by exact Hb. reflexivity.
Qed.

Lemma deactivate_reactivate_round_trip_witness :
  exists r1 r2,
    AR.deactivateAgent (at_time 11 6) 5 registry_with_agent = Ok (tt, r1)
    /\ AR.reactivateAgent (at_time 11 7) 5 r1 = Ok (tt, r2)
    /\ AR.agent r2 5 = AR.agent registry_with_agent 5.
Proof.
  destruct (deactivate_reactivate_round_trip (at_time 11 6) (at_time 11 7) 5
              registry_with_agent) as (r1 & r2 & H1 & _ & H2 & Hag & _).
  - vm_compute. intros E; discriminate E.
  - reflexivity.
  - reflexivity.
  - reflexivity.
  - exists r1, r2. exact (conj H1 (conj H2 (Hag 5))).
Defined.

(** ** PolicyEngine: limits, switches and operation *)

Lemma isWhitelisted_spec (wl : list N) (r : N) :
  PE.isWhitelisted wl r = true <-> r ∈ wl.
Proof.
  induction wl as [|a wl IH]; cbn.
  - split; [intros E; discriminate E|]. intros H. by apply elem_of_nil in H.
  - case_decide as Ha.
    + subst a. split; [intros _; apply list_elem_of_here|reflexivity].
    + rewrite IH. rewrite elem_of_cons. split; [by right|].
      intros [->|H]; [by destruct Ha|exact H].
Qed.

(** X5: an approved policy check stayed within every limit it was given. If
    [checkPolicy] returns, it returns true, neither the system nor the agent
    is paused, the value is at most [maxValuePerTx], the agent's daily total
    after the call includes the value and is at most [maxSpendPerDay], its
    hourly count after the call is at least 1 and at most [maxTxPerHour], and
    with a non-empty whitelist the recipient is on it. *)
Theorem approved_check_respects_limits
    (env : Env) (agentId value recipient maxSpendPerDay maxTxPerHour maxValuePerTx : N)
    (whitelistedAddresses : list N) (s s' : PE.State) (approved : bool) :
  PE.checkPolicy env agentId value recipient maxSpendPerDay maxTxPerHour maxValuePerTx
    whitelistedAddresses s = Ok (approved, s') ->
  approved = true
  /\ PE.paused s = false
  /\ rd false (PE.agentPaused s) agentId = false
  /\ value <= maxValuePerTx
  /\ value <= PE.dailySpent (PE.window s' agentId) <= maxSpendPerDay
  /\ 1 <= PE.hourlyTxCount (PE.window s' agentId) <= maxTxPerHour
  /\ (whitelistedAddresses ≠ [] -> recipient ∈ whitelistedAddresses).
Proof.
  unfold_policy. unfold_monad. exec.
  all: intros [= <- <-]; unfold PE.window in *; cbn in *; tidy;
    repeat match goal with H : Ok _ = Ok _ |- _ => injection H as <- end;
    rewrite ?rd_insert_eq in *; cbn in *; rewrite ?rd_insert_eq in *; cbn in *.
  all: repeat match goal with
       | H : PE.isWhitelisted _ _ = true |- _ => apply isWhitelisted_spec in H
       end.
  all: split; [reflexivity|]; split; [reflexivity|]; split; [reflexivity|].
  all: split; [lia|]; split; [lia|]; split; [lia|].
  all: try (intros _; assumption).
  all: intros Hne; destruct whitelistedAddresses; [by destruct Hne|cbn in *; lia].
Qed.

Lemma approved_check_respects_limits_witness :
  3 <= 10
  /\ PE.hourlyTxCount
       (PE.window (fst (transact (PE.checkPolicy (mkEnv 1 1000 1 200) 7 3 3 100 3 10 [])
                                 (PE.init 9))) 7) <= 3.
Proof.
  destruct (transact (PE.checkPolicy (mkEnv 1 1000 1 200) 7 3 3 100 3 10 []) (PE.init 9))
    as [s' res] eqn:Hrun.
  assert (Hc : PE.checkPolicy (mkEnv 1 1000 1 200) 7 3 3 100 3 10 [] (PE.init 9)
               = Ok (true, s')).
  { revert Hrun. vm_compute. intros [= <- _]. reflexivity. }
  destruct (approved_check_respects_limits _ _ _ _ _ _ _ _ _ _ _ Hc)
    as (_ & _ & _ & Hv & _ & [_ Hh] & _).
  cbn [fst]. exact (conj Hv Hh).
Defined.

(** What a successful admin call wrote. *)
Lemma admin_call_ok env c s u s' :
  admin_call c = true ->
  policy_call env c s = Ok (u, s') ->
  msg_sender env = PE.emergencyAdmin s
  /\ PE.rollingWindows s' = PE.rollingWindows s
  /\ PE.circuitBreaker s' = PE.circuitBreaker s
  /\ PE.emergencyAdmin s' = PE.emergencyAdmin s
  /\ (PE.paused s', PE.agentPaused s') = flags_after c s.
Proof.
  destruct c; cbn [admin_call policy_call flags_after]; intros Hc; try discriminate Hc.
  all: unfold_policy; unfold_monad; exec.
  all: intros [= <- <-]; tidy; cbn; repeat split; auto.
Qed.

(** X6: [pause], [unpause], [pauseAgent] and [unpauseAgent] belong to the
    emergency admin. Any other caller gets UnauthorizedAdmin; for the admin
    the call succeeds, sets exactly the flag it names and leaves the rolling
    windows, the circuit breaker and the admin untouched. No call changes the
    admin: it is the deployer for ever. *)
Theorem pause_switches_are_admin_only (ecrecover : N -> N -> N -> N -> N) :
  (forall env c s,
     admin_call c = true ->
     msg_sender env ≠ PE.emergencyAdmin s ->
     policy_call env c s = Err UnauthorizedAdmin)
  /\ (forall env c s,
        admin_call c = true ->
        msg_sender env = PE.emergencyAdmin s ->
        exists s',
          policy_call env c s = Ok (tt, s')
          /\ (PE.paused s', PE.agentPaused s') = flags_after c s
          /\ PE.rollingWindows s' = PE.rollingWindows s
          /\ PE.circuitBreaker s' = PE.circuitBreaker s)
  /\ (forall deployer ra pa txs,
        PE.emergencyAdmin (policy (run ecrecover txs (genesis deployer ra pa)))
        = deployer).
Proof.
  split; [|split].
  - intros env c s Hc Hs.
    destruct c; cbn [admin_call] in Hc; try discriminate Hc; cbn [policy_call];
      unfold_policy; unfold_monad; cbn; rewrite decide_True by exact Hs; reflexivity.
  - intros env c s Hc Hs.
    assert (Hrun : exists s', policy_call env c s = Ok (tt, s')).
    { destruct c; cbn [admin_call] in Hc; try discriminate Hc; cbn [policy_call];
        unfold_policy; unfold_monad; cbn;
        (rewrite decide_False by (intros Hn; exact (Hn Hs))); cbn;
        eexists; reflexivity. }
    destruct Hrun as [s' Hs']. exists s'. split; [exact Hs'|].
    destruct (admin_call_ok _ _ _ _ _ Hc Hs') as (_ & Hw & Hb & _ & Hf). auto.
  - intros deployer ra pa txs.
    change deployer with (PE.emergencyAdmin (policy (genesis deployer ra pa))) at 2.
    generalize (genesis deployer ra pa). induction txs as [|[env c] txs IH]; intros w.
    + reflexivity.
    + cbn [run]. rewrite IH. clear IH.
      destruct (is_emit c) eqn:Hc.
      * destruct c; try discriminate Hc. unfold step, transact. cbn [dispatch].
        destruct (emitIntent _ _ _ _ w) as [[u w']|e] eqn:He; cbn [fst]; [|reflexivity].
        apply emitIntent_ok in He as (_ & _ & _ & _ & _ & _ & (b & Hp) & _).
        by apply checkPolicy_ok in Hp as (_ & _ & _ & Ha & _).
      * rewrite step_components by exact Hc. cbn [policy]. unfold transact.
        destruct (policy_call env c (policy w)) as [[u s']|e] eqn:Hp; cbn [fst];
          [|reflexivity].
        destruct (admin_call c) eqn:Hadm.
        -- by destruct (admin_call_ok _ _ _ _ _ Hadm Hp) as (_ & _ & _ & Ha & _).
        -- destruct c; cbn [admin_call] in Hadm; try discriminate Hadm;
             cbn [policy_call] in Hp; try (injection Hp as <- <-; reflexivity).
           unfold ignore, bind, ret in Hp.
           destruct (PE.checkPolicy _ _ _ _ _ _ _ _ (policy w)) as [[b s1]|e] eqn:Hq;
             [|discriminate Hp].
           injection Hp as <- <-.
           by apply checkPolicy_ok in Hq as (_ & _ & _ & Ha & _).
Qed.

Lemma pause_switches_are_admin_only_witness :
  policy_call (at_time 8 50) Pause (PE.init 9) = Err UnauthorizedAdmin
  /\ exists s', policy_call (at_time 9 50) (PauseAgent 7) (PE.init 9) = Ok (tt, s')
                /\ rd false (PE.agentPaused s') 7 = true.
Proof.
  destruct (pause_switches_are_admin_only sampleRecover) as (Hother & Hadmin & _).
  split.
  - apply Hother; [reflexivity|]. intros E; discriminate E.
  - destruct (Hadmin (at_time 9 50) (PauseAgent 7) (PE.init 9) eq_refl eq_refl)
      as (s' & Hrun & Hflags & _).
    exists s'. split; [exact Hrun|].
    injection Hflags as _ ->. reflexivity.
Defined.

(** The gates an approved check has passed. *)
Lemma checkPolicy_ok_gates env a v r d h t wl s b s' :
  PE.checkPolicy env a v r d h t wl s = Ok (b, s') ->
  PE.paused s = false /\ rd false (PE.agentPaused s) a = false /\ v <= t.
Proof.
  unfold_policy. unfold_monad. exec.
  all: intros _; tidy; split; [reflexivity|]; split; [reflexivity|]; lia.
Qed.

(** X7: a pause stops every check and every emission. While the system is
    paused [checkPolicy] reverts with SystemPaused whatever its arguments;
    while an agent is paused (and the system is not) the agent's checks
    revert with AgentIsPaused; and in a world whose engine is paused, or
    where the emitting agent is paused, [emitIntent] reverts and changes
    nothing. *)
Theorem pause_blocks_checks_and_emissions (ecrecover : N -> N -> N -> N -> N) :
  (forall env a v r d h t wl s,
     PE.paused s = true ->
     PE.checkPolicy env a v r d h t wl s = Err SystemPaused)
  /\ (forall env a v r d h t wl s,
        PE.paused s = false ->
        rd false (PE.agentPaused s) a = true ->
        PE.checkPolicy env a v r d h t wl s = Err (AgentIsPaused a))
  /\ (forall env d sig w,
        PE.paused (policy w) = true
        \/ rd false (PE.agentPaused (policy w)) (IntentData.agentId d) = true ->
        exists e, step ecrecover env (EmitIntent d sig) w = (w, Err e)).
Proof.
  split; [|split].
  - intros env a v r d h t wl s Hp. unfold_policy. unfold_monad. cbn.
    rewrite Hp. reflexivity.
  - intros env a v r d h t wl s Hp Ha. unfold_policy. unfold_monad. cbn.
    rewrite Hp, Ha. reflexivity.
  - intros env d sig w Hp. unfold step, transact. cbn [dispatch].
    destruct (emitIntent _ _ _ _ w) as [[u w']|e] eqn:He; [|by exists e].
    apply emitIntent_ok in He as (_ & _ & _ & _ & _ & _ & (b & Hq) & _).
    apply checkPolicy_ok_gates in Hq as (Hsys & Hag & _).
    destruct Hp as [Hp|Hp]; congruence.
Qed.

Lemma pause_blocks_checks_and_emissions_witness :
  exists e,
    step sampleRecover (at_time 1 12)
      (EmitIntent (sampleIntent 43 1 0) sampleSignature)
      (fst (step sampleRecover (at_time 9 11) Pause (world_with_intent 0)))
    = (fst (step sampleRecover (at_time 9 11) Pause (world_with_intent 0)), Err e).
Proof.
  destruct (pause_blocks_checks_and_emissions sampleRecover) as (_ & _ & Hemit).
  apply Hemit. left. vm_compute. reflexivity.
Defined.

(** X8: [isOperational] never reverts in a reachable state and answers
    exactly whether the system is not paused: the circuit breaker, the other
    thing it looks at, is never tripped there. *)
Theorem isOperational_is_not_paused
    (ecrecover : N -> N -> N -> N -> N) (env : Env) (w : World) :
  reachable ecrecover w ->
  PE.isOperational env (policy w) = Ok (negb (PE.paused (policy w)), policy w).
Proof.
  intros Hw%reachable_breaker_never_tripped.
  unfold PE.isOperational. unfold_monad. cbn. rewrite Hw.
  by destruct (PE.paused (policy w)).
Qed.

Lemma isOperational_is_not_paused_witness :
  PE.isOperational (at_time 1 13)
    (policy (fst (step sampleRecover (at_time 9 11) Pause (world_with_intent 0))))
  = Ok (false, policy (fst (step sampleRecover (at_time 9 11) Pause (world_with_intent 0)))).
Proof.
  rewrite (isOperational_is_not_paused sampleRecover (at_time 1 13)
             (fst (step sampleRecover (at_time 9 11) Pause (world_with_intent 0)))).
  - vm_compute. reflexivity.
  - unfold world_with_intent.
    change (fst (step sampleRecover (at_time 9 11) Pause ?w))
      with (run sampleRecover [(at_time 9 11, Pause)] w).
    rewrite <- run_app. apply reachable_run.
Defined.

(** ** [emitIntent]: who can emit *)

Lemma emitIntent_ok_signer ecr env d sig w u w' :
  emitIntent ecr env d sig w = Ok (u, w') ->
  AR.active (AR.agent (registry w) (IntentData.agentId d)) = true
  /\ AR.wallet (AR.agent (registry w) (IntentData.agentId d)) ≠ 0
  /\ verifyIntentSignature ecr env d sig
     = Ok (AR.wallet (AR.agent (registry w) (IntentData.agentId d))).
Proof.
  unfold emitIntent. unfold_executor. unfold_registry. unfold_monad. exec.
  intros _. tidy. subst. repeat split; auto.
Qed.

(** X9: an emission is accepted only from an active, registered agent whose
    wallet signed it, and only within the executor's fixed policy. If
    [emitIntent] succeeds, the agent is active in the registry and has a
    wallet, the signature recovers to exactly that wallet, the intent has not
    expired, its value is at most 0.1 ether, and the engine is not paused. *)
Theorem emission_needs_active_signing_agent
    (ecrecover : N -> N -> N -> N -> N) (env : Env) (d : IntentData.t)
    (sig : list N) (w : World) :
  snd (step ecrecover env (EmitIntent d sig) w) = Ok tt ->
  AR.active (AR.agent (registry w) (IntentData.agentId d)) = true
  /\ AR.wallet (AR.agent (registry w) (IntentData.agentId d)) ≠ 0
  /\ verifyIntentSignature ecrecover env d sig
     = Ok (AR.wallet (AR.agent (registry w) (IntentData.agentId d)))
  /\ block_timestamp env <= IntentData.expiry d
  /\ IntentData.value d <= 100000000000000000
  /\ PE.paused (policy w) = false.
Proof.
  unfold step. cbn [dispatch]. intros H. apply transact_returned in H.
  pose proof (emitIntent_ok_signer _ _ _ _ _ _ _ H) as (Hact & Hwal & Hsig).
  apply emitIntent_ok in H as (_ & _ & Hexp & _ & _ & _ & (b & Hp) & _).
  apply checkPolicy_ok_gates in Hp as (Hsys & _ & Hv).
  repeat split; auto. lia.
Qed.

Lemma emission_needs_active_signing_agent_witness :
  AR.active (AR.agent
    (registry (run sampleRecover [(at_time 11 5, RegisterAgent 5 77 [] "" samplePolicy)]
                 (genesis 9 100 200))) 5) = true
  /\ IntentData.value (sampleIntent 42 0 0) <= 100000000000000000.
Proof.
  destruct (emission_needs_active_signing_agent sampleRecover (at_time 1 10)
              (sampleIntent 42 0 0) sampleSignature
              (run sampleRecover [(at_time 11 5, RegisterAgent 5 77 [] "" samplePolicy)]
                 (genesis 9 100 200)))
    as (Hact & _ & _ & _ & Hv & _).
  - vm_compute. reflexivity.
  - exact (conj Hact Hv).
Defined.

(** X10: a deactivated agent cannot emit. With the agent inactive in the
    registry, [emitIntent] reverts and changes nothing; when the earlier
    gates pass and the signature verifies, the revert is "Agent not
    active". *)
Theorem inactive_agent_cannot_emit
    (ecrecover : N -> N -> N -> N -> N) (env : Env) (d : IntentData.t)
    (sig : list N) (w : World) :
  AR.active (AR.agent (registry w) (IntentData.agentId d)) = false ->
  (exists e, step ecrecover env (EmitIntent d sig) w = (w, Err e))
  /\ (_status (executor w) ≠ _ENTERED ->
      intentId (intent (executor w) (IntentData.intentId d)) = 0 ->
      ¬ IntentData.expiry d < block_timestamp env ->
      IntentData.nonce d = nonceOf (executor w) (IntentData.agentId d) ->
      (exists signer, verifyIntentSignature ecrecover env d sig = Ok signer) ->
      step ecrecover env (EmitIntent d sig) w
      = (w, Err (RequireFailed "Agent not active"))).
Proof.
  intros Hina. split.
  - unfold step, transact. cbn [dispatch].
    destruct (emitIntent _ _ _ _ w) as [[u w']|e] eqn:He; [|by exists e].
    apply emitIntent_ok_signer in He as (Hact & _). congruence.
  - intros Hg Hfresh Hexp Hn (signer & Hsig).
    unfold step. apply transact_err. cbn [dispatch].
    unfold emitIntent. unfold_executor. unfold_registry. unfold_monad. cbn.
    rewrite bool_decide_eq_false_2 by exact Hg. cbn.
    unfold intent, nonceOf in *. cbn.
    rewrite decide_False by (intros Hx; exact (Hx Hfresh)).
    rewrite decide_False by exact Hexp.
    rewrite decide_False by (intros Hx; exact (Hx Hn)).
    rewrite Hsig. cbn. rewrite Hina. reflexivity.
Qed.

Lemma inactive_agent_cannot_emit_witness :
  step sampleRecover (at_time 1 12) (EmitIntent (sampleIntent 43 1 0) sampleSignature)
    (fst (step sampleRecover (at_time 11 11) (DeactivateAgent 5) (world_with_intent 0)))
  = (fst (step sampleRecover (at_time 11 11) (DeactivateAgent 5) (world_with_intent 0)),
     Err (RequireFailed "Agent not active")).
Proof.
  apply (proj2 (inactive_agent_cannot_emit sampleRecover (at_time 1 12)
                  (sampleIntent 43 1 0) sampleSignature
                  (fst (step sampleRecover (at_time 11 11) (DeactivateAgent 5)
                          (world_with_intent 0)))
                  ltac:(vm_compute; reflexivity))).
  - vm_compute. intros E; discriminate E.
  - vm_compute. reflexivity.
  - vm_compute. intros E; discriminate E.
  - vm_compute. reflexivity.
  - exists 77. vm_compute. reflexivity.
Defined.

(** ** The intent lifecycle *)

(** The intent under [id] after a call that is not an emission: untouched,
    or rewritten by one of the three status-changing functions. *)
Lemma executor_call_intent env c s id :
  let s' := fst (transact (executor_call env c) s) in
  intent s' id = intent s id
  \/ (c = SubmitIntent id
      /\ rd false (authorizedRelayers s) (msg_sender env) = true
      /\ intentId (intent s id) ≠ 0 /\ status (intent s id) = Pending
      /\ intent s' id
         = with_status Submitted
             (with_submittedAt (block_timestamp env)
                (with_relayer (msg_sender env) (intent s id))))
  \/ ((exists data, c = ExecuteIntent id data)
      /\ intentId (intent s id) ≠ 0 /\ status (intent s id) = Submitted
      /\ intent s' id = with_status Executed (intent s id))
  \/ ((exists reason, c = DisputeIntent id reason)
      /\ intentId (intent s id) ≠ 0
      /\ intent s' id = with_status Disputed (intent s id)).
Proof.
  cbn zeta. unfold transact.
  destruct (executor_call env c s) as [[u s']|e] eqn:H; cbn [fst]; [|by left].
  destruct c; cbn [executor_call] in H; try (use_ok H; left; reflexivity).
  - apply submitIntent_ok in H as (Hauth & Hid & Hst & ->).
    rewrite intent_mkState, rd_insert. case_decide as Hk; [subst|by left].
    right; left. auto.
  - apply executeIntent_ok in H as (_ & Hid & Hst & _ & _ & ->).
    rewrite intent_mkState, rd_insert. case_decide as Hk; [subst|by left].
    right; right; left. eauto.
  - apply disputeIntent_ok in H as (Hid & ->).
    rewrite intent_mkState, rd_insert. case_decide as Hk; [subst|by left].
    right; right; right. eauto.
Qed.

Lemma step_intent ecr env c w id :
  intentId (intent (executor w) id) ≠ 0 \/ is_emit c = false ->
  intent (executor (fst (step ecr env c w))) id
  = intent (fst (transact (executor_call env c) (executor w))) id.
Proof.
  intros Hid. destruct (is_emit c) eqn:Hc.
  - destruct Hid as [Hid|Hid]; [|discriminate Hid].
    destruct c; try discriminate Hc. cbn [executor_call]. unfold step, transact.
    cbn [dispatch]. cbn [ret fst].
    destruct (emitIntent _ _ _ _ w) as [[u w']|e] eqn:He; cbn [fst]; [|reflexivity].
    apply emitIntent_ok in He as (_ & Hfresh & _ & _ & _ & _ & _ & ->).
    rewrite intent_mkState, rd_insert.
    case_decide as Hk; [|reflexivity]. subst id. destruct (Hid Hfresh).
  - by rewrite step_executor.
Qed.

(** X11: a stored intent moves through the lifecycle only. Whatever the
    call, the status of an intent with a nonzero stored id either stays, or
    goes from Pending to Submitted by [submitIntent], from Submitted to
    Executed by [executeIntent], or to Disputed by [disputeIntent]; so a
    Disputed intent stays Disputed and an Executed one can only become
    Disputed. *)
Theorem intent_status_follows_lifecycle
    (ecrecover : N -> N -> N -> N -> N) (env : Env) (c : Call) (w : World) (id : N) :
  intentId (intent (executor w) id) ≠ 0 ->
  lifecycle_step c id (status (intent (executor w) id))
                 (status (intent (executor (fst (step ecrecover env c w))) id))
  /\ (status (intent (executor w) id) = Disputed ->
      status (intent (executor (fst (step ecrecover env c w))) id) = Disputed)
  /\ (status (intent (executor w) id) = Executed ->
      status (intent (executor (fst (step ecrecover env c w))) id) = Executed
      \/ status (intent (executor (fst (step ecrecover env c w))) id) = Disputed).
Proof.
  intros Hid. rewrite step_intent by (left; exact Hid).
  assert (Hl : lifecycle_step c id (status (intent (executor w) id))
                 (status (intent (fst (transact (executor_call env c) (executor w))) id))).
  { destruct (executor_call_intent env c (executor w) id)
      as [-> | [(-> & _ & _ & Hst & ->) | [((data & ->) & _ & Hst & ->)
                                          | ((reason & ->) & _ & ->)]]].
    - by left.
    - right; left. auto.
    - right; right; left. eauto.
    - right; right; right. eauto. }
  split; [exact Hl|].
  destruct Hl as [-> | [(Ha & _) | [(Ha & _) | (Hb & _)]]].
  - split; [auto|]. intros Hx. by left.
  - split; intros Hx; rewrite Hx in Ha; discriminate Ha.
  - split; intros Hx; rewrite Hx in Ha; discriminate Ha.
  - split; [auto|]. intros _. by right.
Qed.

Lemma intent_status_follows_lifecycle_witness :
  lifecycle_step (ExecuteIntent 42 (Some ("transfer", 3, 5, []))) 42
    (status (intent (executor (world_submitted (keccak_string "transfer"))) 42))
    (status (intent (executor (fst (step sampleRecover (at_time 33 80)
               (ExecuteIntent 42 (Some ("transfer", 3, 5, [])))
               (world_submitted (keccak_string "transfer"))))) 42)).
Proof.
  apply (intent_status_follows_lifecycle sampleRecover (at_time 33 80)
           (ExecuteIntent 42 (Some ("transfer", 3, 5, [])))
           (world_submitted (keccak_string "transfer")) 42).
  vm_compute. intros E; discriminate E.
Defined.

(** X12: what the agent signed is never rewritten. Whatever the call, the
    nine committed fields of an intent with a nonzero stored id (id, agent,
    chains, action hash, nonce, expiry, value, recipient) stay as emitted. *)
Theorem intent_commitment_is_immutable
    (ecrecover : N -> N -> N -> N -> N) (env : Env) (c : Call) (w : World) (id : N) :
  intentId (intent (executor w) id) ≠ 0 ->
  commitment (intent (executor (fst (step ecrecover env c w))) id)
  = commitment (intent (executor w) id).
Proof.
  intros Hid. rewrite step_intent by (left; exact Hid).
  destruct (executor_call_intent env c (executor w) id)
    as [-> | [(_ & _ & _ & _ & ->) | [(_ & _ & _ & ->) | (_ & _ & ->)]]];
    reflexivity.
Qed.

Lemma intent_commitment_is_immutable_witness :
  commitment (intent (executor (fst (step sampleRecover (at_time 8 12)
                (DisputeIntent 42 "late") (world_with_intent 0)))) 42)
  = sampleIntent 42 0 0.
Proof.
  rewrite (intent_commitment_is_immutable sampleRecover (at_time 8 12)
             (DisputeIntent 42 "late") (world_with_intent 0) 42).
  - vm_compute. reflexivity.
  - vm_compute. intros E; discriminate E.
Defined.

Lemma executor_call_authorized_zero env c s :
  rd false (authorizedRelayers s) 0 = false ->
  rd false (authorizedRelayers (fst (transact (executor_call env c) s))) 0 = false.
Proof.
  intros Hs. unfold transact.
  destruct (executor_call env c s) as [[u s']|e] eqn:H; cbn [fst]; [|exact Hs].
  destruct c; cbn [executor_call] in H;
    try (use_ok H; cbn; exact Hs).
  - (* authorizeRelayer *)
    revert H. unfold_executor. unfold_monad. exec. intros [= <- <-]. tidy. cbn.
    rewrite rd_insert_ne; [exact Hs|]. congruence.
  - apply revokeRelayer_ok in H as ->. cbn. rewrite rd_insert.
    case_decide; [reflexivity|exact Hs].
Qed.

Lemma intents_well_formed_step ecr env c w :
  intents_well_formed (executor w) ->
  intents_well_formed (executor (fst (step ecr env c w))).
Proof.
  intros [Hz Hw]. destruct (is_emit c) eqn:Hc.
  - destruct c; try discriminate Hc. unfold step, transact. cbn [dispatch].
    destruct (emitIntent _ _ _ _ w) as [[u w']|e] eqn:He; cbn [fst];
      [|exact (conj Hz Hw)].
    apply emitIntent_ok in He as (_ & _ & _ & _ & _ & _ & _ & ->).
    split; [exact Hz|]. intros id. rewrite intent_mkState, rd_insert.
    case_decide as Hk; [subst id|apply Hw].
    unfold emitted. cbn.
    split; [by right|]. split; [intros E; discriminate E|].
    split; [intros E; discriminate E|]. split; [done|].
    intros [E|E]; discriminate E.
  - split.
    { rewrite step_executor by exact Hc. by apply executor_call_authorized_zero. }
    intros id. rewrite step_intent by (right; exact Hc).
    destruct (Hw id) as (Hkey & Hv & Hf & Hp & Hs).
    destruct (executor_call_intent env c (executor w) id)
      as [-> | [(_ & Hauth & Hid & Hst & ->) | [(_ & Hid & Hst & ->)
                                               | (_ & Hid & ->)]]].
    + done.
    + cbn. split; [exact Hkey|]. split; [intros E; discriminate E|].
      split; [intros E; discriminate E|]. split; [intros E; discriminate E|].
      intros _. split; [|exact Hid]. intros Hs0. rewrite Hs0 in Hauth. congruence.
    + cbn. split; [exact Hkey|]. split; [intros E; discriminate E|].
      split; [intros E; discriminate E|]. split; [intros E; discriminate E|].
      intros _. apply Hs. by left.
    + cbn. split; [exact Hkey|]. split; [intros E; discriminate E|].
      split; [intros E; discriminate E|]. split; [intros E; discriminate E|].
      intros [E|E]; discriminate E.
Qed.

(** X13: the intent store of a reachable state is well formed. The zero
    address is never an authorized relayer; a slot holds either nothing or an
    intent whose id is its key; no intent is ever in status Validated or
    Failed; a Pending intent has no relayer and no submission time; and a
    Submitted or Executed intent has a nonzero id and a nonzero relayer. *)
Theorem reachable_intents_well_formed (ecrecover : N -> N -> N -> N -> N) (w : World) :
  reachable ecrecover w -> intents_well_formed (executor w).
Proof.
  revert w. apply reachable_ind.
  - intros deployer ra pa. split; [reflexivity|]. intros id.
    unfold genesis, init, intent. cbn. rewrite rd_empty. cbn.
    split; [by left|]. split; [intros E; discriminate E|].
    split; [intros E; discriminate E|]. split; [done|].
    intros [E|E]; discriminate E.
  - intros env c w. apply intents_well_formed_step.
Qed.

Lemma reachable_intents_well_formed_witness :
  intents_well_formed (executor (world_submitted 0)).
Proof.
  apply (reachable_intents_well_formed sampleRecover).
  unfold world_submitted, world_with_intent. rewrite <- run_app. apply reachable_run.
Defined.

(** X14: the gates of [submitIntent], in order. A caller that is not an
    authorized relayer gets UnauthorizedRelayer; for an authorized one an
    unknown intent gives IntentNotFound and an intent that is not Pending
    gives IntentAlreadyExecuted; otherwise the call succeeds, records the
    caller as relayer and the block time as submission time, sets the status
    to Submitted, and keeps the commitment and every other intent. *)
Theorem submitIntent_gates (env : Env) (id : N) (s : State) :
  (rd false (authorizedRelayers s) (msg_sender env) = false ->
   submitIntent env id s = Err UnauthorizedRelayer)
  /\ (rd false (authorizedRelayers s) (msg_sender env) = true ->
      (intentId (intent s id) = 0 -> submitIntent env id s = Err IntentNotFound)
      /\ (intentId (intent s id) ≠ 0 -> status (intent s id) ≠ Pending ->
          submitIntent env id s = Err IntentAlreadyExecuted)
      /\ (intentId (intent s id) ≠ 0 -> status (intent s id) = Pending ->
          exists s',
            submitIntent env id s = Ok (tt, s')
            /\ relayer (intent s' id) = msg_sender env
            /\ submittedAt (intent s' id) = block_timestamp env
            /\ status (intent s' id) = Submitted
            /\ commitment (intent s' id) = commitment (intent s id)
            /\ (forall id', id' ≠ id -> intent s' id' = intent s id'))).
Proof.
  split; [|intros Hauth; split; [|split]].
  - intros Hauth. unfold submitIntent. unfold_monad. cbn. rewrite Hauth. reflexivity.
  - intros Hid. unfold submitIntent. unfold_monad. cbn. rewrite Hauth. cbn.
    rewrite decide_True by exact Hid. reflexivity.
  - intros Hid Hst. unfold submitIntent. unfold_monad. cbn. rewrite Hauth. cbn.
    rewrite decide_False by exact Hid. rewrite decide_True by exact Hst. reflexivity.
  - intros Hid Hst.
    destruct (submitIntent env id s) as [[[] s']|e] eqn:Hrun.
    + exists s'. split; [reflexivity|].
      apply submitIntent_ok in Hrun as (_ & _ & _ & ->).
      rewrite !intent_mkState, !rd_insert_eq. cbn.
      repeat split; try reflexivity.
      intros id' Hne. rewrite intent_mkState, rd_insert_ne by congruence. reflexivity.
    + revert Hrun. unfold submitIntent. unfold_monad. cbn. rewrite Hauth. cbn.
      rewrite decide_False by exact Hid.
      rewrite decide_False by (intros Hx; exact (Hx Hst)). cbn.
      intros E; discriminate E.
Qed.

Lemma submitIntent_gates_witness :
  submitIntent (at_time 34 20) 42 (executor (world_with_intent 0))
  = Err UnauthorizedRelayer
  /\ submitIntent (at_time 33 30) 42 (executor (world_submitted 0))
     = Err IntentAlreadyExecuted.
Proof.
  split.
  - apply (proj1 (submitIntent_gates (at_time 34 20) 42 (executor (world_with_intent 0)))).
    vm_compute. reflexivity.
  - apply (proj2 (submitIntent_gates (at_time 33 30) 42 (executor (world_submitted 0)))).
    + vm_compute. reflexivity.
    + vm_compute. intros E; discriminate E.
    + vm_compute. intros E; discriminate E.
Defined.

(** X15: an emitted intent can be read back. After a successful emission
    with a nonzero intent id, [getIntent] returns the descriptor's nine
    fields with no relayer, no submission time and status Pending, and
    [getNonce] returns the descriptor's nonce plus one; before the emission
    [getIntent] reverts with IntentNotFound. *)
Theorem emitted_intent_reads_back
    (ecrecover : N -> N -> N -> N -> N) (env : Env) (d : IntentData.t)
    (sig : list N) (w : World) :
  IntentData.intentId d ≠ 0 ->
  snd (step ecrecover env (EmitIntent d sig) w) = Ok tt ->
  getIntent (IntentData.intentId d) (executor w) = Err IntentNotFound
  /\ getIntent (IntentData.intentId d)
       (executor (fst (step ecrecover env (EmitIntent d sig) w)))
     = Ok (emitted d, executor (fst (step ecrecover env (EmitIntent d sig) w)))
  /\ getNonce (IntentData.agentId d)
       (executor (fst (step ecrecover env (EmitIntent d sig) w)))
     = Ok (IntentData.nonce d + 1,
           executor (fst (step ecrecover env (EmitIntent d sig) w))).
Proof.
  intros Hid Hok. unfold step in *. cbn [dispatch] in *. unfold transact in *.
  destruct (emitIntent ecrecover env d sig w) as [[u w']|e] eqn:He; cbn [fst snd] in *;
    [|discriminate Hok].
  apply emitIntent_ok in He as (_ & Hfresh & _ & Hn & _ & _ & _ & Hex).
  split; [|split].
  - unfold getIntent. unfold_monad. cbn. rewrite decide_True by exact Hfresh. reflexivity.
  - unfold getIntent. unfold_monad. cbn. rewrite Hex.
    rewrite !intent_mkState, !rd_insert_eq. cbn.
    rewrite decide_False by exact Hid. reflexivity.
  - unfold getNonce. unfold_monad. cbn. rewrite Hex. unfold nonceOf at 1. cbn.
    rewrite rd_insert_eq, Hn. reflexivity.
Qed.

Lemma emitted_intent_reads_back_witness :
  getIntent 42 (executor (world_with_intent 0))
  = Ok (emitted (sampleIntent 42 0 0), executor (world_with_intent 0)).
Proof.
  exact (proj1 (proj2 (emitted_intent_reads_back sampleRecover (at_time 1 10)
           (sampleIntent 42 0 0) sampleSignature
           (run sampleRecover [(at_time 11 5, RegisterAgent 5 77 [] "" samplePolicy)]
              (genesis 9 100 200))
           ltac:(intros E; discriminate E)
           ltac:(vm_compute; reflexivity)))).
Defined.

(** ** The relayer directory *)

Local Open Scope list_scope.

Lemma find_relayer_first (l1 l2 : list N) (r : N) (i : nat) :
  r ∉ l1 -> find_relayer (l1 ++ r :: l2) r i = Some (i + length l1)%nat.
Proof.
  revert i. induction l1 as [|a l1 IH]; intros i Hr; cbn.
  - rewrite decide_True by reflexivity. f_equal. lia.
  - rewrite decide_False.
    + rewrite IH; [f_equal; lia|]. intros H. apply Hr. by apply list_elem_of_further.
    + intros ->. apply Hr. apply list_elem_of_here.
Qed.

Lemma find_relayer_none (l : list N) (r : N) (i : nat) :
  r ∉ l -> find_relayer l r i = None.
Proof.
  revert i. induction l as [|a l IH]; intros i Hr; cbn; [reflexivity|].
  rewrite decide_False.
  - apply IH. intros H. apply Hr. by apply list_elem_of_further.
  - intros ->. apply Hr. apply list_elem_of_here.
Qed.

(** Removing the last entry: the first occurrence is the last element. *)
Lemma swap_remove_last (l1 : list N) (r : N) :
  r ∉ l1 -> swap_remove (l1 ++ [r]) r = l1.
Proof.
  intros Hr. unfold swap_remove. rewrite find_relayer_first by exact Hr.
  rewrite last_last. cbn [Nat.add].
  replace (<[length l1 := r]> (l1 ++ [r])) with (l1 ++ [r]).
  - apply removelast_last.
  - replace (length l1) with (length l1 + 0)%nat at 1 by lia.
    rewrite insert_app_r. reflexivity.
Qed.

(** Removing an inner entry: the last element takes its place. *)
Lemma swap_remove_inner (l1 l2 : list N) (r z : N) :
  r ∉ l1 -> swap_remove (l1 ++ r :: l2 ++ [z]) r = l1 ++ z :: l2.
Proof.
  intros Hr. unfold swap_remove. rewrite find_relayer_first by exact Hr.
  cbn [Nat.add].
  replace (l1 ++ r :: l2 ++ [z]) with ((l1 ++ r :: l2) ++ [z])
    by (rewrite <- app_assoc; reflexivity).
  rewrite last_last.
  replace ((l1 ++ r :: l2) ++ [z]) with (l1 ++ (r :: l2 ++ [z]))
    by (rewrite <- app_assoc; reflexivity).
  replace (length l1) with (length l1 + 0)%nat at 1 by lia.
  rewrite insert_app_r. cbn.
  replace (l1 ++ z :: l2 ++ [z]) with ((l1 ++ z :: l2) ++ [z])
    by (rewrite <- app_assoc; reflexivity).
  apply removelast_last.
Qed.

Lemma swap_remove_absent (l : list N) (r : N) : r ∉ l -> swap_remove l r = l.
Proof. intros Hr. unfold swap_remove. by rewrite find_relayer_none. Qed.

(** The removal loop takes out exactly one occurrence. *)
Lemma swap_remove_Permutation (l : list N) (r : N) :
  r ∈ l -> l ≡ₚ r :: swap_remove l r.
Proof.
  intros Hr. apply list_elem_of_split_l in Hr as (l1 & l2 & -> & Hr).
  destruct l2 as [|y l2 _] using rev_ind.
  - rewrite swap_remove_last by exact Hr. by rewrite Permutation_app_comm.
  - rewrite swap_remove_inner by exact Hr.
    rewrite <- Permutation_middle. constructor.
    apply Permutation_app_head. exact (Permutation_app_comm l2 [y]).
Qed.

Lemma sumN_Permutation (f : N -> N) (l k : list N) :
  l ≡ₚ k -> sumN f l = sumN f k.
Proof. unfold sumN. induction 1; cbn in *; lia. Qed.

Lemma sumN_ext (f g : N -> N) (l : list N) :
  (forall r, r ∈ l -> f r = g r) -> sumN f l = sumN g l.
Proof.
  induction l as [|a l IH]; intros H; [reflexivity|].
  change (f a + sumN f l = g a + sumN g l).
  rewrite (H a) by apply list_elem_of_here.
  rewrite IH; [reflexivity|]. intros r Hr. apply H. by apply list_elem_of_further.
Qed.

Lemma sumN_app (f : N -> N) (l k : list N) : sumN f (l ++ k) = sumN f l + sumN f k.
Proof.
  induction l as [|a l IH]; [reflexivity|].
  change (f a + sumN f (l ++ k) = f a + sumN f l + sumN f k). rewrite IH. lia.
Qed.

Lemma registerRelayer_facts env stake v s u s' :
  registerRelayer env stake v s = Ok (u, s') ->
  100000000000000000 <= stake /\ stake <= v /\ balance s + v <= MAX_UINT256.
Proof.
  unfold_executor. unfold_monad. exec.
  intros _. tidy. auto.
Qed.

Lemma unregisterRelayer_facts env acc s u s' :
  unregisterRelayer env acc s = Ok (u, s') ->
  stakeAmount (info s (msg_sender env)) <= balance s /\ acc = true.
Proof.
  unfold_executor. unfold_monad. exec.
  intros _. unfold info in *. cbn in *. tidy. split; [lia|assumption].
Qed.

Lemma info_insert a b c d (m : gmap N RelayerInfo) e f g h i (k r : N) (x : RelayerInfo) :
  info (mkState a b c d (<[k := x]> m) e f g h i) r
  = if decide (k = r) then x else rd zeroRelayerInfo m r.
Proof. unfold info. cbn. apply rd_insert. Qed.

Lemma relayer_directory_register (s : State) (m stake v now : N) (ev : list Event) :
  relayer_directory s ->
  isActive (info s m) = false ->
  100000000000000000 <= stake -> stake <= v ->
  relayer_directory
    (mkState (_status s) (intents s) (agentNonces s) (authorizedRelayers s)
       (<[m := mkRelayerInfo m stake 100 0 0 true now]> (relayerInfo s))
       (activeRelayers s ++ [m]) (agentRegistry s) (policyEngine s) (balance s + v) ev).
Proof.
  intros (Hnd & Hin & Hrec & Hbal) Hm Hmin Hv.
  assert (Hnotin : m ∉ activeRelayers s).
  { intros H. apply Hin in H. congruence. }
  unfold relayer_directory, total_stake. cbn [activeRelayers balance].
  split; [|split; [|split]].
  - apply NoDup_app. split; [exact Hnd|]. split; [|apply NoDup_singleton].
    intros x Hx Hx'. apply list_elem_of_singleton in Hx' as ->. exact (Hnotin Hx).
  - intros r. rewrite info_insert, elem_of_app, list_elem_of_singleton.
    case_decide as Hk.
    + subst r. cbn. split; [reflexivity|]. intros _. by right.
    + rewrite Hin. fold (info s r). split; [|by left].
      intros [H|H]; [exact H|]. by destruct Hk.
  - intros r. rewrite info_insert. case_decide as Hk.
    + subst r. cbn. auto.
    + apply Hrec.
  - rewrite sumN_app. cbn. rewrite info_insert, decide_True by reflexivity. cbn.
    rewrite (sumN_ext _ (fun r => stakeAmount (info s r))).
    + unfold total_stake in Hbal. lia.
    + intros r Hr. rewrite info_insert. rewrite decide_False; [reflexivity|].
      intros ->. exact (Hnotin Hr).
Qed.

Lemma relayer_directory_unregister (s : State) (m : N) (ev : list Event) :
  relayer_directory s ->
  isActive (info s m) = true ->
  relayer_directory
    (mkState (_status s) (intents s) (agentNonces s) (authorizedRelayers s)
       (<[m := with_stakeAmount 0 (with_isActive false (info s m))]> (relayerInfo s))
       (swap_remove (activeRelayers s) m) (agentRegistry s) (policyEngine s)
       (balance s - stakeAmount (info s m)) ev).
Proof.
  intros (Hnd & Hin & Hrec & Hbal) Hm.
  assert (Hmin : m ∈ activeRelayers s) by (by apply Hin).
  pose proof (swap_remove_Permutation _ _ Hmin) as Hperm.
  assert (Hnd' : NoDup (m :: swap_remove (activeRelayers s) m)).
  { by apply (NoDup_Permutation_proper _ _ Hperm). }
  apply NoDup_cons in Hnd' as [Hnotin Hnd'].
  unfold relayer_directory, total_stake. cbn [activeRelayers balance].
  split; [exact Hnd'|]. split; [|split].
  - intros r. rewrite info_insert. case_decide as Hk.
    + subst r. cbn. split; [intros H; destruct (Hnotin H)|intros E; discriminate E].
    + fold (info s r). rewrite <- Hin.
      rewrite (elem_of_Permutation_proper r _ _ Hperm), elem_of_cons.
      split; [by right|]. intros [->|H]; [by destruct Hk|exact H].
  - intros r. rewrite info_insert. case_decide as Hk.
    + subst r. cbn. intros E; discriminate E.
    + apply Hrec.
  - rewrite (sumN_ext _ (fun r => stakeAmount (info s r))).
    + unfold total_stake in Hbal.
      rewrite (sumN_Permutation _ _ _ Hperm) in Hbal.
      change (stakeAmount (info s m)
              + sumN (fun r => stakeAmount (info s r))
                     (swap_remove (activeRelayers s) m) <= balance s) in Hbal.
      lia.
    + intros r Hr. rewrite info_insert. rewrite decide_False; [reflexivity|].
      intros ->. exact (Hnotin Hr).
Qed.

Lemma relayer_directory_update (s : State) (r now : N) (success : bool) :
  relayer_directory s ->
  relayer_directory
    (mkState (_status s) (intents s) (agentNonces s) (authorizedRelayers s)
       (<[r := info_after now success (info s r)]> (relayerInfo s))
       (activeRelayers s) (agentRegistry s) (policyEngine s) (balance s) (events s)).
Proof.
  intros (Hnd & Hin & Hrec & Hbal).
  unfold relayer_directory, total_stake. cbn [activeRelayers balance].
  split; [exact Hnd|]. split; [|split].
  - intros x. rewrite info_insert. case_decide as Hk; [subst x; cbn|]; apply Hin.
  - intros x. rewrite info_insert. case_decide as Hk; [subst x; cbn|]; apply Hrec.
  - rewrite (sumN_ext _ (fun x => stakeAmount (info s x))); [exact Hbal|].
    intros x _. rewrite info_insert. case_decide as Hk; [subst x|]; reflexivity.
Qed.

Lemma executor_call_relayer_directory env c s :
  relayer_directory s ->
  relayer_directory (fst (transact (executor_call env c) s)).
Proof.
  intros Hs. unfold transact.
  destruct (executor_call env c s) as [[u s']|e] eqn:H; cbn [fst]; [|exact Hs].
  destruct c; cbn [executor_call] in H; try (use_ok H; exact Hs).
  - pose proof (registerRelayer_facts _ _ _ _ _ _ H) as (Hmin & Hv & _).
    apply registerRelayer_ok in H as (Hina & ->).
    by apply relayer_directory_register.
  - apply unregisterRelayer_ok in H as (Hact & ->).
    by apply relayer_directory_unregister.
  - apply updateRelayerReputation_ok in H as (_ & ->).
    by apply relayer_directory_update.
Qed.

(** The directory invariant holds at deployment, and every call keeps it. *)
Lemma relayer_directory_genesis (deployer ra pa : N) :
  relayer_directory (executor (genesis deployer ra pa)).
Proof.
  unfold genesis, init, relayer_directory, total_stake. cbn.
  split; [apply NoDup_nil_2|]. split; [|split; [|lia]].
  - intros r. unfold info. cbn. rewrite rd_empty. cbn.
    split; [intros H; by apply elem_of_nil in H|intros E; discriminate E].
  - intros r. unfold info. cbn. rewrite rd_empty. cbn. intros E; discriminate E.
Qed.

Lemma relayer_directory_step (ecrecover : N -> N -> N -> N -> N) (env : Env) (c : Call)
    (w : World) :
  relayer_directory (executor w) ->
  relayer_directory (executor (fst (step ecrecover env c w))).
Proof.
  intros Hw. destruct (is_emit c) eqn:Hc.
  - destruct c; try discriminate Hc. unfold step, transact. cbn [dispatch].
    destruct (emitIntent _ _ _ _ w) as [[u w']|e] eqn:He; cbn [fst]; [|exact Hw].
    apply emitIntent_ok in He as (_ & _ & _ & _ & _ & _ & _ & ->). exact Hw.
  - rewrite step_executor by exact Hc. by apply executor_call_relayer_directory.
Qed.

(** X16: the relayer directory and the relayer records always agree. In
    every reachable state [activeRelayers] has no duplicates and lists
    exactly the relayers whose record is active, an active record carries its
    own address and a stake of at least 0.1 ether, and the contract's balance
    covers the sum of the stakes of the listed relayers. *)
Theorem reachable_relayer_directory (ecrecover : N -> N -> N -> N -> N) (w : World) :
  reachable ecrecover w -> relayer_directory (executor w).
Proof.
  revert w. apply reachable_ind.
  - apply relayer_directory_genesis.
  - intros env c w. apply relayer_directory_step.
Qed.

Lemma reachable_relayer_directory_witness :
  relayer_directory (executor two_relayers_world).
Proof.
  apply (reachable_relayer_directory sampleRecover).
  unfold two_relayers_world. apply reachable_run.
Defined.

Lemma sumN_member (f : N -> N) (l : list N) (r : N) : r ∈ l -> f r <= sumN f l.
Proof.
  induction l as [|a l IH]; intros Hr; [by apply elem_of_nil in Hr|].
  change (f r <= f a + sumN f l).
  apply elem_of_cons in Hr as [->|Hr]; [lia|]. specialize (IH Hr). lia.
Qed.

(** X17: a registered relayer can always take its stake out. In a reachable
    state, for a caller whose record is active and whose account accepts
    ether, [unregisterRelayer] succeeds: the contract holds the stake, pays
    out exactly the stake, clears the record's stake and active flag and
    drops the caller, and nobody else, from the directory. When the account
    refuses the transfer the call reverts. *)
Theorem unregisterRelayer_pays_out
    (ecrecover : N -> N -> N -> N -> N) (env : Env) (w : World) :
  reachable ecrecover w ->
  isActive (info (executor w) (msg_sender env)) = true ->
  stakeAmount (info (executor w) (msg_sender env)) <= balance (executor w)
  /\ unregisterRelayer env false (executor w) = Err TransferFailed
  /\ exists s',
       unregisterRelayer env true (executor w) = Ok (tt, s')
       /\ balance s'
          = balance (executor w) - stakeAmount (info (executor w) (msg_sender env))
       /\ isActive (info s' (msg_sender env)) = false
       /\ stakeAmount (info s' (msg_sender env)) = 0
       /\ (forall r, r ∈ activeRelayers s'
                     <-> r ∈ activeRelayers (executor w) /\ r ≠ msg_sender env).
Proof.
  intros Hw Hact.
  pose proof (reachable_ind ecrecover (fun w => relayer_directory (executor w))
                relayer_directory_genesis (relayer_directory_step ecrecover) w Hw)
    as Hdir.
  cbn beta in Hdir.
  pose proof Hdir as (Hnd & Hin & _ & Hbal).
  assert (Hstake : stakeAmount (info (executor w) (msg_sender env))
                   <= balance (executor w)).
  { pose proof (sumN_member (fun r => stakeAmount (info (executor w) r))
                  (activeRelayers (executor w)) (msg_sender env)) as Hm.
    cbn beta in Hm. unfold total_stake in Hbal.
    specialize (Hm (proj2 (Hin _) Hact)). lia. }
  split; [exact Hstake|]. split.
  - unfold unregisterRelayer. unfold_monad. cbn. rewrite Hact. cbn.
    rewrite decide_False by lia. reflexivity.
  - destruct (unregisterRelayer env true (executor w)) as [[[] s']|e] eqn:Hrun.
    + exists s'. split; [reflexivity|].
      pose proof (relayer_directory_unregister _ _
                    (RelayerRevoked (msg_sender env) :: events (executor w))
                    Hdir Hact) as (Hnd' & Hin' & _).
      apply unregisterRelayer_ok in Hrun as (_ & ->).
      split; [reflexivity|].
      rewrite info_insert, decide_True by reflexivity. cbn.
      split; [reflexivity|]. split; [reflexivity|].
      intros r. cbn [activeRelayers].
      pose proof (swap_remove_Permutation _ _ (proj2 (Hin _) Hact)) as Hperm.
      rewrite (elem_of_Permutation_proper r _ _ Hperm), elem_of_cons.
      split.
      * intros Hr. split; [by right|]. intros ->.
        apply Hin' in Hr. rewrite info_insert, decide_True in Hr by reflexivity.
        discriminate Hr.
      * intros [[->|Hr] Hne]; [by destruct Hne|exact Hr].
    + revert Hrun. unfold unregisterRelayer. unfold_monad. cbn. rewrite Hact. cbn.
      rewrite decide_False by lia. cbn. intros E; discriminate E.
Qed.

Lemma unregisterRelayer_pays_out_witness :
  exists s',
    unregisterRelayer (at_time 34 200) true (executor two_relayers_world) = Ok (tt, s')
    /\ balance s'
       = balance (executor two_relayers_world)
         - stakeAmount (info (executor two_relayers_world) 34).
Proof.
  destruct (unregisterRelayer_pays_out sampleRecover (at_time 34 200) two_relayers_world)
    as (_ & _ & s' & Hrun & Hbal & _).
  - unfold two_relayers_world. apply reachable_run.
  - vm_compute. reflexivity.
  - exists s'. exact (conj Hrun Hbal).
Defined.

(** X18: the gates and the effect of [registerRelayer]. A stake below 0.1
    ether is refused with "Minimum stake is 0.1 ETH", a payment below the
    stake with "Insufficient stake amount", a caller whose record is already
    active with "Already registered". Otherwise the caller gets a fresh
    record (its address, the stake, reputation 100, no executions, active,
    stamped with the block time) and the last place in the directory; the
    contract keeps the whole payment, also what exceeds the stake, and the
    set of authorized relayers is unchanged. *)
Theorem registerRelayer_gates (env : Env) (stakeAmount msg_value : N) (s : State) :
  balance s + msg_value <= MAX_UINT256 ->
  (stakeAmount < 100000000000000000 ->
   registerRelayer env stakeAmount msg_value s
   = Err (RequireFailed "Minimum stake is 0.1 ETH"))
  /\ (100000000000000000 <= stakeAmount -> msg_value < stakeAmount ->
      registerRelayer env stakeAmount msg_value s
      = Err (RequireFailed "Insufficient stake amount"))
  /\ (100000000000000000 <= stakeAmount -> stakeAmount <= msg_value ->
      isActive (info s (msg_sender env)) = true ->
      registerRelayer env stakeAmount msg_value s
      = Err (RequireFailed "Already registered"))
  /\ (100000000000000000 <= stakeAmount -> stakeAmount <= msg_value ->
      isActive (info s (msg_sender env)) = false ->
      exists s',
        registerRelayer env stakeAmount msg_value s = Ok (tt, s')
        /\ info s' (msg_sender env)
           = mkRelayerInfo (msg_sender env) stakeAmount 100 0 0 true (block_timestamp env)
        /\ activeRelayers s' = (activeRelayers s ++ [msg_sender env])%list
        /\ balance s' = balance s + msg_value
        /\ authorizedRelayers s' = authorizedRelayers s).
Proof.
  intros Hfit.
  split; [|split; [|split]].
  - intros Hlow. unfold registerRelayer. unfold_monad. cbn.
    rewrite add256_fits by exact Hfit. cbn.
    rewrite bool_decide_eq_false_2 by lia. reflexivity.
  - intros Hmin Hlow. unfold registerRelayer. unfold_monad. cbn.
    rewrite add256_fits by exact Hfit. cbn.
    rewrite bool_decide_eq_true_2 by exact Hmin. cbn.
    rewrite bool_decide_eq_false_2 by lia. reflexivity.
  - intros Hmin Hv Hact. unfold registerRelayer. unfold_monad. cbn.
    rewrite add256_fits by exact Hfit. cbn.
    rewrite bool_decide_eq_true_2 by exact Hmin. cbn.
    rewrite bool_decide_eq_true_2 by exact Hv. cbn.
    unfold info in *. cbn. rewrite Hact. reflexivity.
  - intros Hmin Hv Hina.
    destruct (registerRelayer env stakeAmount msg_value s) as [[[] s']|e] eqn:Hrun.
    + exists s'. split; [reflexivity|].
      apply registerRelayer_ok in Hrun as (_ & ->).
      rewrite info_insert, decide_True by reflexivity. done.
    + revert Hrun. unfold registerRelayer. unfold_monad. cbn.
      rewrite add256_fits by exact Hfit. cbn.
      rewrite bool_decide_eq_true_2 by exact Hmin. cbn.
      rewrite bool_decide_eq_true_2 by exact Hv. cbn.
      unfold info in *. cbn. rewrite Hina. cbn. intros E; discriminate E.
Qed.

Lemma registerRelayer_gates_witness :
  registerRelayer (at_time 35 300) 5 (ether 1) (executor two_relayers_world)
  = Err (RequireFailed "Minimum stake is 0.1 ETH")
  /\ registerRelayer (at_time 34 300) (ether 1) (ether 1) (executor two_relayers_world)
     = Err (RequireFailed "Already registered").
Proof.
  split.
  - apply (proj1 (registerRelayer_gates (at_time 35 300) 5 (ether 1)
                    (executor two_relayers_world)
                    ltac:(vm_compute; intros E; discriminate E))).
    vm_compute. reflexivity.
  - apply (proj2 (registerRelayer_gates (at_time 34 300) (ether 1) (ether 1)
                    (executor two_relayers_world)
                    ltac:(vm_compute; intros E; discriminate E))).
    + vm_compute. intros E; discriminate E.
    + vm_compute. intros E; discriminate E.
    + vm_compute. reflexivity.
Defined.

(** A registration that passes the three gates. *)
Lemma registerRelayer_run (env : Env) (stakeAmount msg_value : N) (s : State) :
  balance s + msg_value <= MAX_UINT256 ->
  100000000000000000 <= stakeAmount -> stakeAmount <= msg_value ->
  isActive (info s (msg_sender env)) = false ->
  exists s',
    registerRelayer env stakeAmount msg_value s = Ok (tt, s')
    /\ info s' (msg_sender env)
       = mkRelayerInfo (msg_sender env) stakeAmount 100 0 0 true (block_timestamp env).
Proof.
  intros Hfit Hmin Hv Hina.
  destruct (registerRelayer env stakeAmount msg_value s) as [[[] s']|e] eqn:Hrun.
  - exists s'. split; [reflexivity|].
    apply registerRelayer_ok in Hrun as (_ & ->).
    rewrite info_insert, decide_True by reflexivity. reflexivity.
  - revert Hrun. unfold registerRelayer. unfold_monad. cbn.
    rewrite add256_fits by exact Hfit. cbn.
    rewrite bool_decide_eq_true_2 by exact Hmin. cbn.
    rewrite bool_decide_eq_true_2 by exact Hv. cbn.
    unfold info in *. cbn. rewrite Hina. cbn. intros E; discriminate E.
Qed.

(** X19: leaving and joining again wipes a relayer's history. For an active
    relayer whose stake the contract holds and whose account accepts ether,
    [unregisterRelayer] followed by [registerRelayer] succeeds and leaves a
    fresh record: reputation 100 and no executions, whatever the reputation
    and the counters were. *)
Theorem reregistration_resets_reputation
    (env env' : Env) (stake msg_value : N) (s : State) :
  msg_sender env' = msg_sender env ->
  isActive (info s (msg_sender env)) = true ->
  stakeAmount (info s (msg_sender env)) <= balance s ->
  100000000000000000 <= stake -> stake <= msg_value ->
  balance s - stakeAmount (info s (msg_sender env)) + msg_value <= MAX_UINT256 ->
  exists s1 s2,
    unregisterRelayer env true s = Ok (tt, s1)
    /\ registerRelayer env' stake msg_value s1 = Ok (tt, s2)
    /\ reputationScore (info s2 (msg_sender env)) = 100
    /\ intentsProcessed (info s2 (msg_sender env)) = 0
    /\ successfulExecutions (info s2 (msg_sender env)) = 0
    /\ isActive (info s2 (msg_sender env)) = true.
Proof.
  intros Hsame Hact Hheld Hmin Hv Hfit.
  assert (Hun : exists s1, unregisterRelayer env true s = Ok (tt, s1)).
  { unfold unregisterRelayer. unfold_monad. cbn. rewrite Hact. cbn.
    rewrite decide_False by lia. cbn. eexists. reflexivity. }
  destruct Hun as [s1 Hun]. exists s1.
  pose proof Hun as Hs1. apply unregisterRelayer_ok in Hs1 as (_ & Hs1).
  assert (Hina : isActive (info s1 (msg_sender env')) = false).
  { rewrite Hsame, Hs1, info_insert, decide_True by reflexivity. reflexivity. }
  assert (Hbal : balance s1 + msg_value <= MAX_UINT256).
  { rewrite Hs1. cbn. exact Hfit. }
  destruct (registerRelayer_run env' stake msg_value s1 Hbal Hmin Hv Hina)
    as (s2 & Hrun & Hinfo).
  exists s2. split; [exact Hun|]. split; [exact Hrun|].
  rewrite <- Hsame, Hinfo. repeat split; reflexivity.
Qed.

Lemma reregistration_resets_reputation_witness :
  reputationScore (info (executor (relayer_world 0 19)) 33) = 10
  /\ exists s1 s2,
       unregisterRelayer (at_time 33 200) true (executor (relayer_world 0 19))
       = Ok (tt, s1)
       /\ registerRelayer (at_time 33 201) (ether 1) (ether 1) s1 = Ok (tt, s2)
       /\ reputationScore (info s2 33) = 100.
Proof.
  split; [vm_compute; reflexivity|].
  destruct (reregistration_resets_reputation (at_time 33 200) (at_time 33 201)
              (ether 1) (ether 1) (executor (relayer_world 0 19)))
    as (s1 & s2 & H1 & H2 & Hrep & _).
  - reflexivity.
  - vm_compute. reflexivity.
  - vm_compute. intros E; discriminate E.
  - vm_compute. intros E; discriminate E.
  - vm_compute. intros E; discriminate E.
  - vm_compute. intros E; discriminate E.
  - exists s1, s2. exact (conj H1 (conj H2 Hrep)).
Defined.

(** X20: reading the directory. [getActiveRelayerCount] is the length of
    [activeRelayers]; [getActiveRelayer] reverts with "Index out of bounds"
    from that length on, and below it returns, in a reachable state, a
    relayer whose record is active and carries that address. *)
Theorem getActiveRelayer_bounds
    (ecrecover : N -> N -> N -> N -> N) (w : World) (index : N) :
  reachable ecrecover w ->
  getActiveRelayerCount (executor w)
  = Ok (N.of_nat (length (activeRelayers (executor w))), executor w)
  /\ (N.of_nat (length (activeRelayers (executor w))) <= index ->
      getActiveRelayer index (executor w) = Err (RequireFailed "Index out of bounds"))
  /\ (index < N.of_nat (length (activeRelayers (executor w))) ->
      exists r,
        getActiveRelayer index (executor w) = Ok (r, executor w)
        /\ activeRelayers (executor w) !! N.to_nat index = Some r
        /\ isActive (info (executor w) r) = true
        /\ relayerAddress (info (executor w) r) = r).
Proof.
  intros Hw.
  pose proof (reachable_ind ecrecover (fun w => relayer_directory (executor w))
                relayer_directory_genesis (relayer_directory_step ecrecover) w Hw)
    as (_ & Hin & Hrec & _).
  split; [reflexivity|]. split.
  - intros Hout. unfold getActiveRelayer. unfold_monad. cbn.
    rewrite bool_decide_eq_false_2 by lia. reflexivity.
  - intros Hlt. unfold getActiveRelayer. unfold_monad. cbn.
    rewrite bool_decide_eq_true_2 by exact Hlt. cbn.
    destruct (lookup_lt_is_Some_2 (activeRelayers (executor w)) (N.to_nat index))
      as [r Hr]; [lia|].
    exists r. rewrite (nth_lookup_Some _ _ 0 _ Hr).
    split; [reflexivity|]. split; [exact Hr|].
    assert (Hact : isActive (info (executor w) r) = true).
    { apply Hin. eapply list_elem_of_lookup_2. exact Hr. }
    split; [exact Hact|]. by apply Hrec.
Qed.

Lemma getActiveRelayer_bounds_witness :
  getActiveRelayer 2 (executor two_relayers_world)
  = Err (RequireFailed "Index out of bounds")
  /\ exists r, getActiveRelayer 1 (executor two_relayers_world)
               = Ok (r, executor two_relayers_world)
               /\ isActive (info (executor two_relayers_world) r) = true.
Proof.
  destruct (getActiveRelayer_bounds sampleRecover two_relayers_world 2) as (_ & Hout & _).
  { unfold two_relayers_world. apply reachable_run. }
  destruct (getActiveRelayer_bounds sampleRecover two_relayers_world 1) as (_ & _ & Hin).
  { unfold two_relayers_world. apply reachable_run. }
  split.
  - apply Hout. vm_compute. intros E; discriminate E.
  - destruct Hin as (r & Hr & _ & Hact & _); [vm_compute; reflexivity|].
    exists r. exact (conj Hr Hact).
Defined.

Lemma relayerScore_state now i s v s' : relayerScore now i s = Ok (v, s') -> s' = s.
Proof.
  unfold relayerScore. unfold_monad. exec.
  all: by intros [= _ <-].
Qed.

Lemma selectLoop_member now rs bs br s v r s' :
  selectLoop now rs bs br s = Ok ((v, r), s') ->
  s' = s /\ (r = br \/ (r ∈ rs /\ isActive (info s r) = true)).
Proof.
  revert bs br. induction rs as [|a rs IH]; intros bs br.
  - cbn. unfold ret. intros [= _ <- <-]. auto.
  - cbn [selectLoop]. unfold bind at 1. unfold get.
    destruct (isActive (info s a)) eqn:Hact.
    + unfold bind at 1.
      destruct (relayerScore now (info s a) s) as [[sc s1]|e] eqn:Hsc;
        [|intros E; discriminate E].
      apply relayerScore_state in Hsc as ->.
      case_decide as Hcmp.
      * intros H. apply IH in H as (-> & [->|[Hr Ha]]).
        -- split; [reflexivity|]. right. split; [apply list_elem_of_here|exact Hact].
        -- split; [reflexivity|]. right. split; [by apply list_elem_of_further|exact Ha].
      * intros H. apply IH in H as (-> & [->|[Hr Ha]]).
        -- split; [reflexivity|]. by left.
        -- split; [reflexivity|]. right. split; [by apply list_elem_of_further|exact Ha].
    + intros H. apply IH in H as (-> & [->|[Hr Ha]]).
      * split; [reflexivity|]. by left.
      * split; [reflexivity|]. right. split; [by apply list_elem_of_further|exact Ha].
Qed.

(** X21: [selectRelayer] only ever hands out a listed, active relayer. If it
    returns an address, the address is not zero, it is an entry of
    [activeRelayers] and its record is active; the call changes no
    storage. *)
Theorem selectRelayer_returns_active_member (env : Env) (id : N) (s s' : State) (r : N) :
  selectRelayer env id s = Ok (r, s') ->
  s' = s
  /\ r ≠ 0
  /\ r ∈ activeRelayers s
  /\ isActive (info s r) = true.
Proof.
  unfold selectRelayer. unfold bind at 1. unfold get.
  unfold bind at 1. unfold require.
  destruct (bool_decide (0 < length (activeRelayers s))%nat);
    [|intros E; discriminate E].
  unfold ret at 1. unfold bind at 1.
  destruct (selectLoop (block_timestamp env) (activeRelayers s) 0 0 s)
    as [[[v b] s1]|e] eqn:Hloop; [|intros E; discriminate E].
  apply selectLoop_member in Hloop as (-> & Hb).
  unfold bind, require. cbn [snd].
  destruct (bool_decide (b = 0)) eqn:Hz; cbn; [intros E; discriminate E|].
  unfold ret. intros [= <- <-].
  apply bool_decide_eq_false in Hz.
  split; [reflexivity|]. split; [exact Hz|].
  destruct Hb as [->|Hb]; [by destruct Hz|exact Hb].
Qed.

Lemma selectRelayer_returns_active_member_witness :
  34 ∈ activeRelayers (executor two_relayers_world)
  /\ isActive (info (executor two_relayers_world) 34) = true.
Proof.
  destruct (selectRelayer_returns_active_member (at_time 1 102) 0
              (executor two_relayers_world) (executor two_relayers_world) 34)
    as (_ & _ & Hin & Hact).
  - vm_compute. reflexivity.
  - exact (conj Hin Hact).
Defined.

(** ** Relayer authorization *)

Lemma executor_call_authorization env c s :
  authorizedRelayers (fst (transact (executor_call env c) s)) ≠ authorizedRelayers s ->
  msg_sender env = agentRegistry s /\ changes_authorization c = true.
Proof.
  unfold transact.
  destruct (executor_call env c s) as [[u s']|e] eqn:H; cbn [fst];
    [|intros Hne; by destruct Hne].
  destruct c; cbn [executor_call] in H;
    try (use_ok H; cbn; intros Hne; by destruct Hne).
  - intros _. revert H. unfold_executor. unfold_monad. exec. intros _. tidy. auto.
  - intros _. revert H. unfold_executor. unfold_monad. exec. intros _. tidy. auto.
Qed.

Lemma executor_call_addresses env c s :
  agentRegistry (fst (transact (executor_call env c) s)) = agentRegistry s
  /\ policyEngine (fst (transact (executor_call env c) s)) = policyEngine s.
Proof.
  unfold transact.
  destruct (executor_call env c s) as [[u s']|e] eqn:H; cbn [fst]; [|done].
  destruct c; cbn [executor_call] in H; use_ok H; done.
Qed.

(** X22: only the owner, the address of the agent registry, decides who is an
    authorized relayer. [authorizeRelayer] and [revokeRelayer] revert for any
    other caller, and [authorizeRelayer] refuses the zero address; for the
    owner they set the one flag and leave the relayer records and the
    directory alone, and after a revocation the relayer's [submitIntent]
    reverts with UnauthorizedRelayer. No other call changes an authorization,
    and no call at all changes the registry or policy address. *)
Theorem relayer_authorization_is_owner_only (ecrecover : N -> N -> N -> N -> N) :
  (forall env r s,
     msg_sender env ≠ agentRegistry s ->
     authorizeRelayer env r s = Err (RequireFailed "Only owner can authorize relayers")
     /\ revokeRelayer env r s = Err (RequireFailed "Only owner can revoke relayers"))
  /\ (forall env s,
        msg_sender env = agentRegistry s ->
        authorizeRelayer env 0 s = Err (RequireFailed "Invalid relayer address"))
  /\ (forall env r s,
        msg_sender env = agentRegistry s -> r ≠ 0 ->
        exists s',
          authorizeRelayer env r s = Ok (tt, s')
          /\ authorizedRelayers s' = <[r := true]> (authorizedRelayers s)
          /\ relayerInfo s' = relayerInfo s
          /\ activeRelayers s' = activeRelayers s)
  /\ (forall env r s,
        msg_sender env = agentRegistry s ->
        exists s',
          revokeRelayer env r s = Ok (tt, s')
          /\ authorizedRelayers s' = <[r := false]> (authorizedRelayers s)
          /\ relayerInfo s' = relayerInfo s
          /\ activeRelayers s' = activeRelayers s
          /\ (forall env' id,
                msg_sender env' = r -> submitIntent env' id s' = Err UnauthorizedRelayer))
  /\ (forall env c w,
        authorizedRelayers (executor (fst (step ecrecover env c w)))
        ≠ authorizedRelayers (executor w) ->
        msg_sender env = agentRegistry (executor w) /\ changes_authorization c = true)
  /\ (forall env c w,
        agentRegistry (executor (fst (step ecrecover env c w))) = agentRegistry (executor w)
        /\ policyEngine (executor (fst (step ecrecover env c w)))
           = policyEngine (executor w)).
Proof.
  split; [|split; [|split; [|split; [|split]]]].
  - intros env r s Hs. unfold authorizeRelayer, revokeRelayer, owner. unfold_monad. cbn.
    rewrite bool_decide_eq_false_2 by exact Hs. split; reflexivity.
  - intros env s Hs. unfold authorizeRelayer, owner. unfold_monad. cbn.
    rewrite bool_decide_eq_true_2 by exact Hs. cbn. reflexivity.
  - intros env r s Hs Hr. unfold authorizeRelayer, owner. unfold_monad. cbn.
    rewrite bool_decide_eq_true_2 by exact Hs. cbn.
    rewrite bool_decide_eq_false_2 by exact Hr. cbn.
    eexists. split; [reflexivity|]. cbn. done.
  - intros env r s Hs. unfold revokeRelayer, owner. unfold_monad. cbn.
    rewrite bool_decide_eq_true_2 by exact Hs. cbn.
    eexists. split; [reflexivity|]. cbn. split; [reflexivity|].
    split; [reflexivity|]. split; [reflexivity|].
    intros env' id Hr. unfold submitIntent. unfold_monad. cbn.
    rewrite Hr, rd_insert_eq. reflexivity.
  - intros env c w. destruct (is_emit c) eqn:Hc.
    + destruct c; try discriminate Hc. unfold step, transact. cbn [dispatch].
      destruct (emitIntent _ _ _ _ w) as [[u w']|e] eqn:He; cbn [fst];
        [|intros Hne; by destruct Hne].
      apply emitIntent_ok in He as (_ & _ & _ & _ & _ & _ & _ & ->). cbn.
      intros Hne; by destruct Hne.
    + rewrite step_executor by exact Hc. apply executor_call_authorization.
  - intros env c w. destruct (is_emit c) eqn:Hc.
    + destruct c; try discriminate Hc. unfold step, transact. cbn [dispatch].
      destruct (emitIntent _ _ _ _ w) as [[u w']|e] eqn:He; cbn [fst]; [|done].
      apply emitIntent_ok in He as (_ & _ & _ & _ & _ & _ & _ & ->). done.
    + rewrite step_executor by exact Hc. apply executor_call_addresses.
Qed.

Lemma relayer_authorization_is_owner_only_witness :
  authorizeRelayer (at_time 33 11) 33 (executor (world_with_intent 0))
  = Err (RequireFailed "Only owner can authorize relayers")
  /\ exists s',
       revokeRelayer (at_time 100 30) 33 (executor (world_submitted 0)) = Ok (tt, s')
       /\ submitIntent (at_time 33 31) 42 s' = Err UnauthorizedRelayer.
Proof.
  destruct (relayer_authorization_is_owner_only sampleRecover)
    as (Hother & _ & _ & Hrevoke & _).
  split.
  - apply Hother. vm_compute. intros E; discriminate E.
  - destruct (Hrevoke (at_time 100 30) 33 (executor (world_submitted 0)))
      as (s' & Hrun & _ & _ & _ & Hsub); [vm_compute; reflexivity|].
    exists s'. split; [exact Hrun|]. by apply Hsub.
Defined.

(** ** Signatures *)

Lemma N_to_le_bytes_length (n : nat) (x : N) : length (Keccak.N_to_le_bytes n x) = n.
Proof. revert x. induction n as [|n IH]; intros x; cbn; [reflexivity|by rewrite IH]. Qed.

Lemma le_bytes_round_trip (n : nat) (x : N) :
  Keccak.le_bytes_to_N (Keccak.N_to_le_bytes n x) = x mod 256 ^ N.of_nat n.
Proof.
  revert x. induction n as [|n IH]; intros x.
  - cbn. by rewrite N.mod_1_r.
  - cbn [Keccak.N_to_le_bytes Keccak.le_bytes_to_N]. rewrite IH.
    rewrite Nat2N.inj_succ, N.pow_succ_r by lia.
    rewrite (N.Div0.mod_mul_r x 256 (256 ^ N.of_nat n)). lia.
Qed.

Lemma be_bytes_snoc (l : list N) (b : N) :
  Keccak.be_bytes_to_N (l ++ [b]) = Keccak.be_bytes_to_N l * 256 + b.
Proof. unfold Keccak.be_bytes_to_N. by rewrite fold_left_app. Qed.

Lemma be_bytes_rev (l : list N) :
  Keccak.be_bytes_to_N (rev l) = Keccak.le_bytes_to_N l.
Proof.
  induction l as [|b l IH]; [reflexivity|].
  cbn [rev Keccak.le_bytes_to_N]. rewrite be_bytes_snoc, IH. lia.
Qed.

Lemma word_length (x : N) : length (word x) = 32%nat.
Proof. unfold word. by rewrite length_rev, N_to_le_bytes_length. Qed.

(** A [uint256] survives its 32-byte big-endian encoding. *)
Lemma word_round_trip (x : N) : x <= MAX_UINT256 -> Keccak.be_bytes_to_N (word x) = x.
Proof.
  intros Hx. unfold word. rewrite be_bytes_rev, le_bytes_round_trip.
  apply N.mod_small. unfold MAX_UINT256 in Hx.
  change (256 ^ N.of_nat 32) with (115792089237316195423570985008687907853269984665640564039457584007913129639936).
  lia.
Qed.

Lemma verifyIntentSignature_unfold ecr env d sig :
  verifyIntentSignature ecr env d sig
  = match splitSignature sig with
    | Err e => Err e
    | Ok (r, s, v) =>
        if decide (ecr (intent_digest env d) v r s ≠ 0)
        then Ok (ecr (intent_digest env d) v r s)
        else Err (RequireFailed "Invalid signature")
    end.
Proof.
  unfold verifyIntentSignature, intent_digest. cbv zeta.
  destruct (splitSignature sig) as [[[r s] v]|e]; reflexivity.
Qed.

(** X23: what [verifyIntentSignature] accepts. A signature that is not 65
    bytes long is refused with "Invalid signature length". A 65-byte
    signature is read as [r] (bytes 0 to 31), [s] (bytes 32 to 63) and [v]
    (byte 64), exactly the values it was built from; the result is the
    address [ecrecover] gives for the intent's EIP-712 digest and these
    values, and "Invalid signature" when that address is zero. So the
    function never returns the zero address. *)
Theorem verifyIntentSignature_gates
    (ecrecover : N -> N -> N -> N -> N) (env : Env) (d : IntentData.t) :
  (forall sig,
     length sig ≠ 65%nat ->
     verifyIntentSignature ecrecover env d sig
     = Err (RequireFailed "Invalid signature length"))
  /\ (forall r s v,
        r <= MAX_UINT256 -> s <= MAX_UINT256 ->
        splitSignature (signature_of r s v) = Ok (r, s, v)
        /\ verifyIntentSignature ecrecover env d (signature_of r s v)
           = if decide (ecrecover (intent_digest env d) v r s = 0)
             then Err (RequireFailed "Invalid signature")
             else Ok (ecrecover (intent_digest env d) v r s))
  /\ (forall sig signer,
        verifyIntentSignature ecrecover env d sig = Ok signer ->
        signer ≠ 0 /\ length sig = 65%nat).
Proof.
  split; [|split].
  - intros sig Hlen. rewrite verifyIntentSignature_unfold. unfold splitSignature.
    rewrite decide_False by exact Hlen. reflexivity.
  - intros r s v Hr Hs.
    assert (Hsplit : splitSignature (signature_of r s v) = Ok (r, s, v)).
    { unfold splitSignature, signature_of.
      rewrite decide_True
        by (rewrite !length_app, !word_length; reflexivity).
      rewrite (take_app_length' (word r)) by (symmetry; apply word_length).
      rewrite (drop_app_length' (word r)) by (symmetry; apply word_length).
      rewrite (take_app_length' (word s)) by (symmetry; apply word_length).
      rewrite !word_round_trip by assumption.
      rewrite app_assoc, app_nth2
        by (rewrite length_app, !word_length; lia).
      rewrite length_app, !word_length. reflexivity. }
    split; [exact Hsplit|].
    rewrite verifyIntentSignature_unfold, Hsplit.
    destruct (decide (ecrecover (intent_digest env d) v r s = 0)) as [Hz|Hz].
    + rewrite decide_False by (intros Hn; exact (Hn Hz)). reflexivity.
    + rewrite decide_True by exact Hz. reflexivity.
  - intros sig signer. rewrite verifyIntentSignature_unfold. unfold splitSignature.
    destruct (decide (length sig = 65%nat)) as [Hlen|Hlen]; [|intros E; discriminate E].
    case_decide as Hz; [|intros E; discriminate E].
    intros [= <-]. auto.
Qed.

Lemma verifyIntentSignature_gates_witness :
  splitSignature (signature_of 7 8 27) = Ok (7, 8, 27)
  /\ verifyIntentSignature sampleRecover (at_time 1 10) (sampleIntent 42 0 0)
       (signature_of 7 8 27) = Ok 77.
Proof.
  destruct (verifyIntentSignature_gates sampleRecover (at_time 1 10) (sampleIntent 42 0 0))
    as (_ & Hsplit & _).
  destruct (Hsplit 7 8 27) as [H1 H2].
  - vm_compute. intros E; discriminate E.
  - vm_compute. intros E; discriminate E.
  - split; [exact H1|]. rewrite H2. reflexivity.
Defined.

(** ** NomadBridge *)

Ltac unfold_nomad :=
  unfold NB.sendMessage, NB.receive, NB.isChainSupported, NB.receiveMessage,
    NB.getMessageStatus, NB.setNomadCoreContract, NB.setNomadDomain, NB.withdrawFees,
    NB.onlyOwner, NB.getBalance in *.

Lemma estimateFee_run (dest : N) (message : list N) (s : NB.State) :
  nomad_fee (N.of_nat (length message)) <= MAX_UINT256 ->
  NB.estimateFee dest message s = Ok (nomad_fee (N.of_nat (length message)), s).
Proof.
  unfold nomad_fee. intros Hfit. unfold NB.estimateFee. unfold_monad.
  assert (Hmax : 3000000000000000 <= MAX_UINT256) by (unfold MAX_UINT256; lia).
  rewrite mul256_fits by lia. rewrite mul256_fits by lia.
  rewrite mul256_fits by lia. rewrite add256_fits by lia. rewrite add256_fits by lia.
  do 2 f_equal. lia.
Qed.

(** [estimateFee] reads no storage. *)
Lemma estimateFee_pure dest message s v s' :
  NB.estimateFee dest message s = Ok (v, s') ->
  s' = s /\ forall s2, NB.estimateFee dest message s2 = Ok (v, s2).
Proof.
  unfold NB.estimateFee. unfold_monad.
  destruct (mul256 (N.of_nat (length message)) 100) as [a|e]; [|intros E; discriminate E].
  destruct (mul256 a 1000000000) as [b|e]; [|intros E; discriminate E].
  destruct (mul256 100000 20000000000) as [c|e]; [|intros E; discriminate E].
  destruct (add256 1000000000000000 c) as [d|e]; [|intros E; discriminate E].
  destruct (add256 d b) as [f|e]; [|intros E; discriminate E].
  intros [= <- <-]. split; reflexivity.
Qed.

Lemma estimateFee_err dest message s e :
  NB.estimateFee dest message s = Err e -> e = Panic 0x11.
Proof.
  assert (Hmul : forall a b e', mul256 a b = Err e' -> e' = Panic 0x11).
  { intros a b e'. unfold mul256. destruct (decide _); congruence. }
  unfold NB.estimateFee. unfold_monad.
  destruct (mul256 (N.of_nat (length message)) 100) as [a|e1] eqn:H1;
    [|intros [= <-]; by apply Hmul in H1].
  destruct (mul256 a 1000000000) as [b|e2] eqn:H2;
    [|intros [= <-]; by apply Hmul in H2].
  destruct (mul256 100000 20000000000) as [c|e3] eqn:H3;
    [|intros [= <-]; by apply Hmul in H3].
  destruct (add256 1000000000000000 c) as [d|e4] eqn:H4;
    [|intros [= <-]; by apply add256_err in H4].
  destruct (add256 d b) as [f|e5] eqn:H5;
    [intros E; discriminate E|intros [= <-]; by apply add256_err in H5].
Qed.

(** What a successful [sendMessage] checked and wrote. *)
Lemma sendMessage_ok env dest rcp message v s id s' :
  NB.sendMessage env dest rcp message v s = Ok (id, s') ->
  rd 0 (NB.nomadDomains s) dest ≠ 0
  /\ rcp ≠ 0
  /\ (exists f, NB.estimateFee dest message s = Ok (f, s) /\ f <= v)
  /\ id = NB.newMessageId env rcp message (NB.nextMessageId s)
  /\ s' = NB.mkState (NB.nomadCoreContracts s) (NB.nomadDomains s) (NB.owner s)
            (NB.nextMessageId s + 1)
            (<[id := NB.mkMessage (block_chainid env) dest (msg_sender env) rcp message
                       (block_timestamp env) v]> (NB.messages s))
            (<[id := 0]> (NB.messageStatuses s))
            (NB.balance s + v)
            (NB.MessageSent id dest (msg_sender env) rcp message v :: NB.events s).
Proof.
  unfold_nomad. unfold_monad. exec.
  intros [= <- <-]. tidy.
  match goal with H : NB.estimateFee _ _ _ = Ok _ |- _ =>
    apply estimateFee_pure in H as [-> Hfee] end.
  cbn in *.
  split; [assumption|]. split; [assumption|].
  split; [eexists; split; [apply Hfee|assumption]|].
  split; reflexivity.
Qed.

Lemma sendMessage_never_domain env dest rcp message v s :
  NB.sendMessage env dest rcp message v s ≠ Err (RequireFailed "Domain not configured").
Proof.
  intros H. revert H. unfold_nomad. unfold_monad. exec.
  all: intros E; tidy;
    repeat match goal with
    | H : add256 _ _ = Err _ |- _ => apply add256_err in H; subst
    end;
    first [discriminate E | congruence | idtac].
  all: match goal with
       | H : NB.estimateFee _ _ _ = Ok _ |- _ =>
           apply estimateFee_pure in H as [-> _]; cbn in *; congruence
       | H : NB.estimateFee _ _ _ = Err _ |- _ =>
           apply estimateFee_err in H; subst; discriminate E
       end.
Qed.

(** X24: the gates of [NomadBridge.sendMessage] and the fee it charges. The
    required fee is 0.003 ether plus 100 gwei per message byte. A chain
    without a Nomad domain is refused with "Chain not supported", the zero
    recipient with "Invalid recipient", a payment below the fee with
    "Insufficient fee"; otherwise the message is stored under the id the
    call returns with status 0 (pending), the whole payment is kept as its
    fee and the message counter advances by one. The later "Domain not
    configured" check can never fail. *)
Theorem sendMessage_gates
    (env : Env) (destinationChainId recipient : N) (message : list N) (msg_value : N)
    (s : NB.State) :
  NB.balance s + msg_value <= MAX_UINT256 ->
  NB.nextMessageId s + 1 <= MAX_UINT256 ->
  nomad_fee (N.of_nat (length message)) <= MAX_UINT256 ->
  NB.estimateFee destinationChainId message s
  = Ok (nomad_fee (N.of_nat (length message)), s)
  /\ (rd 0 (NB.nomadDomains s) destinationChainId = 0 ->
      NB.sendMessage env destinationChainId recipient message msg_value s
      = Err (RequireFailed "Chain not supported"))
  /\ (rd 0 (NB.nomadDomains s) destinationChainId ≠ 0 -> recipient = 0 ->
      NB.sendMessage env destinationChainId recipient message msg_value s
      = Err (RequireFailed "Invalid recipient"))
  /\ (rd 0 (NB.nomadDomains s) destinationChainId ≠ 0 -> recipient ≠ 0 ->
      msg_value < nomad_fee (N.of_nat (length message)) ->
      NB.sendMessage env destinationChainId recipient message msg_value s
      = Err (RequireFailed "Insufficient fee"))
  /\ (rd 0 (NB.nomadDomains s) destinationChainId ≠ 0 -> recipient ≠ 0 ->
      nomad_fee (N.of_nat (length message)) <= msg_value ->
      exists s',
        NB.sendMessage env destinationChainId recipient message msg_value s
        = Ok (NB.newMessageId env recipient message (NB.nextMessageId s), s')
        /\ rd NB.zeroMessage (NB.messages s')
              (NB.newMessageId env recipient message (NB.nextMessageId s))
           = NB.mkMessage (block_chainid env) destinationChainId (msg_sender env)
                          recipient message (block_timestamp env) msg_value
        /\ rd 0 (NB.messageStatuses s')
              (NB.newMessageId env recipient message (NB.nextMessageId s)) = 0
        /\ NB.nextMessageId s' = NB.nextMessageId s + 1
        /\ NB.balance s' = NB.balance s + msg_value)
  /\ NB.sendMessage env destinationChainId recipient message msg_value s
     ≠ Err (RequireFailed "Domain not configured").
Proof.
  intros Hbal Hnext Hfee.
  assert (Hprefix : forall k : M NB.State N,
            (let* _ := NB.receive msg_value in k) s
            = k (NB.mkState (NB.nomadCoreContracts s) (NB.nomadDomains s) (NB.owner s)
                   (NB.nextMessageId s) (NB.messages s) (NB.messageStatuses s)
                   (NB.balance s + msg_value) (NB.events s))).
  { intros k. unfold NB.receive. unfold_monad. cbn.
    rewrite add256_fits by exact Hbal. reflexivity. }
  split; [by apply estimateFee_run|].
  split; [|split; [|split; [|split]]].
  - intros Hdom. unfold NB.sendMessage. rewrite Hprefix.
    unfold NB.isChainSupported. unfold_monad. cbn.
    rewrite bool_decide_eq_true_2 by exact Hdom. reflexivity.
  - intros Hdom Hr. unfold NB.sendMessage. rewrite Hprefix.
    unfold NB.isChainSupported. unfold_monad. cbn.
    rewrite bool_decide_eq_false_2 by exact Hdom. cbn.
    rewrite bool_decide_eq_true_2 by exact Hr. reflexivity.
  - intros Hdom Hr Hlow. unfold NB.sendMessage. rewrite Hprefix.
    unfold NB.isChainSupported. unfold_monad. cbn.
    rewrite bool_decide_eq_false_2 by exact Hdom. cbn.
    rewrite bool_decide_eq_false_2 by exact Hr. cbn.
    rewrite add256_fits by exact Hnext. cbn.
    rewrite estimateFee_run by exact Hfee.
    rewrite bool_decide_eq_false_2 by lia. reflexivity.
  - intros Hdom Hr Hpaid.
    assert (Hrun : exists s',
              NB.sendMessage env destinationChainId recipient message msg_value s
              = Ok (NB.newMessageId env recipient message (NB.nextMessageId s), s')).
    { unfold NB.sendMessage. rewrite Hprefix.
      unfold NB.isChainSupported. unfold_monad. cbn.
      rewrite bool_decide_eq_false_2 by exact Hdom. cbn.
      rewrite bool_decide_eq_false_2 by exact Hr. cbn.
      rewrite add256_fits by exact Hnext. cbn.
      rewrite estimateFee_run by exact Hfee.
      rewrite bool_decide_eq_true_2 by exact Hpaid. cbn.
      rewrite bool_decide_eq_false_2 by exact Hdom. cbn.
      eexists. reflexivity. }
    destruct Hrun as [s' Hrun]. exists s'. split; [exact Hrun|].
    apply sendMessage_ok in Hrun as (_ & _ & _ & _ & ->). cbn.
    rewrite !rd_insert_eq. done.
  - apply sendMessage_never_domain.
Qed.

Lemma sendMessage_gates_witness :
  NB.sendMessage (at_time 8 50) 137 500 [1; 2; 3] 3000000000000000 (NB.init 9)
  = Err (RequireFailed "Insufficient fee")
  /\ NB.sendMessage (at_time 8 50) 5 500 [1; 2; 3] 3000300000000000 (NB.init 9)
     = Err (RequireFailed "Chain not supported")
  /\ exists s',
       NB.sendMessage (at_time 8 50) 137 500 [1; 2; 3] 3000300000000000 (NB.init 9)
       = Ok (NB.newMessageId (at_time 8 50) 500 [1; 2; 3] 1, s')
       /\ NB.balance s' = 0 + 3000300000000000.
Proof.
  assert (H1 : NB.balance (NB.init 9) + 3000000000000000 <= MAX_UINT256)
    by (vm_compute; intros E; discriminate E).
  assert (H2 : NB.balance (NB.init 9) + 3000300000000000 <= MAX_UINT256)
    by (vm_compute; intros E; discriminate E).
  assert (H3 : NB.nextMessageId (NB.init 9) + 1 <= MAX_UINT256)
    by (vm_compute; intros E; discriminate E).
  assert (H4 : nomad_fee (N.of_nat (length [1; 2; 3])) <= MAX_UINT256)
    by (vm_compute; intros E; discriminate E).
  destruct (sendMessage_gates (at_time 8 50) 137 500 [1; 2; 3] 3000000000000000
              (NB.init 9) H1 H3 H4) as (_ & _ & _ & Hlow & _).
  destruct (sendMessage_gates (at_time 8 50) 5 500 [1; 2; 3] 3000300000000000
              (NB.init 9) H2 H3 H4) as (_ & Hchain & _).
  destruct (sendMessage_gates (at_time 8 50) 137 500 [1; 2; 3] 3000300000000000
              (NB.init 9) H2 H3 H4) as (_ & _ & _ & _ & Hok & _).
  split; [|split].
  - apply Hlow; vm_compute; first [reflexivity | intros E; discriminate E].
  - apply Hchain. vm_compute. reflexivity.
  - destruct Hok as (s' & Hrun & _ & _ & _ & Hb).
    + vm_compute. intros E; discriminate E.
    + intros E; discriminate E.
    + vm_compute. intros E; discriminate E.
    + exists s'. exact (conj Hrun Hb).
Defined.

(** X25: the chain tables of the bridge agree at deployment, and only the
    owner can change them. Right after construction a chain is accepted by
    [isChainSupported] exactly when it is one of the six chains
    [getSupportedChains] lists, and [getChainIdFromDomain] maps each listed
    chain's domain back to the chain. [setNomadDomain] reverts with
    "Only owner" for any other caller; for the owner it makes
    [isChainSupported] accept the chain when the domain is not zero, also a
    chain [getSupportedChains] does not list. *)
Theorem nomad_chain_tables (deployer : N) :
  (forall c,
     NB.isChainSupported c (NB.init deployer)
     = Ok (bool_decide (c ∈ NB.getSupportedChains), NB.init deployer))
  /\ (forall c,
        c ∈ NB.getSupportedChains ->
        NB.getChainIdFromDomain (rd 0 (NB.nomadDomains (NB.init deployer)) c) = c)
  /\ (forall env c d s,
        msg_sender env ≠ NB.owner s ->
        NB.setNomadDomain env c d s = Err (RequireFailed "Only owner"))
  /\ (forall env c d s,
        msg_sender env = NB.owner s -> d ≠ 0 ->
        exists s',
          NB.setNomadDomain env c d s = Ok (tt, s')
          /\ NB.isChainSupported c s' = Ok (true, s')
          /\ NB.owner s' = NB.owner s).
Proof.
  split; [|split; [|split]].
  - intros c. unfold NB.isChainSupported. unfold_monad. cbn. f_equal. f_equal.
    destruct (decide (c ∈ NB.getSupportedChains)) as [Hin|Hout].
    + rewrite (bool_decide_eq_true_2 _ Hin). unfold NB.getSupportedChains in Hin.
      rewrite !elem_of_cons, elem_of_nil in Hin.
      repeat destruct Hin as [Hin|Hin]; try (by destruct Hin); subst;
        vm_compute; reflexivity.
    + rewrite (bool_decide_eq_false_2 _ Hout).
      unfold NB.getSupportedChains in Hout. rewrite !elem_of_cons, elem_of_nil in Hout.
      rewrite !rd_insert, rd_empty.
      repeat (case_decide as Hk; [exfalso; apply Hout; rewrite <- Hk; tauto|clear Hk]).
      reflexivity.
  - intros c Hc. unfold NB.getSupportedChains in Hc.
    rewrite !elem_of_cons, elem_of_nil in Hc.
    repeat destruct Hc as [Hc|Hc]; try (by destruct Hc); subst; vm_compute; reflexivity.
  - intros env c d s Hs. unfold NB.setNomadDomain, NB.onlyOwner. unfold_monad. cbn.
    rewrite bool_decide_eq_false_2 by exact Hs. reflexivity.
  - intros env c d s Hs Hd.
    unfold NB.setNomadDomain, NB.onlyOwner, NB.isChainSupported. unfold_monad. cbn.
    rewrite bool_decide_eq_true_2 by exact Hs. cbn.
    eexists. split; [reflexivity|]. cbn. rewrite rd_insert_eq.
    rewrite bool_decide_eq_false_2 by exact Hd. done.
Qed.

Lemma nomad_chain_tables_witness :
  NB.getChainIdFromDomain (rd 0 (NB.nomadDomains (NB.init 9)) 43114) = 43114
  /\ exists s', NB.setNomadDomain (at_time 9 60) 250 7 (NB.init 9) = Ok (tt, s')
                /\ NB.isChainSupported 250 s' = Ok (true, s').
Proof.
  destruct (nomad_chain_tables 9) as (_ & Hback & _ & Hset).
  split.
  - apply Hback. unfold NB.getSupportedChains.
    repeat first [apply list_elem_of_here | apply list_elem_of_further].
  - destruct (Hset (at_time 9 60) 250 7 (NB.init 9)) as (s' & H1 & H2 & _).
    + reflexivity.
    + intros E; discriminate E.
    + exists s'. exact (conj H1 H2).
Defined.

(** X26: the collected fees go to the owner only, and all at once.
    [withdrawFees] reverts with "Only owner" for any other caller and with
    "No fees to withdraw" on an empty balance; for the owner, when the
    account accepts the transfer, it empties the balance and changes nothing
    else; a refused transfer reverts. *)
Theorem withdrawFees_gates (env : Env) (s : NB.State) :
  (msg_sender env ≠ NB.owner s ->
   forall accepts, NB.withdrawFees env accepts s = Err (RequireFailed "Only owner"))
  /\ (msg_sender env = NB.owner s ->
      (NB.balance s = 0 ->
       forall accepts,
         NB.withdrawFees env accepts s = Err (RequireFailed "No fees to withdraw"))
      /\ (0 < NB.balance s ->
          NB.withdrawFees env false s = Err TransferFailed
          /\ NB.withdrawFees env true s
             = Ok (tt, NB.mkState (NB.nomadCoreContracts s) (NB.nomadDomains s)
                         (NB.owner s) (NB.nextMessageId s) (NB.messages s)
                         (NB.messageStatuses s) 0 (NB.events s)))).
Proof.
  split; [|intros Hs; split].
  - intros Hs accepts. unfold NB.withdrawFees, NB.onlyOwner. unfold_monad. cbn.
    rewrite bool_decide_eq_false_2 by exact Hs. reflexivity.
  - intros Hb accepts. unfold NB.withdrawFees, NB.onlyOwner. unfold_monad. cbn.
    rewrite bool_decide_eq_true_2 by exact Hs. cbn.
    rewrite bool_decide_eq_false_2 by lia. reflexivity.
  - intros Hb. unfold NB.withdrawFees, NB.onlyOwner. unfold_monad. cbn.
    rewrite bool_decide_eq_true_2 by exact Hs. cbn.
    rewrite bool_decide_eq_true_2 by exact Hb. cbn. split; reflexivity.
Qed.

Lemma withdrawFees_gates_witness :
  NB.withdrawFees (at_time 8 70) true (NB.init 9) = Err (RequireFailed "Only owner")
  /\ NB.withdrawFees (at_time 9 70) true (NB.init 9)
     = Err (RequireFailed "No fees to withdraw").
Proof.
  split.
  - apply (proj1 (withdrawFees_gates (at_time 8 70) (NB.init 9))).
    intros E; discriminate E.
  - apply (proj2 (withdrawFees_gates (at_time 9 70) (NB.init 9))); reflexivity.
Defined.

(** ** The executor's bridge functions *)

Lemma collectChains_spec (s : BR.Store) (chains temp : list N) (count : nat) :
  (count + length chains <= length temp)%nat ->
  take (snd (BR.collectChains s chains temp count))
       (fst (BR.collectChains s chains temp count))
  = take count temp ++ filter (fun c => BR.bridgeOf s c ≠ 0) chains.
Proof.
  revert temp count. induction chains as [|c rest IH]; intros temp count Hlen.
  - cbn. by rewrite app_nil_r.
  - cbn [BR.collectChains]. cbn [length] in Hlen.
    rewrite decide_True by lia.
    destruct (decide (BR.bridgeOf s c ≠ 0)) as [Hc|Hc].
    + rewrite IH by (rewrite length_insert; lia).
      rewrite filter_cons_True by exact Hc.
      rewrite (take_S_r _ _ c) by (apply list_lookup_insert_eq; lia).
      rewrite take_insert_ge by lia.
      by rewrite <- app_assoc.
    + rewrite IH by lia. by rewrite filter_cons_False.
Qed.

Lemma getSupportedChains_filter (s : BR.Store) :
  BR.getSupportedChains s = filter (fun c => BR.bridgeOf s c ≠ 0) BR.commonChains.
Proof.
  unfold BR.getSupportedChains.
  pose proof (collectChains_spec s BR.commonChains (repeat 0 10) 0) as H.
  destruct (BR.collectChains s BR.commonChains (repeat 0 10) 0) as [temp count].
  cbn [fst snd] in H. rewrite H by (cbn; lia). reflexivity.
Qed.

Lemma isValidBridge_spec (s : BR.Store) (chains : list N) (caller : N) :
  BR.isValidBridge s chains caller = true
  <-> exists c, c ∈ chains /\ BR.bridgeOf s c = caller.
Proof.
  induction chains as [|a chains IH]; cbn.
  - split; [intros E; discriminate E|]. intros (c & Hc & _). by apply elem_of_nil in Hc.
  - case_decide as Ha.
    + split; [|reflexivity]. intros _. exists a. split; [apply list_elem_of_here|exact Ha].
    + rewrite IH. split.
      * intros (c & Hc & Hb). exists c. split; [by apply list_elem_of_further|exact Hb].
      * intros (c & Hc & Hb). apply elem_of_cons in Hc as [->|Hc]; [by destruct Ha|].
        by exists c.
Qed.

(** X27: which chains the executor supports, and who decides. The list
    [getSupportedChains] builds is the ten common chain ids filtered by
    "has a bridge": a chain is listed exactly when it is one of the ten and
    its bridge is set, in the order of the ten. [setChainBridge] reverts with
    "Only owner can set bridges" unless the caller is the owner, and with
    "Invalid bridge contract" for the zero address; otherwise it sets the
    bridge of that one chain. *)
Theorem supported_chains_are_configured_common_chains
    (core : State) (env : Env) (s : BR.Store) :
  BR.getSupportedChains s = filter (fun c => BR.bridgeOf s c ≠ 0) BR.commonChains
  /\ (forall c, c ∈ BR.getSupportedChains s
                <-> c ∈ BR.commonChains /\ BR.bridgeOf s c ≠ 0)
  /\ (forall chainId bridgeContract,
        msg_sender env ≠ agentRegistry core ->
        BR.setChainBridge core env chainId bridgeContract s
        = Err (RequireFailed "Only owner can set bridges"))
  /\ (forall chainId,
        msg_sender env = agentRegistry core ->
        BR.setChainBridge core env chainId 0 s
        = Err (RequireFailed "Invalid bridge contract"))
  /\ (forall chainId bridgeContract,
        msg_sender env = agentRegistry core -> bridgeContract ≠ 0 ->
        exists s',
          BR.setChainBridge core env chainId bridgeContract s = Ok (tt, s')
          /\ BR.bridgeOf s' chainId = bridgeContract
          /\ (forall c, c ≠ chainId -> BR.bridgeOf s' c = BR.bridgeOf s c)
          /\ BR.bridgeMessages s' = BR.bridgeMessages s
          /\ (chainId ∈ BR.getSupportedChains s' <-> chainId ∈ BR.commonChains)).
Proof.
  split; [apply getSupportedChains_filter|]. split; [|split; [|split]].
  - intros c. rewrite getSupportedChains_filter, list_elem_of_filter. tauto.
  - intros chainId b Hs. unfold BR.setChainBridge, owner. unfold_monad. cbn.
    rewrite bool_decide_eq_false_2 by exact Hs. reflexivity.
  - intros chainId Hs. unfold BR.setChainBridge, owner. unfold_monad. cbn.
    rewrite bool_decide_eq_true_2 by exact Hs. reflexivity.
  - intros chainId b Hs Hb. unfold BR.setChainBridge, owner. unfold_monad. cbn.
    rewrite bool_decide_eq_true_2 by exact Hs. cbn.
    rewrite bool_decide_eq_false_2 by exact Hb. cbn.
    eexists. split; [reflexivity|].
    unfold BR.bridgeOf. cbn. rewrite rd_insert_eq.
    split; [reflexivity|]. split; [intros c Hc; by rewrite rd_insert_ne|].
    split; [reflexivity|].
    rewrite getSupportedChains_filter, list_elem_of_filter.
    unfold BR.bridgeOf. cbn. rewrite rd_insert_eq. tauto.
Qed.

Lemma supported_chains_are_configured_common_chains_witness :
  BR.getSupportedChains (BR.store sampleNet) = [137]
  /\ exists s',
       BR.setChainBridge (init 100 200) (at_time 100 21) 250 600
         (BR.store sampleNet) = Ok (tt, s')
       /\ BR.bridgeOf s' 250 = 600
       /\ 250 ∉ BR.getSupportedChains s'.
Proof.
  destruct (supported_chains_are_configured_common_chains (init 100 200)
              (at_time 100 21) (BR.store sampleNet)) as (Hf & _ & _ & _ & Hset).
  split.
  - rewrite Hf. vm_compute. reflexivity.
  - destruct (Hset 250 600) as (s' & Hrun & Hb & _ & _ & Hiff).
    + vm_compute. reflexivity.
    + intros E; discriminate E.
    + exists s'. split; [exact Hrun|]. split; [exact Hb|].
      intros Hin. apply Hiff in Hin. unfold BR.commonChains in Hin.
      rewrite !elem_of_cons, elem_of_nil in Hin.
      repeat destruct Hin as [Hin|Hin]; try discriminate Hin. exact Hin.
Defined.

(** The caller test of [receiveBridgeMessage], over the list that
    [getSupportedChains] returns. *)
Lemma isValidBridge_supported (s : BR.Store) (caller : N) :
  BR.isValidBridge s (BR.getSupportedChains s) caller = true
  <-> exists c, c ∈ BR.commonChains /\ caller ≠ 0 /\ BR.bridgeOf s c = caller.
Proof.
  rewrite isValidBridge_spec. split.
  - intros (c & Hc & Hb). rewrite getSupportedChains_filter in Hc.
    apply list_elem_of_filter in Hc as [Hne Hc]. exists c. rewrite <- Hb. auto.
  - intros (c & Hc & Hne & Hb). exists c. split; [|exact Hb].
    rewrite getSupportedChains_filter. apply list_elem_of_filter.
    rewrite Hb. auto.
Qed.

Lemma receiveBridgeMessage_run
    (env : Env) (id sourceChainId sender : N) (msg : list N) (s : BR.Store) :
  BR.isValidBridge s (BR.getSupportedChains s) (msg_sender env) = true ->
  BR.receiveBridgeMessage env id sourceChainId sender msg s
  = Ok (tt, BR.mkStore (BR.chainBridges s)
              (<[id := BR.with_executed true (BR.message s id)]> (BR.bridgeMessages s))
              (BR.BridgeMessageReceived id sourceChainId (this env) msg :: BR.events s)).
Proof.
  intros Hv. unfold BR.receiveBridgeMessage. unfold_monad. cbn. rewrite Hv. reflexivity.
Qed.

(** X28: only a bridge of a supported chain can deliver a message.
    [receiveBridgeMessage] succeeds exactly when the caller is the bridge the
    executor holds for one of the ten common chains, and otherwise reverts
    with "Unauthorized bridge": a bridge set for any other chain cannot
    deliver. On success the message under the id is marked executed, whether
    or not such a message was ever sent, and nothing else of the bridge
    storage changes. *)
Theorem receiveBridgeMessage_authorization
    (env : Env) (id sourceChainId sender : N) (msg : list N) (s : BR.Store) :
  ((exists c, c ∈ BR.commonChains /\ msg_sender env ≠ 0 /\ BR.bridgeOf s c = msg_sender env)
   -> BR.receiveBridgeMessage env id sourceChainId sender msg s
      = Ok (tt, BR.mkStore (BR.chainBridges s)
                  (<[id := BR.with_executed true (BR.message s id)]> (BR.bridgeMessages s))
                  (BR.BridgeMessageReceived id sourceChainId (this env) msg :: BR.events s)))
  /\ (¬ (exists c, c ∈ BR.commonChains /\ msg_sender env ≠ 0
                   /\ BR.bridgeOf s c = msg_sender env)
      -> BR.receiveBridgeMessage env id sourceChainId sender msg s
         = Err (RequireFailed "Unauthorized bridge")).
Proof.
  split.
  - intros Hex. apply receiveBridgeMessage_run. by apply isValidBridge_supported.
  - intros Hno. unfold BR.receiveBridgeMessage. unfold_monad. cbn.
    destruct (BR.isValidBridge s (BR.getSupportedChains s) (msg_sender env)) eqn:Hv;
      [|reflexivity].
    destruct Hno. by apply isValidBridge_supported.
Qed.

Lemma receiveBridgeMessage_authorization_witness :
  BR.receiveBridgeMessage (at_time 601 30) 5 1 2 [] (BR.store sampleNet)
  = Err (RequireFailed "Unauthorized bridge")
  /\ BR.executed (BR.message
       (fst (transact (BR.receiveBridgeMessage (at_time 600 30) 5 1 2 [])
                      (BR.store sampleNet))) 5) = true.
Proof.
  destruct (receiveBridgeMessage_authorization (at_time 601 30) 5 1 2 []
              (BR.store sampleNet)) as [_ Hno].
  destruct (receiveBridgeMessage_authorization (at_time 600 30) 5 1 2 []
              (BR.store sampleNet)) as [Hyes _].
  split.
  - apply Hno. intros (c & Hc & _ & Hb). unfold BR.commonChains in Hc.
    rewrite !elem_of_cons, elem_of_nil in Hc.
    destruct Hc as [->|[->|[->|[->|[->|[->|[->|[->|[->|[->|[]]]]]]]]]]];
      vm_compute in Hb; discriminate Hb.
  - unfold transact. rewrite Hyes.
    + cbn [fst]. unfold BR.message. cbn. rewrite rd_insert_eq. reflexivity.
    + exists 137. split.
      { unfold BR.commonChains.
        repeat first [apply list_elem_of_here | apply list_elem_of_further]. }
      split; [intros E; discriminate E|]. vm_compute. reflexivity.
Defined.

Lemma message_store (cb : gmap N N) (bm : gmap N BR.BridgeMessage) (ev : list BR.Event)
    (k id : N) (x : BR.BridgeMessage) :
  BR.message (BR.mkStore cb (<[k := x]> bm) ev) id
  = if decide (k = id) then x else rd BR.zeroBridgeMessage bm id.
Proof. unfold BR.message. cbn. apply rd_insert. Qed.

(** What [sendBridgeMessage] does around the bridge's [sendMessage]. *)
Lemma sendBridgeMessage_run env dest msg v n b :
  BR.bridgeOf (BR.store n) dest ≠ 0 ->
  BR.bridges n !! BR.bridgeOf (BR.store n) dest = Some b ->
  BR.sendBridgeMessage env dest msg v n
  = match NB.sendMessage
            (mkEnv (this env) (block_timestamp env) (block_chainid env)
                   (BR.bridgeOf (BR.store n) dest))
            dest (this env) msg v b with
    | Ok (id, b') =>
        Ok (id,
            BR.mkNet
              (BR.mkStore (BR.chainBridges (BR.store n))
                 (<[id := BR.mkBridgeMessage (block_chainid env) dest (msg_sender env)
                            msg 0 false id]> (BR.bridgeMessages (BR.store n)))
                 (BR.BridgeMessageSent id (block_chainid env) dest (msg_sender env) msg
                  :: BR.events (BR.store n)))
              (<[BR.bridgeOf (BR.store n) dest := b']> (BR.bridges n)))
    | Err e => Err e
    end.
Proof.
  intros Haddr Hb. unfold BR.sendBridgeMessage, BR.onBridge, BR.onStore. unfold_monad.
  cbn. rewrite bool_decide_eq_false_2 by exact Haddr. cbn. rewrite Hb.
  destruct (NB.sendMessage _ dest (this env) msg v b) as [[id b']|e]; reflexivity.
Qed.

(** X29: a message sent through the executor, from sending to delivery.
    [sendBridgeMessage] reverts with "Bridge not configured for chain"
    whenever the chain has no bridge, whatever is deployed. With a bridge
    deployed at the chain's bridge address it passes on every revert of the
    bridge's [sendMessage] (an underpaid fee among them) with nothing changed.
    When the bridge accepts, the executor is sender and recipient of the bridge's
    message, the executor records the message under the bridge's id with the
    caller as sender and not executed, and [getBridgeMessageStatus] reads 0
    (pending); once anyone has called the bridge's [receiveMessage] for the
    id, or the bridge has called [receiveBridgeMessage], it reads 1
    (delivered). *)
Theorem bridge_message_round_trip
    (env : Env) (destinationChainId : N) (msg : list N) (msg_value : N)
    (n : BR.Net) :
  (BR.bridgeOf (BR.store n) destinationChainId = 0 ->
   BR.sendBridgeMessage env destinationChainId msg msg_value n
   = Err (RequireFailed "Bridge not configured for chain"))
  /\ (forall b,
        BR.bridgeOf (BR.store n) destinationChainId ≠ 0 ->
        BR.bridges n !! BR.bridgeOf (BR.store n) destinationChainId = Some b ->
      forall e,
        NB.sendMessage
          (mkEnv (this env) (block_timestamp env) (block_chainid env)
                 (BR.bridgeOf (BR.store n) destinationChainId))
          destinationChainId (this env) msg msg_value b = Err e ->
        transact (BR.sendBridgeMessage env destinationChainId msg msg_value) n
        = (n, Err e))
  /\ (forall b,
        BR.bridgeOf (BR.store n) destinationChainId ≠ 0 ->
        BR.bridges n !! BR.bridgeOf (BR.store n) destinationChainId = Some b ->
      forall id b',
        NB.sendMessage
          (mkEnv (this env) (block_timestamp env) (block_chainid env)
                 (BR.bridgeOf (BR.store n) destinationChainId))
          destinationChainId (this env) msg msg_value b = Ok (id, b') ->
        id ≠ 0 ->
        exists n',
          BR.sendBridgeMessage env destinationChainId msg msg_value n = Ok (id, n')
          /\ BR.message (BR.store n') id
             = BR.mkBridgeMessage (block_chainid env) destinationChainId (msg_sender env)
                                  msg 0 false id
          /\ BR.bridges n' !! BR.bridgeOf (BR.store n) destinationChainId = Some b'
          /\ rd NB.zeroMessage (NB.messages b') id
             = NB.mkMessage (block_chainid env) destinationChainId (this env) (this env)
                            msg (block_timestamp env) msg_value
          /\ returned (BR.getBridgeMessageStatus id n') = Ok 0
          /\ (forall env' sourceDomain sender m,
                exists n'',
                  BR.onBridge (BR.bridgeOf (BR.store n) destinationChainId)
                    (NB.receiveMessage env' sourceDomain sender id m) n' = Ok (tt, n'')
                  /\ returned (BR.getBridgeMessageStatus id n'') = Ok 1)
          /\ (forall env' sourceChainId sender m,
                msg_sender env' = BR.bridgeOf (BR.store n) destinationChainId ->
                destinationChainId ∈ BR.commonChains ->
                exists s'',
                  BR.receiveBridgeMessage env' id sourceChainId sender m (BR.store n')
                  = Ok (tt, s'')
                  /\ returned (BR.getBridgeMessageStatus id (BR.mkNet s'' (BR.bridges n')))
                     = Ok 1)).
Proof.
  split; [|split].
  - intros Hz. unfold BR.sendBridgeMessage. unfold_monad. cbn.
    rewrite bool_decide_eq_true_2 by exact Hz. reflexivity.
  - intros b Haddr Hb e He. apply transact_err.
    rewrite (sendBridgeMessage_run _ _ _ _ _ _ Haddr Hb), He. reflexivity.
  - intros b Haddr Hb id b' Hsend Hid.
    pose proof (sendMessage_ok _ _ _ _ _ _ _ _ Hsend) as (_ & _ & _ & Hidv & Hb').
    eexists. split.
    { rewrite (sendBridgeMessage_run _ _ _ _ _ _ Haddr Hb), Hsend. reflexivity. }
    cbn [BR.store BR.bridges].
    assert (Hmsg : forall cb ev,
              BR.message
                (BR.mkStore cb
                   (<[id := BR.mkBridgeMessage (block_chainid env) destinationChainId
                              (msg_sender env) msg 0 false id]>
                      (BR.bridgeMessages (BR.store n))) ev) id
              = BR.mkBridgeMessage (block_chainid env) destinationChainId (msg_sender env)
                                   msg 0 false id).
    { intros cb ev. rewrite message_store, decide_True by reflexivity. reflexivity. }
    split; [apply Hmsg|].
    split; [apply lookup_insert_eq|].
    split.
    { rewrite Hb'. cbn. rewrite rd_insert_eq. reflexivity. }
    split; [|split].
    + unfold BR.getBridgeMessageStatus, BR.onBridge. unfold_monad. cbn.
      rewrite Hmsg. cbn. rewrite decide_False by exact Hid.
      unfold BR.bridgeOf in *. cbn. rewrite decide_True by exact Haddr.
      cbn [BR.bridges BR.store]. rewrite lookup_insert_eq. unfold NB.getMessageStatus. unfold_monad. cbn.
      rewrite Hb'. cbn. rewrite rd_insert_eq. reflexivity.
    + intros env' dom snd m. unfold BR.onBridge at 1. cbn [BR.bridges BR.store].
      rewrite lookup_insert_eq. unfold NB.receiveMessage. unfold_monad. cbn.
      eexists. split; [reflexivity|].
      unfold BR.getBridgeMessageStatus, BR.onBridge. unfold_monad. cbn.
      rewrite Hmsg. cbn. rewrite decide_False by exact Hid.
      unfold BR.bridgeOf in *. cbn. rewrite decide_True by exact Haddr.
      cbn [BR.bridges BR.store]. rewrite lookup_insert_eq. unfold NB.getMessageStatus. unfold_monad. cbn.
      rewrite rd_insert_eq. reflexivity.
    + intros env' src snd m Hcaller Hcommon.
      eexists. split.
      { apply receiveBridgeMessage_run. apply isValidBridge_supported.
        exists destinationChainId. split; [exact Hcommon|].
        rewrite Hcaller. split; [exact Haddr|reflexivity]. }
      unfold BR.getBridgeMessageStatus. unfold_monad. cbn.
      rewrite message_store. rewrite (decide_True (P := id = id)) by reflexivity.
      rewrite Hmsg. cbn. rewrite decide_False by exact Hid. reflexivity.
Qed.

Lemma bridge_message_round_trip_witness :
  BR.sendBridgeMessage (at_time 8 50) 5 [1; 2; 3] 3000300000000000 sampleNet
  = Err (RequireFailed "Bridge not configured for chain")
  /\ exists id n',
       BR.sendBridgeMessage (at_time 8 50) 137 [1; 2; 3] 3000300000000000 sampleNet
       = Ok (id, n')
       /\ returned (BR.getBridgeMessageStatus id n') = Ok 0.
Proof.
  split.
  - apply (proj1 (bridge_message_round_trip (at_time 8 50) 5 [1; 2; 3]
                    3000300000000000 sampleNet)).
    vm_compute. reflexivity.
  - assert (Hb : BR.bridges sampleNet !! BR.bridgeOf (BR.store sampleNet) 137
                 = Some (NB.init 9)) by (vm_compute; reflexivity).
    destruct (bridge_message_round_trip (at_time 8 50) 137 [1; 2; 3] 3000300000000000
                sampleNet) as (_ & _ & Hok).
    destruct (NB.sendMessage
                (mkEnv (this (at_time 8 50)) (block_timestamp (at_time 8 50))
                       (block_chainid (at_time 8 50))
                       (BR.bridgeOf (BR.store sampleNet) 137))
                137 (this (at_time 8 50)) [1; 2; 3] 3000300000000000 (NB.init 9))
      as [[id b']|e] eqn:Hsend.
    + destruct (Hok (NB.init 9) ltac:(vm_compute; intros E; discriminate E) Hb
                  id b' Hsend)
        as (n' & Hrun & _ & _ & _ & Hst & _).
      * revert Hsend. vm_compute. intros [= <- _] E. discriminate E.
      * exists id, n'. exact (conj Hrun Hst).
    + exfalso. revert Hsend. vm_compute. intros E. discriminate E.
Defined.

(** [sendMessage] by cases, when no addition overflows. *)
Lemma sendMessage_cases env dest rcp message v s :
  NB.balance s + v <= MAX_UINT256 ->
  NB.nextMessageId s + 1 <= MAX_UINT256 ->
  nomad_fee (N.of_nat (length message)) <= MAX_UINT256 ->
  NB.sendMessage env dest rcp message v s
  = if decide (rd 0 (NB.nomadDomains s) dest = 0)
    then Err (RequireFailed "Chain not supported")
    else if decide (rcp = 0) then Err (RequireFailed "Invalid recipient")
    else if decide (v < nomad_fee (N.of_nat (length message)))
    then Err (RequireFailed "Insufficient fee")
    else
      Ok (NB.newMessageId env rcp message (NB.nextMessageId s),
          NB.mkState (NB.nomadCoreContracts s) (NB.nomadDomains s) (NB.owner s)
            (NB.nextMessageId s + 1)
            (<[NB.newMessageId env rcp message (NB.nextMessageId s)
               := NB.mkMessage (block_chainid env) dest (msg_sender env) rcp message
                    (block_timestamp env) v]> (NB.messages s))
            (<[NB.newMessageId env rcp message (NB.nextMessageId s) := 0]>
               (NB.messageStatuses s))
            (NB.balance s + v)
            (NB.MessageSent (NB.newMessageId env rcp message (NB.nextMessageId s)) dest
               (msg_sender env) rcp message v :: NB.events s)).
Proof.
  intros Hbal Hnext Hfee.
  unfold NB.sendMessage, NB.receive, NB.isChainSupported. unfold_monad. cbn.
  rewrite add256_fits by exact Hbal. cbn.
  destruct (decide (rd 0 (NB.nomadDomains s) dest = 0)) as [Hdom|Hdom].
  { rewrite bool_decide_eq_true_2 by exact Hdom. reflexivity. }
  rewrite bool_decide_eq_false_2 by exact Hdom. cbn.
  destruct (decide (rcp = 0)) as [Hr|Hr].
  { rewrite bool_decide_eq_true_2 by exact Hr. reflexivity. }
  rewrite bool_decide_eq_false_2 by exact Hr. cbn.
  rewrite add256_fits by exact Hnext. cbn.
  rewrite estimateFee_run by exact Hfee.
  destruct (decide (v < nomad_fee (N.of_nat (length message)))) as [Hlow|Hpaid].
  { rewrite bool_decide_eq_false_2 by lia. reflexivity. }
  rewrite bool_decide_eq_true_2 by lia. cbn.
  rewrite bool_decide_eq_false_2 by exact Hdom. reflexivity.
Qed.

(** X30: the executor's fee estimate is the price of sending. For a chain
    without a bridge [estimateBridgeFee] returns 0; with a bridge it returns
    the bridge's fee, 0.003 ether plus 100 gwei per message byte, and reads
    only. A chain the executor has a bridge for but the bridge has no Nomad
    domain for cannot be sent to: [sendBridgeMessage] reverts with "Chain not
    supported". Otherwise [sendBridgeMessage] reverts with "Insufficient fee"
    for every payment below the estimate and succeeds for every payment from
    the estimate on, and the bridge keeps the whole payment. *)
Theorem estimateBridgeFee_is_the_price
    (env : Env) (destinationChainId : N) (msg : list N) (n : BR.Net) :
  nomad_fee (N.of_nat (length msg)) <= MAX_UINT256 ->
  (BR.bridgeOf (BR.store n) destinationChainId = 0 ->
   BR.estimateBridgeFee destinationChainId msg n = Ok (0, n))
  /\ (forall b,
        BR.bridgeOf (BR.store n) destinationChainId ≠ 0 ->
        BR.bridges n !! BR.bridgeOf (BR.store n) destinationChainId = Some b ->
        BR.estimateBridgeFee destinationChainId msg n
        = Ok (nomad_fee (N.of_nat (length msg)), n)
        /\ (forall msg_value,
              NB.balance b + msg_value <= MAX_UINT256 ->
              NB.nextMessageId b + 1 <= MAX_UINT256 ->
              this env ≠ 0 ->
              (rd 0 (NB.nomadDomains b) destinationChainId = 0 ->
               BR.sendBridgeMessage env destinationChainId msg msg_value n
               = Err (RequireFailed "Chain not supported"))
              /\ (rd 0 (NB.nomadDomains b) destinationChainId ≠ 0 ->
                  msg_value < nomad_fee (N.of_nat (length msg)) ->
                  BR.sendBridgeMessage env destinationChainId msg msg_value n
                  = Err (RequireFailed "Insufficient fee"))
              /\ (rd 0 (NB.nomadDomains b) destinationChainId ≠ 0 ->
                  nomad_fee (N.of_nat (length msg)) <= msg_value ->
                  exists id n' b',
                    BR.sendBridgeMessage env destinationChainId msg msg_value n
                    = Ok (id, n')
                    /\ BR.bridges n' !! BR.bridgeOf (BR.store n) destinationChainId
                       = Some b'
                    /\ NB.balance b' = NB.balance b + msg_value
                    /\ NB.fee (rd NB.zeroMessage (NB.messages b') id) = msg_value))).
Proof.
  intros Hfee. split.
  - intros Hz. unfold BR.estimateBridgeFee. unfold_monad. cbn.
    rewrite decide_True by exact Hz. reflexivity.
  - intros b Haddr Hb. split.
    + unfold BR.estimateBridgeFee, BR.onBridge. unfold_monad. cbn.
      rewrite decide_False by exact Haddr. rewrite Hb.
      rewrite estimateFee_run by exact Hfee.
      destruct n as [st bs]. cbn [BR.store BR.bridges] in *.
      rewrite insert_id by exact Hb. reflexivity.
    + intros v Hbal Hnext Hthis.
      rewrite (sendBridgeMessage_run _ _ _ _ _ _ Haddr Hb).
      rewrite sendMessage_cases by assumption.
      split; [|split].
      * intros Hdom. rewrite decide_True by exact Hdom. reflexivity.
      * intros Hdom Hlow. rewrite decide_False by exact Hdom.
        rewrite decide_False by exact Hthis. rewrite decide_True by exact Hlow.
        reflexivity.
      * intros Hdom Hpaid. rewrite decide_False by exact Hdom.
        rewrite decide_False by exact Hthis. rewrite decide_False by lia.
        eexists _, _, _. split; [reflexivity|].
        cbn [BR.bridges BR.store]. split; [apply lookup_insert_eq|].
        cbn. rewrite rd_insert_eq. split; reflexivity.
Qed.

Lemma estimateBridgeFee_is_the_price_witness :
  BR.estimateBridgeFee 137 [1; 2; 3] sampleNet = Ok (3000300000000000, sampleNet)
  /\ BR.estimateBridgeFee 5 [1; 2; 3] sampleNet = Ok (0, sampleNet)
  /\ BR.sendBridgeMessage (at_time 8 50) 137 [1; 2; 3] 3000299999999999 sampleNet
     = Err (RequireFailed "Insufficient fee").
Proof.
  assert (Hfee : nomad_fee (N.of_nat (length [1; 2; 3])) <= MAX_UINT256)
    by (vm_compute; intros E; discriminate E).
  destruct (estimateBridgeFee_is_the_price (at_time 8 50) 137 [1; 2; 3] sampleNet Hfee)
    as [_ Hset].
  destruct (estimateBridgeFee_is_the_price (at_time 8 50) 5 [1; 2; 3] sampleNet Hfee)
    as [Hunset _].
  destruct (Hset (NB.init 9)) as [Hest Hsend].
  { vm_compute. intros E; discriminate E. }
  { vm_compute. reflexivity. }
  split; [exact Hest|]. split.
  - apply Hunset. vm_compute. reflexivity.
  - destruct (Hsend 3000299999999999) as (_ & Hlow & _).
    + vm_compute. intros E; discriminate E.
    + vm_compute. intros E; discriminate E.
    + vm_compute. intros E; discriminate E.
    + apply Hlow; vm_compute; first [reflexivity | intros E; discriminate E].
Defined.
